(** * Label-standardization verifier: a shallow embedding and its properties

    The repository holds two variants of one script:
    - [src/verify_label_standard.py], the simplified variant ([Module Simplified]);
    - [src/label-verification-project/verify_label_standard.py], the full
      variant ([Module Full]).

    Both are classes with the same method names.  Methods become functions in
    a state-and-exception monad over the verifier object, the requests sent
    and the two output streams.  Python strings are lists of code points. *)

From Stdlib Require Import NArith ZArith String Ascii DecimalString.
From stdpp Require Import base option list gmap.

Local Open Scope N_scope.

(** ** Python strings *)

(** A [str] is a sequence of Unicode code points. *)
Abbreviation pystr := (list N).

(** UTF-8 decoding of a byte sequence, as [bytes.decode("utf-8")] does it:
    [None] stands for [UnicodeDecodeError].  Overlong forms, surrogates and
    code points above U+10FFFF are refused. *)
Definition is_cont (b : N) : bool := (0x80 <=? b) && (b <=? 0xBF).

Fixpoint utf8_decode (bs : list N) : option pystr :=
  match bs with
  | [] => Some []
  | b0 :: r0 =>
    if b0 <? 0x80 then cons b0 <$> utf8_decode r0
    else if (0xC2 <=? b0) && (b0 <=? 0xDF) then
      match r0 with
      | b1 :: r1 =>
        if is_cont b1
        then cons ((b0 - 0xC0) * 64 + (b1 - 0x80)) <$> utf8_decode r1
        else None
      | _ => None
      end
    else if (0xE0 <=? b0) && (b0 <=? 0xEF) then
      match r0 with
      | b1 :: b2 :: r2 =>
        let cp := (b0 - 0xE0) * 4096 + (b1 - 0x80) * 64 + (b2 - 0x80) in
        if is_cont b1 && is_cont b2 && (0x800 <=? cp)
           && negb ((0xD800 <=? cp) && (cp <=? 0xDFFF))
        then cons cp <$> utf8_decode r2
        else None
      | _ => None
      end
    else if (0xF0 <=? b0) && (b0 <=? 0xF4) then
      match r0 with
      | b1 :: b2 :: b3 :: r3 =>
        let cp := (b0 - 0xF0) * 262144 + (b1 - 0x80) * 4096
                  + (b2 - 0x80) * 64 + (b3 - 0x80) in
        if is_cont b1 && is_cont b2 && is_cont b3
           && (0x10000 <=? cp) && (cp <=? 0x10FFFF)
        then cons cp <$> utf8_decode r3
        else None
      | _ => None
      end
    else None
  end.

Definition bytes_of_string (s : string) : list N :=
  N_of_ascii <$> list_ascii_of_string s.

(** A source literal: the file is UTF-8, so a literal's bytes decode to the
    code points the Python literal denotes. *)
Definition py (s : string) : pystr := default [] (utf8_decode (bytes_of_string s)).

(** [str(n)] for an integer. *)
Definition str_of_Z (n : Z) : pystr :=
  bytes_of_string (NilZero.string_of_int (Z.to_int n)).

Definition str_of_nat (n : nat) : pystr := str_of_Z (Z.of_nat n).

Definition str_eqb (a b : pystr) : bool := bool_decide (a = b).

(** [str.isspace] on one code point: the characters [str.strip()] removes. *)
Definition isspace (c : N) : bool :=
  ((0x09 <=? c) && (c <=? 0x0D)) || ((0x1C <=? c) && (c <=? 0x20))
  || (c =? 0x85) || (c =? 0xA0) || (c =? 0x1680)
  || ((0x2000 <=? c) && (c <=? 0x200A))
  || (c =? 0x2028) || (c =? 0x2029) || (c =? 0x202F) || (c =? 0x205F)
  || (c =? 0x3000).

Fixpoint lstrip_by (p : N → bool) (s : pystr) : pystr :=
  match s with
  | [] => []
  | c :: r => if p c then lstrip_by p r else s
  end.

Definition rstrip_by (p : N → bool) (s : pystr) : pystr :=
  reverse (lstrip_by p (reverse s)).

Definition strip_by (p : N → bool) (s : pystr) : pystr :=
  rstrip_by p (lstrip_by p s).

(** [s.strip()] *)
Definition strip (s : pystr) : pystr := strip_by isspace s.

(** [s.strip(chars)] *)
Definition strip_chars (chars s : pystr) : pystr :=
  strip_by (λ c, bool_decide (c ∈ chars)) s.

(** [s.startswith(prefix)] *)
Fixpoint startswith (pre s : pystr) : bool :=
  match pre, s with
  | [], _ => true
  | _ :: _, [] => false
  | a :: pre', b :: s' => (a =? b) && startswith pre' s'
  end.

(** [needle in s] *)
Fixpoint contains (needle s : pystr) : bool :=
  startswith needle s ||
  match s with
  | [] => false
  | _ :: r => contains needle r
  end.

(** [s.split(sep)] for a separator of one character. *)
Fixpoint split_on (sep : N) (s : pystr) : list pystr :=
  match s with
  | [] => [[]]
  | c :: r =>
    if c =? sep then [] :: split_on sep r
    else match split_on sep r with
         | [] => [[c]]
         | h :: t => (c :: h) :: t
         end
  end.

(** [sep.join(parts)] *)
Fixpoint join (sep : pystr) (parts : list pystr) : pystr :=
  match parts with
  | [] => []
  | [p] => p
  | p :: rest => p ++ sep ++ join sep rest
  end.

(** [any(kw in s for kw in kws)] *)
Definition any_in (kws : list pystr) (s : pystr) : bool :=
  existsb (λ kw, contains kw s) kws.

Definition ch_pipe : N := 124.
Definition ch_newline : N := 10.
Definition s_pipe : pystr := [ch_pipe].
Definition s_hash : pystr := [35].
Definition s_dashes : pystr := [45; 45; 45].

Arguments py : simpl never.

(** ** JSON values and the dynamic operations the script applies to them *)

(** What [response.json()] returns.  Numbers are the integers the GitHub
    payloads carry (ids, counts).  Python's [None] is [JNull]. *)
#[warnings="-register-all"]
Inductive json :=
| JNull
| JBool (b : bool)
| JNum (n : Z)
| JStr (s : pystr)
| JArr (items : list json)
| JObj (fields : list (pystr * json)).

(** The exceptions the two scripts can meet. *)
Inductive exn := KeyError | ValueError | TypeError | AttributeError | IndexError.

Inductive res (A : Type) :=
| Ok (a : A)
| Raise (e : exn).
Arguments Ok {A} a.
Arguments Raise {A} e.

#[global] Instance exn_eq_dec : EqDecision exn.
Proof. solve_decision. Defined.

#[global] Instance res_ret : MRet res := λ A a, Ok a.
#[global] Instance res_bind : MBind res := λ A B f m,
  match m with
  | Ok a => f a
  | Raise e => Raise e
  end.

(** Lookup of a key among the items of a dict. *)
Fixpoint assoc {V} (k : pystr) (kvs : list (pystr * V)) : option V :=
  match kvs with
  | [] => None
  | (k', v) :: r => if str_eqb k k' then Some v else assoc k r
  end.

(** [bool(j)] *)
Definition truthy (j : json) : bool :=
  match j with
  | JNull => false
  | JBool b => b
  | JNum n => negb (n =? 0)%Z
  | JStr s => negb (bool_decide (s = []))
  | JArr l => negb (bool_decide (l = []))
  | JObj f => match f with [] => false | _ => true end
  end.

(** [j[key]] for a string key *)
Definition getitem (j : json) (key : pystr) : res json :=
  match j with
  | JObj f => match assoc key f with Some v => Ok v | None => Raise KeyError end
  | _ => Raise TypeError
  end.

(** [j.get(key, dflt)] *)
Definition get_default (j : json) (key : pystr) (dflt : json) : res json :=
  match j with
  | JObj f => Ok (default dflt (assoc key f))
  | _ => Raise AttributeError
  end.

(** [j.get(key)] *)
Definition get (j : json) (key : pystr) : res json := get_default j key JNull.

Definition is_str (s : pystr) (j : json) : bool :=
  match j with
  | JStr s' => str_eqb s s'
  | _ => false
  end.

(** [needle in j] for a string [needle] *)
Definition str_in (needle : pystr) (j : json) : res bool :=
  match j with
  | JObj f => Ok (bool_decide (is_Some (assoc needle f)))
  | JArr l => Ok (existsb (is_str needle) l)
  | JStr s => Ok (contains needle s)
  | _ => Raise TypeError
  end.

(** [any(kw in j for kw in kws)]: the generator stops at the first hit. *)
Fixpoint any_str_in (kws : list pystr) (j : json) : res bool :=
  match kws with
  | [] => Ok false
  | kw :: rest =>
    b ← str_in kw j;
    if b : bool then Ok true else any_str_in rest j
  end.

(** [for x in j]: the items a loop over [j] visits. *)
Definition iterate (j : json) : res (list json) :=
  match j with
  | JArr l => Ok l
  | JObj f => Ok ((λ kv, JStr kv.1) <$> f)
  | JStr s => Ok ((λ c, JStr [c]) <$> s)
  | _ => Raise TypeError
  end.

(** Library functions of Python the scripts call and this development does
    not define: case mapping needs the Unicode tables, [base64.b64decode]
    is lenient in ways that changed between releases, and [str] of a list or
    dict needs [repr]. *)
Class PyLib := {
  (** [s.lower()] *)
  str_lower : pystr → pystr;
  (** [base64.b64decode(s)] on a [str]; [None] is [binascii.Error], a [ValueError] *)
  b64decode : pystr → option (list N);
  (** [str(j)] for a list or a dict *)
  str_of_container : json → pystr
}.

Section Dynamic.
Context `{PyLib}.

(** [j.lower()] *)
Definition lower (j : json) : res pystr :=
  match j with
  | JStr s => Ok (str_lower s)
  | _ => Raise AttributeError
  end.

(** [str(j)], what an f-string inserts for [{j}] *)
Definition str_of (j : json) : pystr :=
  match j with
  | JNull => py "None"
  | JBool true => py "True"
  | JBool false => py "False"
  | JNum n => str_of_Z n
  | JStr s => s
  | _ => str_of_container j
  end.

(** [base64.b64decode(j).decode("utf-8")] *)
Definition b64decode_utf8 (j : json) : res pystr :=
  match j with
  | JStr s =>
    match b64decode s with
    | Some bytes =>
      match utf8_decode bytes with
      | Some text => Ok text
      | None => Raise ValueError
      end
    | None => Raise ValueError
    end
  | _ => Raise TypeError
  end.

(** [base64.b64decode(response["content"]).decode("utf-8")] *)
Definition response_content (response : json) : res pystr :=
  c ← getitem response (py "content"); b64decode_utf8 c.
End Dynamic.

(** [str(o)] for [os.environ.get(...)], which is a string or [None] *)
Definition str_of_opt (o : option pystr) : pystr := default (py "None") o.

(** ** The process: verifier object, network and output streams *)

Record Request := {
  req_url : pystr;
  req_headers : option (list (pystr * pystr));
  req_timeout : Z
}.

Inductive json_result :=
| JsonOk (j : json)
| JsonDecodeError (msg : pystr).

(** What [requests.get] does: a response, or a [RequestException] with its
    text.  [response.json()] on a body that is not JSON raises
    [requests.exceptions.JSONDecodeError], itself a [RequestException]. *)
Inductive http_outcome :=
| HttpResponse (status_code : Z) (body : json_result)
| HttpRequestException (msg : pystr).

(** The surroundings of a run: the environment after [load_dotenv], the
    server's answer to a request given the requests before it, and the
    clock read at the n-th recorded result. *)
Record World := {
  environ : pystr → option pystr;
  http_get : list Request → Request → http_outcome;
  now_isoformat : nat → pystr
}.

Record VerificationResult := {
  task : pystr;
  message : pystr;
  status : pystr;
  timestamp : option pystr
}.

(** The fields of [LabelStandardizationVerifier] (the configuration is a
    constant of each variant), then the requests sent so far and the lines
    printed to the two streams. *)
Record State := {
  org : option pystr;
  repo : option pystr;
  headers : option (list (pystr * pystr));
  verification_results : list VerificationResult;
  has_critical_error : bool;
  sent : list Request;
  stdout : list pystr;
  stderr : list pystr
}.

(** [__init__] *)
Definition init : State := {|
  org := None; repo := None; headers := None;
  verification_results := []; has_critical_error := false;
  sent := []; stdout := []; stderr := []
|}.

Definition M (A : Type) : Type := State → res A * State.

#[global] Instance M_ret : MRet M := λ A a s, (Ok a, s).
#[global] Instance M_bind : MBind M := λ A B f m s,
  match m s with
  | (Ok a, s') => f a s'
  | (Raise e, s') => (Raise e, s')
  end.

Definition lift {A} (r : res A) : M A := λ s, (r, s).

(** [try: body except (caught...): handler] *)
Definition try_except {A} (body : M A) (caught : list exn) (handler : M A) : M A :=
  λ s, match body s with
       | (Raise e, s') =>
         if bool_decide (e ∈ caught) then handler s' else (Raise e, s')
       | r => r
       end.

Definition set_org (o : option pystr) : M () := λ s,
  (Ok (), {| org := o; repo := repo s; headers := headers s;
             verification_results := verification_results s;
             has_critical_error := has_critical_error s;
             sent := sent s; stdout := stdout s; stderr := stderr s |}).

Definition set_repo (o : option pystr) : M () := λ s,
  (Ok (), {| org := org s; repo := o; headers := headers s;
             verification_results := verification_results s;
             has_critical_error := has_critical_error s;
             sent := sent s; stdout := stdout s; stderr := stderr s |}).

Definition set_headers (h : option (list (pystr * pystr))) : M () := λ s,
  (Ok (), {| org := org s; repo := repo s; headers := h;
             verification_results := verification_results s;
             has_critical_error := has_critical_error s;
             sent := sent s; stdout := stdout s; stderr := stderr s |}).

(** [self.verification_results.append(r)] *)
Definition append_result (r : VerificationResult) : M () := λ s,
  (Ok (), {| org := org s; repo := repo s; headers := headers s;
             verification_results := verification_results s ++ [r];
             has_critical_error := has_critical_error s;
             sent := sent s; stdout := stdout s; stderr := stderr s |}).

(** [self.has_critical_error = True] *)
Definition set_has_critical_error : M () := λ s,
  (Ok (), {| org := org s; repo := repo s; headers := headers s;
             verification_results := verification_results s;
             has_critical_error := true;
             sent := sent s; stdout := stdout s; stderr := stderr s |}).

(** [print(line)] *)
Definition print (line : pystr) : M () := λ s,
  (Ok (), {| org := org s; repo := repo s; headers := headers s;
             verification_results := verification_results s;
             has_critical_error := has_critical_error s;
             sent := sent s; stdout := stdout s ++ [line]; stderr := stderr s |}).

(** [print(line, file=sys.stderr)] *)
Definition eprint (line : pystr) : M () := λ s,
  (Ok (), {| org := org s; repo := repo s; headers := headers s;
             verification_results := verification_results s;
             has_critical_error := has_critical_error s;
             sent := sent s; stdout := stdout s; stderr := stderr s ++ [line] |}).

Definition read {A} (f : State → A) : M A := λ s, (Ok (f s), s).

(** [requests.get(url, headers=self.headers, timeout=30)]: one request goes
    out and the server's answer comes back. *)
Definition request_for (s : State) (url : pystr) : Request :=
  {| req_url := url; req_headers := headers s; req_timeout := 30 |}.

Definition requests_get (w : World) (url : pystr) : M http_outcome := λ s,
  let rq := request_for s url in
  (Ok (http_get w (sent s) rq),
   {| org := org s; repo := repo s; headers := headers s;
      verification_results := verification_results s;
      has_critical_error := has_critical_error s;
      sent := sent s ++ [rq]; stdout := stdout s; stderr := stderr s |}).

(** The three status strings and the test [status == "critical"]. *)
Definition s_success : pystr := Eval vm_compute in py "success".
Definition s_warning : pystr := Eval vm_compute in py "warning".
Definition s_critical : pystr := Eval vm_compute in py "critical".

Definition is_critical (r : VerificationResult) : bool := str_eqb (status r) s_critical.

(** [sys.exit(0 if success else 1)]; an exception nobody catches ends the
    interpreter with exit code 1. *)
Definition exit_code (r : res bool) : Z :=
  match r with
  | Ok true => 0
  | Ok false => 1
  | Raise _ => 1
  end.

(** [l[i]] on a list *)
Definition index {A} (l : list A) (i : nat) : res A :=
  match l !! i with
  | Some x => Ok x
  | None => Raise IndexError
  end.

(** [not o] for a string or [None] *)
Definition opt_falsy (o : option pystr) : bool :=
  match o with
  | Some (_ :: _) => false
  | _ => true
  end.

(** [sum(1 for r in results if r["status"] == st)] *)
Definition count_status (st : pystr) (rs : list VerificationResult) : nat :=
  length (filter (λ r, status r = st) rs).

(** [for x in l: f(x)] *)
Fixpoint for_each {A} (f : A → M ()) (l : list A) : M () :=
  match l with
  | [] => mret ()
  | x :: r => f x;; for_each f r
  end.

(** ** The simplified variant: [src/verify_label_standard.py] *)
Module Simplified.

Record Config := {
  target_repo : pystr;
  feature_branch_name : pystr;
  feature_branch_doc_file : pystr;
  label_document_min_label_count : nat;
  expected_labels : list pystr
}.

(** The row [{"name": ..., "color": ...}] *)
Record LabelRow := { name : pystr; color : pystr }.

(** [load_configuration] *)
Definition load_configuration : Config := {|
  target_repo := py "GIT-HUB";
  feature_branch_name := py "main";
  feature_branch_doc_file := py "docs/label-color-standardization.md";
  label_document_min_label_count := 12;
  expected_labels := py <$> [
    "bug"; "enhancement"; "documentation"; "feature"; "question";
    "priority-high"; "priority-medium"; "priority-low";
    "status-in-progress"; "status-review"; "status-done"; "status-blocked"
  ]%string
|}.

(** The loop body of [parse_label_table], over the lines still to read and
    the rows appended so far. *)
Fixpoint parse_lines (lines : list pystr) (labels : list LabelRow)
  : res (list LabelRow) :=
  match lines with
  | [] => Ok labels
  | line :: rest =>
    let line := strip line in
    if startswith s_pipe line && contains s_hash line
       && negb (contains s_dashes line)
    then
      let cells := strip <$> split_on ch_pipe (strip_chars s_pipe line) in
      ok ← (if bool_decide (2 ≤ length cells)%nat then
              c0 ← index cells 0;
              if bool_decide (c0 ≠ []) then
                c1 ← index cells 1; Ok (startswith s_hash c1)
              else Ok false
            else Ok false);
      if ok : bool then
        c0 ← index cells 0;
        c1 ← index cells 1;
        parse_lines rest (labels ++ [{| name := c0; color := c1 |}])
      else parse_lines rest labels
    else parse_lines rest labels
  end.

Definition parse_label_table (content : pystr) : res (list LabelRow) :=
  parse_lines (split_on ch_newline content) [].

Definition title_keywords : list pystr := py <$> ["标签"; "label"; "标准化"]%string.
Definition body_keywords : list pystr := py <$> ["标签体系"; "颜色规范"]%string.

Definition config : Config := load_configuration.

(** The [url] of [github_api_request], from [self.org], [self.repo] and
    the endpoint. *)
Definition api_url (org repo : option pystr) (endpoint : pystr) : pystr :=
  if str_eqb endpoint [] then
    py "https://api.github.com/repos/" ++ str_of_opt org ++ py "/"
    ++ str_of_opt repo
  else
    py "https://api.github.com/repos/" ++ str_of_opt org ++ py "/"
    ++ str_of_opt repo ++ py "/" ++ endpoint.

Definition status_symbol (st : pystr) : pystr :=
  if str_eqb st s_success then py "✅"
  else if str_eqb st s_critical then py "❌"
  else py "⚠️".

Section Methods.
Context `{PyLib} (w : World).

(** [record_result]; every caller passes the status, so its default
    ["info"] is never used. *)
Definition record_result (task message status : pystr) : M () :=
  let result := {| task := task; message := message; status := status;
                   timestamp := None |} in
  append_result result;;
  (if str_eqb status s_critical then set_has_critical_error else mret ());;
  print (status_symbol status ++ py " " ++ task ++ py ": " ++ message).

Definition github_api_request (endpoint : pystr) : M (bool * json) :=
  org ← read org;
  repo ← read repo;
  let url := api_url org repo endpoint in
  out ← requests_get w url;
  match out with
  | HttpResponse code body =>
    if (code =? 200)%Z then
      match body with
      | JsonOk j => mret (true, j)
      | JsonDecodeError _ => mret (false, JNull)
      end
    else mret (false, JNull)
  | HttpRequestException _ => mret (false, JNull)
  end.

Definition setup_environment : M bool :=
  let github_token := environ w (py "GITHUB_TOKEN") in
  set_org (environ w (py "GITHUB_ORG"));;
  set_repo (Some (target_repo config));;
  org ← read org;
  if opt_falsy github_token || opt_falsy org then mret false
  else
    set_headers (Some [
      (py "Authorization", py "token " ++ str_of_opt github_token);
      (py "Accept", py "application/vnd.github.v3+json")]);;
    r ← github_api_request [];
    if negb r.1 then mret false
    else
      record_result (py "环境验证") (py "环境配置正确，API连接成功") s_success;;
      mret true.

Definition verify_branch_existence : M bool :=
  let branch_name := feature_branch_name config in
  r ← github_api_request (py "branches/" ++ branch_name);
  if r.1 : bool then
    record_result (py "分支验证")
      (py "功能分支 " ++ branch_name ++ py " 存在") s_success;;
    mret true
  else
    record_result (py "分支验证")
      (py "功能分支 " ++ branch_name ++ py " 不存在") s_critical;;
    mret false.

Definition verify_label_document : M bool :=
  let branch_name := feature_branch_name config in
  let doc_file := feature_branch_doc_file config in
  r ← github_api_request (py "contents/" ++ doc_file ++ py "?ref=" ++ branch_name);
  let response := r.2 in
  if negb r.1 then
    record_result (py "文档验证")
      (py "标签文档 " ++ doc_file ++ py " 不存在") s_critical;;
    mret false
  else
    decoded ← try_except
      (content ← lift (response_content response);
       mret (Some content))
      [KeyError; ValueError]
      (record_result (py "文档验证") (py "文档内容解码失败") s_critical;;
       mret None);
    match decoded with
    | None => mret false
    | Some content =>
      labels ← lift (parse_label_table content);
      let min_count := label_document_min_label_count config in
      (if bool_decide (length labels < min_count)%nat then
         record_result (py "文档验证")
           (py "标签数量不足: 需要至少 " ++ str_of_nat min_count
            ++ py " 个, 实际 " ++ str_of_nat (length labels) ++ py " 个")
           s_warning
       else
         record_result (py "文档验证")
           (py "标签文档完整, 包含 " ++ str_of_nat (length labels)
            ++ py " 个标签") s_success);;
      mret true
    end.

(** The search loop of [verify_standardization_issue]: [Ok None] when the
    loop ends without [break]. *)
Fixpoint find_target_issue (issues : list json) : res (option json) :=
  match issues with
  | [] => Ok None
  | issue :: rest =>
    is_pr ← str_in (py "pull_request") issue;
    if is_pr : bool then find_target_issue rest
    else
      t ← get_default issue (py "title") (JStr []);
      title ← lower t;
      b ← get issue (py "body");
      body ← (if truthy b then
                b' ← get_default issue (py "body") (JStr []); lower b'
              else Ok []);
      if any_in title_keywords title || any_in body_keywords body
      then Ok (Some issue)
      else find_target_issue rest
  end.

(** Returns the issue found, [JNull] for [None]. *)
Definition verify_standardization_issue : M json :=
  r ← github_api_request (py "issues?state=all&per_page=100");
  let issues := r.2 in
  if negb r.1 then
    record_result (py "Issue验证") (py "无法获取Issue列表") s_critical;;
    mret JNull
  else
    found ← lift (l ← iterate issues; find_target_issue l);
    let target_issue := default JNull found in
    if negb (truthy target_issue) then
      record_result (py "Issue验证") (py "未找到标准化需求Issue") s_warning;;
      mret JNull
    else
      number ← lift (getitem target_issue (py "number"));
      title ← lift (getitem target_issue (py "title"));
      record_result (py "Issue验证")
        (py "标准化Issue #" ++ str_of number ++ py " 验证完成: " ++ str_of title)
        s_success;;
      mret target_issue.

Definition print_result_line (r : VerificationResult) : M () :=
  print (status_symbol (status r) ++ py " " ++ task r ++ py ": " ++ message r).

Definition generate_report : M bool :=
  print (py "
" ++ mjoin (replicate 60 (py "=")));;
  print (py "GitHub标签颜色标准化验证报告");;
  print (mjoin (replicate 60 (py "=")));;
  results ← read verification_results;
  let success_count := count_status s_success results in
  let warning_count := count_status s_warning results in
  let error_count := count_status s_critical results in
  print (py "验证任务总数: " ++ str_of_nat (length results));;
  print (py "成功: " ++ str_of_nat success_count ++ py " | 警告: "
         ++ str_of_nat warning_count ++ py " | 错误: "
         ++ str_of_nat error_count);;
  print (mjoin (replicate 60 (py "-")));;
  for_each print_result_line results;;
  print (mjoin (replicate 60 (py "=")));;
  critical ← read has_critical_error;
  if critical : bool then
    print (py "❌ 验证失败: 存在关键错误");; mret false
  else
    print (py "✅ 所有验证通过!");; mret true.

Definition run_verification : M bool :=
  print (py "开始GitHub标签颜色标准化验证...");;
  org ← read org;
  repo ← read repo;
  print (py "目标仓库: " ++ str_of_opt org ++ py "/" ++ str_of_opt repo);;
  print (mjoin (replicate 40 (py "-")));;
  ok ← setup_environment;
  if negb ok then mret false else
  ok ← verify_branch_existence;
  if negb ok then mret false else
  ok ← verify_label_document;
  if negb ok then mret false else
  verify_standardization_issue;;
  generate_report.

(** [main]: the exit code of the process and the final state. *)
Definition main : Z * State :=
  let r := run_verification init in
  (exit_code r.1, r.2).
End Methods.
End Simplified.

(** ** Hashable values: the elements of the sets the full variant builds *)

(** A Python set holds hashable values and identifies equal ones; among the
    JSON scalars, [True == 1] and [False == 0]. *)
Inductive key :=
| KNone
| KNum (n : Z)
| KStr (s : pystr).

#[global] Instance key_eq_dec : EqDecision key.
Proof. solve_decision. Defined.

#[global] Instance key_countable : Countable key.
Proof.
  refine (inj_countable'
    (λ k, match k with
          | KNone => inl ()
          | KNum n => inr (inl n)
          | KStr s => inr (inr s)
          end)
    (λ x, match x with
          | inl _ => KNone
          | inr (inl n) => KNum n
          | inr (inr s) => KStr s
          end) _).
  by intros [].
Defined.

(** [hash(j)] succeeds on scalars only. *)
Definition hashable (j : json) : res key :=
  match j with
  | JNull => Ok KNone
  | JBool b => Ok (KNum (if b then 1 else 0))
  | JNum n => Ok (KNum n)
  | JStr s => Ok (KStr s)
  | _ => Raise TypeError
  end.

(** [set(l)] *)
Definition set_of (l : list json) : res (gset key) :=
  ks ← mapM hashable l; Ok (list_to_set ks).

(** [{label["name"] for label in labels}]: each name is hashed as soon as
    it is read. *)
Definition name_set (labels : json) : res (gset key) :=
  l ← iterate labels;
  ks ← mapM (λ label, n ← getitem label (py "name"); hashable n) l;
  Ok (list_to_set ks).

(** [set(l)] for a list of strings *)
Definition set_of_strs (l : list pystr) : gset key := list_to_set (KStr <$> l).

(** [dict(zip(ks, vs))]: later pairs overwrite earlier ones. *)
Definition dict_zip (ks vs : list pystr) : gmap pystr pystr :=
  foldl (λ m kv, <[kv.1 := kv.2]> m) ∅ (zip ks vs).

(** [[label["name"] for label in j.get("labels", [])]] *)
Definition label_names (j : json) : res (list json) :=
  labels ← get_default j (py "labels") (JArr []);
  l ← iterate labels;
  mapM (λ label, getitem label (py "name")) l.

(** [[k for k in kws if k not in j]] *)
Fixpoint missing_from (kws : list pystr) (j : json) : res (list pystr) :=
  match kws with
  | [] => Ok []
  | kw :: rest =>
    b ← str_in kw j;
    r ← missing_from rest j;
    Ok (if b : bool then r else kw :: r)
  end.

(** ** The full variant: [src/label-verification-project/verify_label_standard.py] *)
Module Full.

Record Config := {
  target_repo : pystr;
  feature_branch_name : pystr;
  feature_branch_doc_file : pystr;
  label_document_table_header : pystr;
  label_document_min_label_count : nat;
  label_document_required_columns : list pystr;
  issue_validation_title_keywords : list pystr;
  issue_validation_body_keywords : list pystr;
  issue_validation_required_labels : list pystr;
  issue_validation_required_sections : list pystr;
  pr_validation_title_keywords : list pystr;
  pr_validation_body_keywords : list pystr;
  pr_validation_required_labels : list pystr;
  pr_validation_required_sections : list pystr;
  pr_validation_min_labels_count : nat;
  expected_labels : list pystr;
  core_labels : list pystr
}.

(** [load_configuration] *)
Definition load_configuration : Config := {|
  target_repo := py "GIT-HUB";
  feature_branch_name := py "feat/label-standardization";
  feature_branch_doc_file := py "docs/labels-standard.md";
  label_document_table_header := py "| 标签名称 | 颜色值 | 描述 |";
  label_document_min_label_count := 15;
  label_document_required_columns := py <$> ["标签名称"; "颜色值"; "描述"]%string;
  issue_validation_title_keywords :=
    py <$> ["标签标准化"; "Label Standardization"]%string;
  issue_validation_body_keywords :=
    py <$> ["标签体系"; "颜色规范"; "标准化需求"]%string;
  issue_validation_required_labels :=
    py <$> ["enhancement"; "documentation"]%string;
  issue_validation_required_sections :=
    py <$> ["## 问题描述"; "## 预期标准"; "## 标签清单"]%string;
  pr_validation_title_keywords :=
    py <$> ["实施标签标准化"; "Label Standardization Implementation"]%string;
  pr_validation_body_keywords :=
    py <$> ["关联Issue"; "标签变更"; "测试结果"]%string;
  pr_validation_required_labels :=
    py <$> ["documentation"; "enhancement"]%string;
  pr_validation_required_sections :=
    py <$> ["## 修改摘要"; "## 标签变更"; "## 测试结果"]%string;
  pr_validation_min_labels_count := 3;
  expected_labels := py <$> [
    "bug"; "enhancement"; "documentation"; "feature"; "question";
    "help-wanted"; "good-first-issue"; "priority-high";
    "priority-medium"; "priority-low"; "status-in-progress";
    "status-review"; "status-done"; "status-blocked"; "wontfix"
  ]%string;
  core_labels := py <$> [
    "bug"; "enhancement"; "documentation"; "priority-high";
    "priority-medium"; "priority-low"
  ]%string
|}.

Definition config : Config := load_configuration.

(** The loop of [parse_label_table] over the lines still to read, with the
    loop's variables [in_table], [headers] and [labels]. *)
Fixpoint parse_lines (table_header : pystr) (lines : list pystr)
    (in_table : bool) (headers : list pystr)
    (labels : list (gmap pystr pystr)) : list (gmap pystr pystr) :=
  match lines with
  | [] => labels
  | line :: rest =>
    if contains table_header line then
      parse_lines table_header rest true
        (strip <$> split_on ch_pipe (strip_chars s_pipe line)) labels
    else
      let labels' :=
        if in_table && startswith s_pipe line && negb (contains s_dashes line)
        then
          let values := strip <$> split_on ch_pipe (strip_chars s_pipe line) in
          if bool_decide (3 ≤ length values)%nat
          then labels ++ [dict_zip headers values]
          else labels
        else labels in
      if in_table && bool_decide (strip line = []) then labels'
      else parse_lines table_header rest in_table headers labels'
  end.

Definition parse_label_table (content table_header : pystr)
  : list (gmap pystr pystr) :=
  parse_lines table_header (split_on ch_newline content) false [] [].

(** The search loops of [verify_standardization_issue] and
    [verify_standardization_pr]: [Ok None] when no [break] happens. *)
Fixpoint find_target_issue (title_keywords : list pystr) (issues : list json)
  : res (option json) :=
  match issues with
  | [] => Ok None
  | issue :: rest =>
    is_pr ← str_in (py "pull_request") issue;
    if is_pr : bool then find_target_issue title_keywords rest
    else
      title ← get_default issue (py "title") (JStr []);
      hit ← any_str_in title_keywords title;
      if hit : bool then Ok (Some issue)
      else find_target_issue title_keywords rest
  end.

Fixpoint find_target_pr (title_keywords : list pystr) (prs : list json)
  : res (option json) :=
  match prs with
  | [] => Ok None
  | pr :: rest =>
    title ← get_default pr (py "title") (JStr []);
    hit ← any_str_in title_keywords title;
    if hit : bool then Ok (Some pr)
    else find_target_pr title_keywords rest
  end.

(** [{label["标签名称"] for label in rows if "标签名称" in label}] *)
Definition doc_label_names (rows : list (gmap pystr pystr)) : gset key :=
  list_to_set (KStr <$> omap (λ row, row !! py "标签名称") rows).

Definition completion_keywords : list pystr :=
  py <$> ["完成"; "完成验证"; "已验证"; "标准化完成"]%string.

(** The [url] of [github_api_request]. *)
Definition api_url (org repo : option pystr) (endpoint : pystr) : pystr :=
  py "https://api.github.com/repos/" ++ str_of_opt org ++ py "/"
  ++ str_of_opt repo ++ py "/" ++ endpoint.

Definition status_symbol (st : pystr) : pystr :=
  if str_eqb st s_success then py "✅"
  else if str_eqb st s_critical then py "❌"
  else if str_eqb st s_warning then py "⚠️"
  else py "ℹ️".

Section Methods.
Context `{PyLib} (w : World).

(** [any(kw in body.lower() for kw in kws)]: [body.lower()] is evaluated
    for each keyword tried. *)
Fixpoint any_in_lower (kws : list pystr) (body : json) : res bool :=
  match kws with
  | [] => Ok false
  | kw :: rest =>
    low ← lower body;
    if contains kw low then Ok true else any_in_lower rest body
  end.

(** The loop of [verify_issue_comments] with its two flags. *)
Fixpoint scan_comments (pr_number : json) (comments : list json)
    (pr_reference_found completion_keyword_found : bool)
  : res (bool * bool) :=
  match comments with
  | [] => Ok (pr_reference_found, completion_keyword_found)
  | comment :: rest =>
    body ← get_default comment (py "body") (JStr []);
    by_hash ← str_in (py "#" ++ str_of pr_number) body;
    by_path ← (if by_hash : bool then Ok true
               else str_in (py "pull/" ++ str_of pr_number) body);
    done_kw ← any_in_lower completion_keywords body;
    scan_comments pr_number rest
      (if by_path : bool then true else pr_reference_found)
      (if done_kw : bool then true else completion_keyword_found)
  end.


(** [record_result]; every caller passes the status, so its default
    ["info"] is never used. *)
Definition record_result (task message status : pystr) : M () :=
  n ← read (λ s, length (verification_results s));
  let result := {| task := task; message := message; status := status;
                   timestamp := Some (now_isoformat w n) |} in
  append_result result;;
  (if str_eqb status s_critical then set_has_critical_error else mret ());;
  print (status_symbol status ++ py " " ++ task ++ py ": " ++ message).

Definition github_api_request (endpoint : pystr) : M (bool * json) :=
  org ← read org;
  repo ← read repo;
  let url := api_url org repo endpoint in
  out ← requests_get w url;
  match out with
  | HttpResponse code body =>
    if (code =? 200)%Z then
      match body with
      | JsonOk j => mret (true, j)
      | JsonDecodeError e =>
        eprint (py "[API错误] " ++ endpoint ++ py ": " ++ e);;
        mret (false, JNull)
      end
    else mret (false, JNull)
  | HttpRequestException e =>
    eprint (py "[API错误] " ++ endpoint ++ py ": " ++ e);;
    mret (false, JNull)
  end.

Definition setup_environment : M bool :=
  let github_token := environ w (py "GITHUB_TOKEN") in
  set_org (environ w (py "GITHUB_ORG"));;
  set_repo (Some (target_repo config));;
  if opt_falsy github_token then
    record_result (py "环境错误") (py "未配置 GITHUB_TOKEN") s_critical;;
    mret false
  else
    org ← read org;
    if opt_falsy org then
      record_result (py "环境错误") (py "未配置 GITHUB_ORG") s_critical;;
      mret false
    else
      set_headers (Some [
        (py "Authorization", py "token " ++ str_of_opt github_token);
        (py "Accept", py "application/vnd.github.v3+json");
        (py "X-GitHub-Api-Version", py "2022-11-28")]);;
      r ← github_api_request [];
      if negb r.1 then
        record_result (py "API连接失败") (py "无法访问GitHub API") s_critical;;
        mret false
      else
        record_result (py "环境验证") (py "环境配置正确，API连接成功") s_success;;
        mret true.

Definition verify_branch_existence : M bool :=
  let branch_name := feature_branch_name config in
  r ← github_api_request (py "branches/" ++ branch_name);
  if r.1 : bool then
    record_result (py "分支验证")
      (py "功能分支 " ++ branch_name ++ py " 存在") s_success;;
    mret true
  else
    record_result (py "分支验证")
      (py "功能分支 " ++ branch_name ++ py " 不存在") s_critical;;
    mret false.

Definition verify_label_document : M bool :=
  let branch_name := feature_branch_name config in
  let doc_file := feature_branch_doc_file config in
  r ← github_api_request (py "contents/" ++ doc_file ++ py "?ref=" ++ branch_name);
  let response := r.2 in
  if negb r.1 then
    record_result (py "文档验证")
      (py "标签文档 " ++ doc_file ++ py " 不存在") s_critical;;
    mret false
  else
    content ← lift (response_content response);
    let table_header := label_document_table_header config in
    if negb (contains table_header content) then
      record_result (py "文档验证") (py "标签文档缺少标准表格格式") s_critical;;
      mret false
    else
      let labels := parse_label_table content table_header in
      let min_count := label_document_min_label_count config in
      if bool_decide (length labels < min_count)%nat then
        record_result (py "文档验证")
          (py "标签数量不足: 需要至少 " ++ str_of_nat min_count
           ++ py " 个, 实际 " ++ str_of_nat (length labels) ++ py " 个")
          s_critical;;
        mret false
      else
        record_result (py "文档验证")
          (py "标签文档完整, 包含 " ++ str_of_nat (length labels)
           ++ py " 个标签") s_success;;
        mret true.

(** Returns the issue found, [JBool false] for [False]. *)
Definition verify_standardization_issue : M json :=
  let title_keywords := issue_validation_title_keywords config in
  r ← github_api_request (py "issues?state=all&per_page=50");
  let issues := r.2 in
  if negb r.1 then
    record_result (py "Issue验证") (py "无法获取Issue列表") s_critical;;
    mret (JBool false)
  else
    found ← lift (l ← iterate issues; find_target_issue title_keywords l);
    let target_issue := default JNull found in
    if negb (truthy target_issue) then
      record_result (py "Issue验证") (py "未找到标准化需求Issue") s_critical;;
      mret (JBool false)
    else
      issue_body ← lift (get_default target_issue (py "body") (JStr []));
      issue_labels ← lift (label_names target_issue);
      missing_keywords ←
        lift (missing_from (issue_validation_body_keywords config) issue_body);
      (if bool_decide (missing_keywords ≠ []) then
         record_result (py "Issue验证")
           (py "Issue缺少关键词: " ++ join (py ", ") missing_keywords) s_warning
       else mret ());;
      missing_sections ←
        lift (missing_from (issue_validation_required_sections config) issue_body);
      (if bool_decide (missing_sections ≠ []) then
         record_result (py "Issue验证")
           (py "Issue缺少章节: " ++ join (py ", ") missing_sections) s_warning
       else mret ());;
      missing_labels ←
        lift (missing_from (issue_validation_required_labels config)
                (JArr issue_labels));
      (if bool_decide (missing_labels ≠ []) then
         record_result (py "Issue验证")
           (py "Issue缺少标签: " ++ join (py ", ") missing_labels) s_warning
       else mret ());;
      number ← lift (getitem target_issue (py "number"));
      record_result (py "Issue验证")
        (py "标准化Issue #" ++ str_of number ++ py " 验证完成") s_success;;
      mret target_issue.

(** Returns the pull request found, [JNull] for [None]. *)
Definition verify_standardization_pr (issue : json) : M json :=
  let title_keywords := pr_validation_title_keywords config in
  r ← github_api_request (py "pulls?state=all&per_page=50");
  let prs := r.2 in
  if negb r.1 then
    record_result (py "PR验证") (py "无法获取PR列表") s_critical;;
    mret JNull
  else
    found ← lift (l ← iterate prs; find_target_pr title_keywords l);
    let target_pr := default JNull found in
    if negb (truthy target_pr) then
      record_result (py "PR验证") (py "未找到标准化实施PR") s_critical;;
      mret JNull
    else
      pr_body ← lift (get_default target_pr (py "body") (JStr []));
      pr_labels ← lift (label_names target_pr);
      issue_number ← lift (getitem issue (py "number"));
      linked ← lift (str_in (py "#" ++ str_of issue_number) pr_body);
      (if negb linked then
         record_result (py "PR验证") (py "PR未关联标准化Issue") s_warning
       else mret ());;
      missing_sections ←
        lift (missing_from (pr_validation_required_sections config) pr_body);
      (if bool_decide (missing_sections ≠ []) then
         record_result (py "PR验证")
           (py "PR缺少章节: " ++ join (py ", ") missing_sections) s_warning
       else mret ());;
      (if bool_decide (length pr_labels < pr_validation_min_labels_count config)%nat
       then
         record_result (py "PR验证")
           (py "PR标签数量不足: 需要至少 "
            ++ str_of_nat (pr_validation_min_labels_count config) ++ py " 个")
           s_warning
       else mret ());;
      number ← lift (getitem target_pr (py "number"));
      record_result (py "PR验证")
        (py "标准化PR #" ++ str_of number ++ py " 验证完成") s_success;;
      mret target_pr.

Definition verify_issue_label_completeness (issue : json) : M bool :=
  issue_labels ← lift (label_names issue);
  let expected_labels := set_of_strs (expected_labels config) in
  actual_labels ← lift (set_of issue_labels);
  let missing_labels := expected_labels ∖ actual_labels in
  if bool_decide (missing_labels ≠ ∅) then
    record_result (py "标签完整性")
      (py "Issue缺少 " ++ str_of_nat (size missing_labels) ++ py " 个预期标签")
      s_warning;;
    mret false
  else
    record_result (py "标签完整性") (py "Issue包含所有预期标签") s_success;;
    mret true.

Definition verify_issue_comments (issue pr : json) : M bool :=
  issue_number ← lift (getitem issue (py "number"));
  pr_number ← lift (getitem pr (py "number"));
  r ← github_api_request
        (py "issues/" ++ str_of issue_number ++ py "/comments");
  let comments := r.2 in
  if negb r.1 then
    record_result (py "评论验证") (py "无法获取Issue评论") s_warning;;
    mret false
  else
    flags ← lift (l ← iterate comments; scan_comments pr_number l false false);
    let pr_reference_found := flags.1 in
    let completion_keyword_found := flags.2 in
    (if negb pr_reference_found then
       record_result (py "评论验证") (py "Issue评论中未找到PR引用") s_warning
     else mret ());;
    (if negb completion_keyword_found then
       record_result (py "评论验证") (py "Issue评论中未找到完成验证关键词") s_warning
     else mret ());;
    if pr_reference_found && completion_keyword_found then
      record_result (py "评论验证") (py "Issue评论追溯验证通过") s_success;;
      mret true
    else mret false.

Definition verify_document_label_consistency : M bool :=
  let branch_name := feature_branch_name config in
  let doc_file := feature_branch_doc_file config in
  r ← github_api_request (py "contents/" ++ doc_file ++ py "?ref=" ++ branch_name);
  let response := r.2 in
  if negb r.1 then
    record_result (py "一致性验证") (py "无法获取标签文档") s_critical;;
    mret false
  else
    content ← lift (response_content response);
    let table_header := label_document_table_header config in
    let documented_labels := parse_label_table content table_header in
    let doc_label_names := doc_label_names documented_labels in
    r ← github_api_request (py "labels?per_page=100");
    let repo_labels := r.2 in
    if negb r.1 then
      record_result (py "一致性验证") (py "无法获取仓库标签") s_critical;;
      mret false
    else
      repo_label_names ← lift (name_set repo_labels);
      let missing_in_doc := repo_label_names ∖ doc_label_names in
      let extra_in_doc := doc_label_names ∖ repo_label_names in
      (if bool_decide (missing_in_doc ≠ ∅) then
         record_result (py "一致性验证")
           (py "文档缺少 " ++ str_of_nat (size missing_in_doc) ++ py " 个实际标签")
           s_warning
       else mret ());;
      (if bool_decide (extra_in_doc ≠ ∅) then
         record_result (py "一致性验证")
           (py "文档包含 " ++ str_of_nat (size extra_in_doc) ++ py " 个多余标签")
           s_warning
       else mret ());;
      if bool_decide (missing_in_doc = ∅) && bool_decide (extra_in_doc = ∅) then
        record_result (py "一致性验证") (py "文档与实际标签完全一致") s_success;;
        mret true
      else mret (bool_decide (size missing_in_doc = 0%nat)).

Definition verify_pr_core_labels (pr : json) : M bool :=
  pr_labels ← lift (label_names pr);
  let core_labels := set_of_strs (core_labels config) in
  pr_label_set ← lift (set_of pr_labels);
  let missing_core_labels := core_labels ∖ pr_label_set in
  if bool_decide (missing_core_labels ≠ ∅) then
    record_result (py "核心标签验证")
      (py "PR缺少 " ++ str_of_nat (size missing_core_labels) ++ py " 个核心标签")
      s_warning;;
    mret false
  else
    record_result (py "核心标签验证") (py "PR包含所有核心标签") s_success;;
    mret true.

Definition print_result_line (r : VerificationResult) : M () :=
  print ((if str_eqb (status r) s_success then py "✅"
          else if str_eqb (status r) s_critical then py "❌"
          else py "⚠️")
         ++ py " " ++ task r ++ py ": " ++ message r).

Definition generate_report : M bool :=
  print (py "
" ++ mjoin (replicate 60 (py "=")));;
  print (py "GitHub标签颜色标准化验证报告");;
  print (mjoin (replicate 60 (py "=")));;
  results ← read verification_results;
  let success_count := count_status s_success results in
  let warning_count := count_status s_warning results in
  let error_count := count_status s_critical results in
  print (py "验证任务总数: " ++ str_of_nat (length results));;
  print (py "成功: " ++ str_of_nat success_count ++ py " | 警告: "
         ++ str_of_nat warning_count ++ py " | 错误: "
         ++ str_of_nat error_count);;
  print (mjoin (replicate 60 (py "-")));;
  for_each print_result_line results;;
  print (mjoin (replicate 60 (py "=")));;
  critical ← read has_critical_error;
  if critical : bool then
    print (py "❌ 验证失败: 存在关键错误");; mret false
  else if bool_decide (0 < error_count)%nat then
    print (py "⚠️ 验证完成但存在警告");; mret true
  else
    print (py "✅ 所有验证通过!");; mret true.

Definition run_verification : M bool :=
  print (py "开始GitHub标签颜色标准化验证...");;
  org ← read org;
  repo ← read repo;
  print (py "目标仓库: " ++ str_of_opt org ++ py "/" ++ str_of_opt repo);;
  print (mjoin (replicate 40 (py "-")));;
  ok ← setup_environment;
  if negb ok then mret false else
  ok ← verify_branch_existence;
  if negb ok then mret false else
  ok ← verify_label_document;
  if negb ok then mret false else
  issue ← verify_standardization_issue;
  if negb (truthy issue) then mret false else
  pr ← verify_standardization_pr issue;
  if negb (truthy pr) then mret false else
  verify_issue_label_completeness issue;;
  verify_issue_comments issue pr;;
  verify_document_label_consistency;;
  verify_pr_core_labels pr;;
  generate_report.

(** [main]: the exit code of the process and the final state. *)
Definition main : Z * State :=
  let r := run_verification init in
  (exit_code r.1, r.2).
End Methods.
End Full.

(** ** A reference instance of the library functions *)

(** [str.lower] restricted to the ASCII letters; it agrees with Python on
    strings made of ASCII and CJK characters, which have no other cased
    letters. *)
Definition ascii_lower (s : pystr) : pystr :=
  (λ c, if (65 <=? c) && (c <=? 90) then c + 32 else c) <$> s.

Definition b64_value (c : N) : option N :=
  if (65 <=? c) && (c <=? 90) then Some (c - 65)
  else if (97 <=? c) && (c <=? 122) then Some (c - 71)
  else if (48 <=? c) && (c <=? 57) then Some (c + 4)
  else if c =? 43 then Some 62
  else if c =? 47 then Some 63
  else None.

(** The lenient decoder of [binascii.a2b_base64] as CPython 3.11 has it:
    characters outside the alphabet are skipped, enough padding after two
    or three digits of a group ends the input, and a group left open is an
    error.  [quad_pos] counts the digits of the open group, [leftchar]
    holds their bits, [pads] the padding characters seen since the last
    digit. *)
Fixpoint a2b_base64 (s : pystr) (quad_pos leftchar pads : N) : option (list N) :=
  match s with
  | [] => if quad_pos =? 0 then Some [] else None
  | c :: r =>
    if c =? 61 then
      if (2 <=? quad_pos) && (4 <=? quad_pos + (pads + 1)) then Some []
      else a2b_base64 r quad_pos leftchar (if 2 <=? quad_pos then pads + 1 else pads)
    else
      match b64_value c with
      | None => a2b_base64 r quad_pos leftchar pads
      | Some v =>
        if quad_pos =? 0 then a2b_base64 r 1 v 0
        else if quad_pos =? 1 then
          cons (leftchar * 4 + v / 16) <$> a2b_base64 r 2 (v mod 16) 0
        else if quad_pos =? 2 then
          cons (leftchar * 16 + v / 4) <$> a2b_base64 r 3 (v mod 4) 0
        else
          cons (leftchar * 64 + v) <$> a2b_base64 r 0 0 0
      end
  end.

Definition b64decode_ref (s : pystr) : option (list N) :=
  if forallb (λ c, c <? 128) s then a2b_base64 s 0 0 0 else None.

Definition ref_pylib : PyLib := {|
  str_lower := ascii_lower;
  b64decode := b64decode_ref;
  (* no run below formats a list or a dict *)
  str_of_container := λ _, py "[...]"
|}.

(** ** Specification-side definitions *)

(** The cells of a table line: its outer pipes removed, the rest split at
    the pipes and each piece trimmed. *)
Definition cells_of (line : pystr) : list pystr :=
  strip <$> split_on ch_pipe (strip_chars s_pipe line).

(** Section 4.3 of the specification, simplified variant: the row a line
    yields, if it qualifies as a label row. *)
Definition yields_row (line : pystr) (r : Simplified.LabelRow) : Prop :=
  let t := strip line in
  startswith s_pipe t = true ∧
  contains s_hash t = true ∧
  contains s_dashes t = false ∧
  ∃ more, cells_of t = Simplified.name r :: Simplified.color r :: more
          ∧ Simplified.name r ≠ []
          ∧ startswith s_hash (Simplified.color r) = true.

Definition label_row_of (line : pystr) : option Simplified.LabelRow :=
  let t := strip line in
  if startswith s_pipe t && contains s_hash t && negb (contains s_dashes t) then
    match cells_of t with
    | c0 :: c1 :: _ =>
      if bool_decide (c0 ≠ []) && startswith s_hash c1
      then Some {| Simplified.name := c0; Simplified.color := c1 |}
      else None
    | _ => None
    end
  else None.


Definition simplified_doc_endpoint : pystr :=
  py "contents/" ++ Simplified.feature_branch_doc_file Simplified.config
  ++ py "?ref=" ++ Simplified.feature_branch_name Simplified.config.

Definition simplified_request (s : State) (endpoint : pystr) : Request :=
  request_for s (Simplified.api_url (org s) (repo s) endpoint).


(** [run_verification] of the simplified variant from task 3 on. *)
Definition simplified_from_document `{PyLib} (w : World) : M bool :=
  ok ← Simplified.verify_label_document w;
  if negb ok then mret false
  else Simplified.verify_standardization_issue w;; Simplified.generate_report.



(** What the consistency step of the full variant meets: a request that
    fails, or the two sets of label names.  [None] is a payload of an
    unexpected shape, on which the method raises. *)
Inductive consistency_input :=
| FetchFailed
| Fetched (doc_names repo_names : gset key).

Definition full_doc_endpoint : pystr :=
  py "contents/" ++ Full.feature_branch_doc_file Full.config
  ++ py "?ref=" ++ Full.feature_branch_name Full.config.

Definition full_request (s : State) (endpoint : pystr) : Request :=
  request_for s (Full.api_url (org s) (repo s) endpoint).

Definition fetched (out : http_outcome) : option json :=
  match out with
  | HttpResponse code (JsonOk j) => if (code =? 200)%Z then Some j else None
  | _ => None
  end.

Definition full_consistency_input `{PyLib} (w : World) (s : State)
  : option consistency_input :=
  let rq_doc := full_request s full_doc_endpoint in
  match fetched (http_get w (sent s) rq_doc) with
  | None => Some FetchFailed
  | Some j =>
    match response_content j with
    | Raise _ => None
    | Ok content =>
      let rows := Full.parse_label_table content
                    (Full.label_document_table_header Full.config) in
      match fetched (http_get w (sent s ++ [rq_doc])
                       (full_request s (py "labels?per_page=100"))) with
      | None => Some FetchFailed
      | Some labels =>
        match name_set labels with
        | Raise _ => None
        | Ok repo_names => Some (Fetched (Full.doc_label_names rows) repo_names)
        end
      end
    end
  end.

(** An issue as the matchers expect it: an object whose title, if any, is a
    string, and whose body, if any, is a string or null. *)
Definition issue_typed (j : json) : bool :=
  match j with
  | JObj f =>
    match assoc (py "title") f with
    | None | Some (JStr _) => true
    | _ => false
    end
    && match assoc (py "body") f with
       | None | Some JNull | Some (JStr _) => true
       | _ => false
       end
  | _ => false
  end.

Definition has_field (k : pystr) (j : json) : bool :=
  match j with
  | JObj f => bool_decide (is_Some (assoc k f))
  | _ => false
  end.

(** The text of a string field, empty when the field is absent or null. *)
Definition text_field (k : pystr) (j : json) : pystr :=
  match j with
  | JObj f => match assoc k f with Some (JStr s) => s | _ => [] end
  | _ => []
  end.

(** The simplified variant lowercases the title, and the body when it is
    not empty, before it looks for the keywords. *)
Definition matches_simplified `{PyLib} (j : json) : bool :=
  negb (has_field (py "pull_request") j)
  && (any_in Simplified.title_keywords (str_lower (text_field (py "title") j))
      || any_in Simplified.body_keywords
           (match text_field (py "body") j with
            | [] => []
            | b => str_lower b
            end)).

Definition matches_full (j : json) : bool :=
  negb (has_field (py "pull_request") j)
  && any_in (Full.issue_validation_title_keywords Full.config)
       (text_field (py "title") j).

(** The full parser, declaratively.  A line is a header line when it
    contains the header; a blank line is one that trims to nothing. *)
Definition configured_header : pystr := Full.label_document_table_header Full.config.

Definition is_header_line (line : pystr) : bool := contains configured_header line.

Definition is_blank (line : pystr) : bool := bool_decide (strip line = []).

(** Each line that is not a header line, with the column names in force:
    the cells of the latest header line. *)
Fixpoint with_columns (columns : list pystr) (lines : list pystr)
  : list (list pystr * pystr) :=
  match lines with
  | [] => []
  | line :: rest =>
    if is_header_line line then with_columns (cells_of line) rest
    else (columns, line) :: with_columns columns rest
  end.

Definition is_table_row (line : pystr) : bool :=
  startswith s_pipe line && negb (contains s_dashes line)
  && bool_decide (3 ≤ length (cells_of line))%nat.

(** The lines before the first blank one. *)
Fixpoint until_blank (lines : list pystr) : list pystr :=
  match lines with
  | [] => []
  | line :: rest => if is_blank line then [] else line :: until_blank rest
  end.

Definition rows_after_header (header_line : pystr) (following : list pystr)
  : list (gmap pystr pystr) :=
  (λ cl, dict_zip cl.1 (cells_of cl.2))
    <$> filter (λ cl, is_table_row cl.2)
          (with_columns (cells_of header_line) (until_blank following)).

(** The results a method added to the log. *)
Definition added_by {A} (m : M A) (s : State) : list VerificationResult :=
  drop (length (verification_results s)) (verification_results (m s).2).

Definition has_critical (rs : list VerificationResult) : bool := existsb is_critical rs.


(** The log only grows, and the flag follows the critical results added. *)
Definition grows (s s' : State) : Prop :=
  ∃ added, verification_results s' = verification_results s ++ added
           ∧ has_critical_error s' = has_critical_error s || has_critical added.

(** What [github_api_request] makes of the server's answer. *)
Definition api_answer (out : http_outcome) : bool * json :=
  match fetched out with
  | Some j => (true, j)
  | None => (false, JNull)
  end.

(** Postconditions: [wp m Q s] when running [m] from [s] ends in a result
    and a state that satisfy [Q]. *)
Definition wp {A} (m : M A) (Q : res A → State → Prop) (s : State) : Prop :=
  Q (m s).1 (m s).2.

(** A step that leaves the log and the flag as they were. *)
Definition quiet (s s' : State) : Prop :=
  verification_results s' = verification_results s
  ∧ has_critical_error s' = has_critical_error s.

Definition is_ok {A} (r : res A) : Prop :=
  match r with
  | Ok _ => True
  | Raise _ => False
  end.

(** A step on whose result the run may stop: when it returns a value that
    makes the run stop, the flag is set. *)
Definition critical_if {A} (stops : A → bool) (r : res A) (s' : State) : Prop :=
  ∀ a, r = Ok a → stops a = true → has_critical_error s' = true.

(** A step that, when it returns a value that makes the run stop, has
    left the log and the flag as they were. *)
Definition untouched_on {A} (stops : A → bool) (s : State) (r : res A) (s' : State)
  : Prop :=
  ∀ a, r = Ok a → stops a = true → quiet s s'.

(** The flag says whether the log holds a critical result. *)
Definition flag_matches_log (s : State) : Prop :=
  has_critical_error s = has_critical (verification_results s).

(** ** Concrete surroundings for the examples *)

Definition env_of (vars : list (pystr * pystr)) : pystr → option pystr :=
  λ k, assoc k vars.

Definition env_ok : pystr → option pystr :=
  env_of [(py "GITHUB_TOKEN", py "ghp_example"); (py "GITHUB_ORG", py "octo")].

(** A server that answers by the first route whose path occurs in the URL,
    whatever was asked before. *)
Fixpoint route (routes : list (pystr * http_outcome)) (dflt : http_outcome)
    (url : pystr) : http_outcome :=
  match routes with
  | [] => dflt
  | (path, out) :: rest => if contains path url then out else route rest dflt url
  end.

Definition server (routes : list (pystr * http_outcome)) (dflt : http_outcome)
  : list Request → Request → http_outcome :=
  λ _ rq, route routes dflt (req_url rq).

Definition ok_json (j : json) : http_outcome := HttpResponse 200 (JsonOk j).


Definition clock (n : nat) : pystr := py "2025-01-01T00:00:00." ++ str_of_nat n.

Definition repo_json : json :=
  JObj [(py "name", JStr (py "GIT-HUB")); (py "private", JBool false)].

Definition branch_json : json := JObj [(py "name", JStr (py "main"))].

Definition content_json (b64 : pystr) : json :=
  JObj [(py "encoding", JStr (py "base64")); (py "content", JStr b64)].

(** A document of twelve label rows and its base64 form, wrapped as the
    contents endpoint wraps it. *)
Definition doc12 : pystr := py "# Label colors

| Label | Color | Description |
| --- | --- | --- |
| bug | #d73a4a | Something is broken |
| enhancement | #a2eeef | New feature or request |
| documentation | #0075ca | Docs |
| feature | #0e8a16 | Feature |
| question | #d876e3 | Question |
| priority-high | #b60205 | High |
| priority-medium | #fbca04 | Medium |
| priority-low | #c2e0c6 | Low |
| status-in-progress | #1d76db | In progress |
| status-review | #5319e7 | Review |
| status-done | #0e8a16 | Done |
| status-blocked | #e11d21 | Blocked |
".

Definition doc12_b64 : pystr := py "IyBMYWJlbCBjb2xvcnMKCnwgTGFiZWwgfCBDb2xvciB8IERlc2NyaXB0aW9u
IHwKfCAtLS0gfCAtLS0gfCAtLS0gfAp8IGJ1ZyB8ICNkNzNhNGEgfCBTb21l
dGhpbmcgaXMgYnJva2VuIHwKfCBlbmhhbmNlbWVudCB8ICNhMmVlZWYgfCBO
ZXcgZmVhdHVyZSBvciByZXF1ZXN0IHwKfCBkb2N1bWVudGF0aW9uIHwgIzAw
NzVjYSB8IERvY3MgfAp8IGZlYXR1cmUgfCAjMGU4YTE2IHwgRmVhdHVyZSB8
CnwgcXVlc3Rpb24gfCAjZDg3NmUzIHwgUXVlc3Rpb24gfAp8IHByaW9yaXR5
LWhpZ2ggfCAjYjYwMjA1IHwgSGlnaCB8CnwgcHJpb3JpdHktbWVkaXVtIHwg
I2ZiY2EwNCB8IE1lZGl1bSB8CnwgcHJpb3JpdHktbG93IHwgI2MyZTBjNiB8
IExvdyB8Cnwgc3RhdHVzLWluLXByb2dyZXNzIHwgIzFkNzZkYiB8IEluIHBy
b2dyZXNzIHwKfCBzdGF0dXMtcmV2aWV3IHwgIzUzMTllNyB8IFJldmlldyB8
Cnwgc3RhdHVzLWRvbmUgfCAjMGU4YTE2IHwgRG9uZSB8Cnwgc3RhdHVzLWJs
b2NrZWQgfCAjZTExZDIxIHwgQmxvY2tlZCB8Cg==
".

(** The same document without its last row. *)
Definition doc11 : pystr := py "# Label colors

| Label | Color | Description |
| --- | --- | --- |
| bug | #d73a4a | Something is broken |
| enhancement | #a2eeef | New feature or request |
| documentation | #0075ca | Docs |
| feature | #0e8a16 | Feature |
| question | #d876e3 | Question |
| priority-high | #b60205 | High |
| priority-medium | #fbca04 | Medium |
| priority-low | #c2e0c6 | Low |
| status-in-progress | #1d76db | In progress |
| status-review | #5319e7 | Review |
| status-done | #0e8a16 | Done |
".

Definition doc11_b64 : pystr := py "IyBMYWJlbCBjb2xvcnMKCnwgTGFiZWwgfCBDb2xvciB8IERlc2NyaXB0aW9u
IHwKfCAtLS0gfCAtLS0gfCAtLS0gfAp8IGJ1ZyB8ICNkNzNhNGEgfCBTb21l
dGhpbmcgaXMgYnJva2VuIHwKfCBlbmhhbmNlbWVudCB8ICNhMmVlZWYgfCBO
ZXcgZmVhdHVyZSBvciByZXF1ZXN0IHwKfCBkb2N1bWVudGF0aW9uIHwgIzAw
NzVjYSB8IERvY3MgfAp8IGZlYXR1cmUgfCAjMGU4YTE2IHwgRmVhdHVyZSB8
CnwgcXVlc3Rpb24gfCAjZDg3NmUzIHwgUXVlc3Rpb24gfAp8IHByaW9yaXR5
LWhpZ2ggfCAjYjYwMjA1IHwgSGlnaCB8CnwgcHJpb3JpdHktbWVkaXVtIHwg
I2ZiY2EwNCB8IE1lZGl1bSB8CnwgcHJpb3JpdHktbG93IHwgI2MyZTBjNiB8
IExvdyB8Cnwgc3RhdHVzLWluLXByb2dyZXNzIHwgIzFkNzZkYiB8IEluIHBy
b2dyZXNzIHwKfCBzdGF0dXMtcmV2aWV3IHwgIzUzMTllNyB8IFJldmlldyB8
Cnwgc3RhdHVzLWRvbmUgfCAjMGU4YTE2IHwgRG9uZSB8Cg==
".

(** A document in the format of the full variant, with two label rows. *)
Definition doc_full : pystr := py "# 标签标准

| 标签名称 | 颜色值 | 描述 |
| --- | --- | --- |
| bug | #d73a4a | 缺陷 |
| enhancement | #a2eeef | 改进 |

说明见上表。
".

Definition doc_full_b64 : pystr := py "IyDmoIfnrb7moIflh4YKCnwg5qCH562+5ZCN56ewIHwg6aKc6Imy5YC8IHwg
5o+P6L+wIHwKfCAtLS0gfCAtLS0gfCAtLS0gfAp8IGJ1ZyB8ICNkNzNhNGEg
fCDnvLrpmbcgfAp8IGVuaGFuY2VtZW50IHwgI2EyZWVlZiB8IOaUuei/myB8
Cgror7TmmI7op4HkuIrooajjgIIK
".

(** The issue list of section 8 of the specification, and the same issues
    with the number every GitHub issue carries. *)
Definition spec_issue_1 : json := JObj [(py "title", JStr (py "Fix bug"))].
Definition spec_issue_2 : json := JObj [(py "title", JStr (py "标签标准化需求"))].
Definition spec_issues : list json := [spec_issue_1; spec_issue_2].

Definition numbered_issues : json :=
  JArr [JObj [(py "number", JNum 1); (py "title", JStr (py "Fix bug")); (py "body", JNull)];
        JObj [(py "number", JNum 2); (py "title", JStr (py "标签标准化需求"));
              (py "body", JStr (py "统一标签体系"))]].

(** Two issues whose titles differ in case only. *)
Definition upper_issue : json := JObj [(py "number", JNum 7); (py "title", JStr (py "LABEL"))].
Definition lower_issue : json := JObj [(py "number", JNum 8); (py "title", JStr (py "label"))].

(** No token and no organisation in the environment. *)
Definition world_no_token : World := {|
  environ := env_of [];
  http_get := server [] (ok_json repo_json);
  now_isoformat := clock
|}.


(** The document has twelve rows, the configured minimum. *)
Definition world_doc12 : World := {|
  environ := env_ok;
  http_get := server [(py "/branches/", ok_json branch_json);
                      (py "/contents/", ok_json (content_json doc12_b64));
                      (py "/issues", ok_json numbered_issues)]
                     (ok_json repo_json);
  now_isoformat := clock
|}.


(** The repository has exactly the two labels of [doc_full]. *)
Definition world_consistent : World := {|
  environ := env_ok;
  http_get := server [(py "/contents/", ok_json (content_json doc_full_b64));
                      (py "/labels", ok_json (JArr [JObj [(py "name", JStr (py "bug"))];
                                                    JObj [(py "name", JStr (py "enhancement"))]]))]
                     (ok_json repo_json);
  now_isoformat := clock
|}.

(** The label list cannot be fetched. *)
Definition world_labels_down : World := {|
  environ := env_ok;
  http_get := server [(py "/contents/", ok_json (content_json doc_full_b64));
                      (py "/labels", HttpResponse 500 (JsonDecodeError (py "Expecting value")))]
                     (ok_json repo_json);
  now_isoformat := clock
|}.

(** Every answer is a 200 whose body is not JSON, as a proxy or a login
    page gives. *)
Definition world_not_json : World := {|
  environ := env_ok;
  http_get := server [] (HttpResponse 200 (JsonDecodeError (py "Expecting value")));
  now_isoformat := clock
|}.

(** The header line twice, with nothing between. *)
Definition doc_two_headers : pystr :=
  configured_header ++ [ch_newline] ++ configured_header.

(** The label names of [doc_full], which are also those of
    [world_consistent]. *)
Definition two_label_names : gset key :=
  list_to_set [KStr (py "bug"); KStr (py "enhancement")].

(** The rows of [doc12]. *)
Definition doc12_rows : list Simplified.LabelRow :=
  (λ nc, {| Simplified.name := py nc.1; Simplified.color := py nc.2 |}) <$> [
    ("bug", "#d73a4a"); ("enhancement", "#a2eeef"); ("documentation", "#0075ca");
    ("feature", "#0e8a16"); ("question", "#d876e3"); ("priority-high", "#b60205");
    ("priority-medium", "#fbca04"); ("priority-low", "#c2e0c6");
    ("status-in-progress", "#1d76db"); ("status-review", "#5319e7");
    ("status-done", "#0e8a16"); ("status-blocked", "#e11d21")
  ]%string.

(** ** Further specification-side definitions *)

(** The headers [setup_environment] installs, and the request it sends to
    test the connection. *)
Definition simplified_headers (token : pystr) : list (pystr * pystr) :=
  [(py "Authorization", py "token " ++ token);
   (py "Accept", py "application/vnd.github.v3+json")].

Definition full_headers (token : pystr) : list (pystr * pystr) :=
  [(py "Authorization", py "token " ++ token);
   (py "Accept", py "application/vnd.github.v3+json");
   (py "X-GitHub-Api-Version", py "2022-11-28")].

Definition simplified_root_request (token org : pystr) : Request :=
  {| req_url := py "https://api.github.com/repos/" ++ org ++ py "/GIT-HUB";
     req_headers := Some (simplified_headers token);
     req_timeout := 30 |}.

Definition full_root_request (token org : pystr) : Request :=
  {| req_url := py "https://api.github.com/repos/" ++ org ++ py "/GIT-HUB/";
     req_headers := Some (full_headers token);
     req_timeout := 30 |}.

(** The environment holds a token and an organisation, both non-empty. *)
Definition credentials (w : World) (token org : pystr) : Prop :=
  environ w (py "GITHUB_TOKEN") = Some token ∧ token ≠ []
  ∧ environ w (py "GITHUB_ORG") = Some org ∧ org ≠ [].

(** What a method did: the statuses of the results it added, in order, and
    the endpoints it requested, in order, with the headers, the
    organisation and the repository name left as they were.  [rqf] builds
    the request of a variant from the state and the endpoint. *)
Definition effect (rqf : State → pystr → Request) (s s' : State)
    (sts eps : list pystr) : Prop :=
  (∃ added, verification_results s' = verification_results s ++ added
            ∧ status <$> added = sts)
  ∧ sent s' = sent s ++ (rqf s <$> eps)
  ∧ headers s' = headers s ∧ org s' = org s ∧ repo s' = repo s.

(** The request of a variant depends on the state through its headers,
    organisation and repository name only. *)
Definition framed (rqf : State → pystr → Request) : Prop :=
  ∀ s s' e, headers s' = headers s → org s' = org s → repo s' = repo s →
            rqf s' e = rqf s e.

(** No critical status among the statuses, and a critical status at the
    end and nowhere else. *)
Definition no_critical (sts : list pystr) : Prop := s_critical ∉ sts.

Definition ends_critical (sts : list pystr) : Prop :=
  last sts = Some s_critical ∧ s_critical ∉ take (length sts - 1) sts.

(** What a step on whose result the run may stop records: a critical
    result, as its last one, exactly when it returns a value that stops
    the run. *)
Definition stop_outcome {A} (stops : A → bool) (r : res A) (sts : list pystr) : Prop :=
  match r with
  | Ok a => if stops a then ends_critical sts else no_critical sts
  | Raise _ => no_critical sts
  end.

Definition is_falsy (j : json) : bool := negb (truthy j).

(** The request a variant sends for an endpoint once [setup_environment]
    has stored the token and the organisation. *)
Definition simplified_api_request (token org endpoint : pystr) : Request :=
  {| req_url := py "https://api.github.com/repos/" ++ org ++ py "/GIT-HUB/" ++ endpoint;
     req_headers := Some (simplified_headers token);
     req_timeout := 30 |}.

Definition full_api_request (token org endpoint : pystr) : Request :=
  {| req_url := py "https://api.github.com/repos/" ++ org ++ py "/GIT-HUB/" ++ endpoint;
     req_headers := Some (full_headers token);
     req_timeout := 30 |}.

(** The endpoints of a whole run, in the order of its steps; [n] is the
    number of the issue whose comments the full variant reads. *)
Definition simplified_endpoints : list pystr :=
  [py "branches/" ++ Simplified.feature_branch_name Simplified.config;
   simplified_doc_endpoint;
   py "issues?state=all&per_page=100"].

Definition full_endpoints `{PyLib} (n : json) : list pystr :=
  [py "branches/" ++ Full.feature_branch_name Full.config;
   full_doc_endpoint;
   py "issues?state=all&per_page=50";
   py "pulls?state=all&per_page=50";
   py "issues/" ++ str_of n ++ py "/comments";
   full_doc_endpoint;
   py "labels?per_page=100"].

(** Exactly one critical status, with at most [k] statuses after it. *)
Definition one_critical (k : nat) (sts : list pystr) : Prop :=
  ∃ pre post, sts = pre ++ s_critical :: post
              ∧ no_critical pre ∧ no_critical post ∧ (length post ≤ k)%nat.

(** The set of label names the label checks of the full variant build from
    an issue or a pull request. *)
Definition labels_of (j : json) : res (gset key) :=
  l ← label_names j; set_of l.

(** A comment as [verify_issue_comments] expects it: an object whose body,
    if any, is a string. *)
Definition comment_typed (j : json) : bool :=
  match j with
  | JObj f =>
    match assoc (py "body") f with
    | None | Some (JStr _) => true
    | _ => false
    end
  | _ => false
  end.

(** The comment refers to the pull request, by its number after a hash
    sign or after [pull/]. *)
Definition mentions_pr `{PyLib} (pr_number : json) (comment : json) : bool :=
  let body := text_field (py "body") comment in
  contains (py "#" ++ str_of pr_number) body
  || contains (py "pull/" ++ str_of pr_number) body.

(** The comment, in lower case, holds one of the two words that every
    completion keyword contains. *)
Definition says_done `{PyLib} (comment : json) : bool :=
  let body := str_lower (text_field (py "body") comment) in
  contains (py "完成") body || contains (py "已验证") body.

(** A server that returns two comments on every comment endpoint. *)
Definition two_comments : list json :=
  [JObj [(py "body", JStr (py "Implemented in #9"))];
   JObj [(py "user", JStr (py "octo")); (py "body", JStr (py "标签已验证"))]].

Definition world_comments : World := {|
  environ := env_ok;
  http_get := server [(py "/comments", ok_json (JArr two_comments))]
                     (ok_json repo_json);
  now_isoformat := clock
|}.

(** A repository on which both variants pass: a document of fifteen rows
    under the configured header, an issue and a pull request with the
    expected titles, a comment that closes the loop, and the fifteen
    labels of the document. *)
Definition doc15 : pystr := py "# 标签标准

| 标签名称 | 颜色值 | 描述 |
| --- | --- | --- |
| bug | #d73a4a | bug |
| enhancement | #a2eeef | enhancement |
| documentation | #0075ca | documentation |
| feature | #0e8a16 | feature |
| question | #d876e3 | question |
| help-wanted | #008672 | help-wanted |
| good-first-issue | #7057ff | good-first-issue |
| priority-high | #b60205 | priority-high |
| priority-medium | #fbca04 | priority-medium |
| priority-low | #c2e0c6 | priority-low |
| status-in-progress | #1d76db | status-in-progress |
| status-review | #5319e7 | status-review |
| status-done | #0e8a16 | status-done |
| status-blocked | #e11d21 | status-blocked |
| wontfix | #ffffff | wontfix |

以上共十五个标签。
".

Definition doc15_b64 : pystr := py "IyDmoIfnrb7moIflh4YKCnwg5qCH562+5ZCN56ewIHwg6aKc6Imy5YC8IHwg
5o+P6L+wIHwKfCAtLS0gfCAtLS0gfCAtLS0gfAp8IGJ1ZyB8ICNkNzNhNGEg
fCBidWcgfAp8IGVuaGFuY2VtZW50IHwgI2EyZWVlZiB8IGVuaGFuY2VtZW50
IHwKfCBkb2N1bWVudGF0aW9uIHwgIzAwNzVjYSB8IGRvY3VtZW50YXRpb24g
fAp8IGZlYXR1cmUgfCAjMGU4YTE2IHwgZmVhdHVyZSB8CnwgcXVlc3Rpb24g
fCAjZDg3NmUzIHwgcXVlc3Rpb24gfAp8IGhlbHAtd2FudGVkIHwgIzAwODY3
MiB8IGhlbHAtd2FudGVkIHwKfCBnb29kLWZpcnN0LWlzc3VlIHwgIzcwNTdm
ZiB8IGdvb2QtZmlyc3QtaXNzdWUgfAp8IHByaW9yaXR5LWhpZ2ggfCAjYjYw
MjA1IHwgcHJpb3JpdHktaGlnaCB8CnwgcHJpb3JpdHktbWVkaXVtIHwgI2Zi
Y2EwNCB8IHByaW9yaXR5LW1lZGl1bSB8CnwgcHJpb3JpdHktbG93IHwgI2My
ZTBjNiB8IHByaW9yaXR5LWxvdyB8Cnwgc3RhdHVzLWluLXByb2dyZXNzIHwg
IzFkNzZkYiB8IHN0YXR1cy1pbi1wcm9ncmVzcyB8Cnwgc3RhdHVzLXJldmll
dyB8ICM1MzE5ZTcgfCBzdGF0dXMtcmV2aWV3IHwKfCBzdGF0dXMtZG9uZSB8
ICMwZThhMTYgfCBzdGF0dXMtZG9uZSB8Cnwgc3RhdHVzLWJsb2NrZWQgfCAj
ZTExZDIxIHwgc3RhdHVzLWJsb2NrZWQgfAp8IHdvbnRmaXggfCAjZmZmZmZm
IHwgd29udGZpeCB8Cgrku6XkuIrlhbHljYHkupTkuKrmoIfnrb7jgIIK
".

Definition label_list (names : list pystr) : json :=
  JArr ((λ n, JObj [(py "name", JStr n)]) <$> names).

Definition passing_issue : json :=
  JObj [(py "number", JNum 12);
        (py "title", JStr (py "标签标准化需求"));
        (py "body", JStr (py "## 问题描述
标签体系与颜色规范不统一，提出标准化需求。
## 预期标准
## 标签清单"));
        (py "labels", label_list (Full.expected_labels Full.config))].

Definition passing_pr : json :=
  JObj [(py "number", JNum 13);
        (py "title", JStr (py "实施标签标准化"));
        (py "body", JStr (py "## 修改摘要
Closes #12
## 标签变更
## 测试结果"));
        (py "labels", label_list (Full.core_labels Full.config))].

Definition world_passing : World := {|
  environ := env_ok;
  http_get := server [(py "/comments",
                       ok_json (JArr [JObj [(py "body", JStr (py "已验证，见 #13"))]]));
                      (py "/branches/", ok_json branch_json);
                      (py "/contents/", ok_json (content_json doc15_b64));
                      (py "/pulls", ok_json (JArr [passing_pr]));
                      (py "/issues", ok_json (JArr [passing_issue]));
                      (py "/labels", ok_json (label_list (Full.expected_labels Full.config)))]
                     (ok_json repo_json);
  now_isoformat := clock
|}.

(** The state after some lines were printed. *)
Definition printed (s : State) (lines : list pystr) : State :=
  {| org := org s; repo := repo s; headers := headers s;
     verification_results := verification_results s;
     has_critical_error := has_critical_error s;
     sent := sent s; stdout := stdout s ++ lines; stderr := stderr s |}.

(** A repository whose standardization issue and pull request have no
    description: GitHub sends [null] for the body. *)
Definition bare_issue : json :=
  JObj [(py "number", JNum 12); (py "title", JStr (py "标签标准化需求"));
        (py "body", JNull); (py "labels", JArr [])].

Definition bare_pr : json :=
  JObj [(py "number", JNum 13); (py "title", JStr (py "实施标签标准化"));
        (py "body", JNull); (py "labels", JArr [])].

(** The issue has no description, the pull request has one. *)
Definition world_bare_issue : World := {|
  environ := env_ok;
  http_get := server [(py "/branches/", ok_json branch_json);
                      (py "/contents/", ok_json (content_json doc15_b64));
                      (py "/pulls", ok_json (JArr [passing_pr]));
                      (py "/issues", ok_json (JArr [bare_issue]))]
                     (ok_json repo_json);
  now_isoformat := clock
|}.

Definition world_bare : World := {|
  environ := env_ok;
  http_get := server [(py "/branches/", ok_json branch_json);
                      (py "/contents/", ok_json (content_json doc15_b64));
                      (py "/pulls", ok_json (JArr [bare_pr]));
                      (py "/issues", ok_json (JArr [bare_issue]))]
                     (ok_json repo_json);
  now_isoformat := clock
|}.

(** The keywords that a text does not contain, and the labels that are not
    among some names, in the order of the configuration. *)
Definition absent_from_text (text : pystr) (kws : list pystr) : list pystr :=
  filter (λ kw, contains kw text = false) kws.

Definition absent_from_names (names : list json) (labels : list pystr) : list pystr :=
  filter (λ label, existsb (is_str label) names = false) labels.

(** One warning when something is missing. *)
Definition warning_for (missing : list pystr) : list pystr :=
  if bool_decide (missing ≠ []) then [s_warning] else [].

(** A pull request as the search expects it: an object whose title, if
    any, is a string; and one whose title holds a title keyword of the pull
    request check. *)
Definition pr_typed (j : json) : bool :=
  match j with
  | JObj f =>
    match assoc (py "title") f with
    | None | Some (JStr _) => true
    | _ => false
    end
  | _ => false
  end.

Definition matches_pr (j : json) : bool :=
  any_in (Full.pr_validation_title_keywords Full.config) (text_field (py "title") j).

Definition is_object (j : json) : bool :=
  match j with
  | JObj _ => true
  | _ => false
  end.

(** * Properties *)

Opaque py str_of_Z str_of_nat.
Arguments startswith : simpl never.
Arguments contains : simpl never.
Arguments strip : simpl never.
Arguments strip_chars : simpl never.
Arguments split_on : simpl never.
Arguments cells_of : simpl never.

(** ** The simplified parser *)

Lemma label_row_of_yields line r : label_row_of line = Some r ↔ yields_row line r.
Proof.
  unfold label_row_of, yields_row. cbv zeta.
  destruct (startswith s_pipe (strip line)) eqn:E1; simpl;
    [|split; [done | by intros (? & _)]].
  destruct (contains s_hash (strip line)) eqn:E2; simpl;
    [|split; [done | by intros (_ & ? & _)]].
  destruct (contains s_dashes (strip line)) eqn:E3; simpl;
    [split; [done | by intros (_ & _ & ? & _)]|].
  destruct (cells_of (strip line)) as [|c0 [|c1 more]] eqn:Ec.
  - split; [done | by intros (_ & _ & _ & ? & ? & _)].
  - split; [done | by intros (_ & _ & _ & ? & ? & _)].
  - destruct r as [n c]; simpl. case_bool_decide as Hc0; simpl.
    + destruct (startswith s_hash c1) eqn:E4.
      * split.
        -- intros ?; simplify_eq/=. repeat split; try done. by exists more.
        -- intros (_ & _ & _ & m & [= <- <- <-] & _). done.
      * split; [done|]. intros (_ & _ & _ & m & [= <- <- <-] & _ & ?). congruence.
    + split; [done|]. intros (_ & _ & _ & m & [= <- <- <-] & ? & _). done.
Qed.

Lemma simplified_parse_lines_spec lines acc :
  Simplified.parse_lines lines acc = Ok (acc ++ omap label_row_of lines).
Proof.
  revert acc. induction lines as [|line rest IH]; intros acc; simpl.
  { by rewrite app_nil_r. }
  unfold label_row_of at 1. cbv zeta. fold (cells_of (strip line)).
  destruct (startswith s_pipe (strip line) && contains s_hash (strip line)
            && negb (contains s_dashes (strip line))); [|apply IH].
  destruct (cells_of (strip line)) as [|c0 [|c1 more]]; simpl; try apply IH.
  case_bool_decide as Hc0; simpl; [|apply IH].
  destruct (startswith s_hash c1); simpl; [|apply IH].
  rewrite IH. by rewrite <- app_assoc.
Qed.

(** C4: in the simplified variant a line becomes a label row exactly when,
    trimmed, it starts with a pipe, contains a hash sign, contains no
    separator marker, and its cells begin with a non-empty name and a colour
    that starts with a hash sign; the row holds those two cells; the parser
    returns the rows of the qualifying lines in order and raises on no
    input.  The row of section 8 gives bug / #d73a4a; separator rows and
    rows whose second cell has no leading hash sign give nothing. *)
Theorem simplified_parse_label_table_rows :
  (∀ line r, label_row_of line = Some r ↔ yields_row line r)
  ∧ (∀ content,
       Simplified.parse_label_table content
       = Ok (omap label_row_of (split_on ch_newline content)))
  ∧ Simplified.parse_label_table (py "| bug | #d73a4a | desc |")
    = Ok [{| Simplified.name := py "bug"; Simplified.color := py "#d73a4a" |}]
  ∧ (∀ line, contains s_dashes (strip line) = true → label_row_of line = None)
  ∧ (∀ line c0 c1 more,
       cells_of (strip line) = c0 :: c1 :: more →
       startswith s_hash c1 = false → label_row_of line = None).
Proof.
  split; [apply label_row_of_yields|].
  split; [intros content; apply simplified_parse_lines_spec|].
  split; [by vm_compute|].
  split.
  - intros line Hd. unfold label_row_of. cbv zeta. rewrite Hd.
    by rewrite !andb_false_r.
  - intros line c0 c1 more Hc Hh. unfold label_row_of. cbv zeta.
    rewrite Hc, Hh, andb_false_r. by destruct (_ && _).
Qed.

(** C10: on every input the simplified parser returns a list of rows, each
    with a non-empty name and a colour that starts with a hash sign; it
    never raises. *)
Theorem simplified_parse_label_table_wf (content : pystr) :
  ∃ rows, Simplified.parse_label_table content = Ok rows
          ∧ Forall (λ r, Simplified.name r ≠ []
                         ∧ startswith s_hash (Simplified.color r) = true) rows.
Proof.
  exists (omap label_row_of (split_on ch_newline content)).
  split; [apply simplified_parse_lines_spec|].
  apply Forall_forall. intros r Hr.
  apply list_elem_of_omap in Hr as (line & _ & Hrow).
  apply label_row_of_yields in Hrow as (_ & _ & _ & more & _ & Hn & Hc). done.
Qed.

(** ** The result log and the flag *)

Lemma grows_refl s : grows s s.
Proof. exists []. by rewrite app_nil_r, orb_false_r. Qed.

Lemma grows_trans s1 s2 s3 : grows s1 s2 → grows s2 s3 → grows s1 s3.
Proof.
  intros (a1 & E1 & F1) (a2 & E2 & F2). exists (a1 ++ a2).
  rewrite E2, E1, F2, F1, app_assoc. split; [done|].
  unfold has_critical. by rewrite existsb_app, orb_assoc.
Qed.

Lemma grows_same s s' :
  verification_results s' = verification_results s →
  has_critical_error s' = has_critical_error s → grows s s'.
Proof. intros E F. exists []. by rewrite E, F, app_nil_r, orb_false_r. Qed.

Lemma simplified_record_result_eq t m st s :
  let s' := (Simplified.record_result t m st s).2 in
  (Simplified.record_result t m st s).1 = Ok ()
  ∧ verification_results s'
    = verification_results s
      ++ [{| task := t; message := m; status := st; timestamp := None |}]
  ∧ has_critical_error s' = has_critical_error s || str_eqb st s_critical
  ∧ sent s' = sent s ∧ headers s' = headers s
  ∧ org s' = org s ∧ repo s' = repo s.
Proof.
  unfold Simplified.record_result, mbind, M_bind, append_result. simpl.
  destruct (str_eqb st s_critical); simpl; rewrite ?orb_true_r, ?orb_false_r; done.
Qed.

Lemma full_record_result_eq w t m st s :
  let s' := (Full.record_result w t m st s).2 in
  (Full.record_result w t m st s).1 = Ok ()
  ∧ verification_results s'
    = verification_results s
      ++ [{| task := t; message := m; status := st;
             timestamp := Some (now_isoformat w (length (verification_results s))) |}]
  ∧ has_critical_error s' = has_critical_error s || str_eqb st s_critical
  ∧ sent s' = sent s ∧ headers s' = headers s
  ∧ org s' = org s ∧ repo s' = repo s.
Proof.
  unfold Full.record_result, mbind, M_bind, append_result, read. simpl.
  destruct (str_eqb st s_critical); simpl; rewrite ?orb_true_r, ?orb_false_r; done.
Qed.

Lemma has_critical_Exists rs :
  has_critical rs = true ↔ ∃ r, r ∈ rs ∧ status r = s_critical.
Proof.
  unfold has_critical. rewrite existsb_exists. split.
  - intros (r & Hin & Hr). exists r. split; [by apply list_elem_of_In|].
    unfold is_critical, str_eqb in Hr. by apply bool_decide_eq_true in Hr.
  - intros (r & Hin & Hr). exists r. split; [by apply list_elem_of_In|].
    unfold is_critical, str_eqb. by apply bool_decide_eq_true.
Qed.

Lemma for_each_record_grows (record : pystr → pystr → pystr → M ())
    (calls : list (pystr * pystr * pystr)) :
  (∀ t m st s, (record t m st s).1 = Ok ()
               ∧ ∃ r, verification_results (record t m st s).2
                      = verification_results s ++ [r]
                      ∧ status r = st
                      ∧ has_critical_error (record t m st s).2
                        = has_critical_error s || str_eqb st s_critical) →
  ∀ s, let s' := (for_each (λ c, record c.1.1 c.1.2 c.2) calls s).2 in
       ∃ added, verification_results s' = verification_results s ++ added
                ∧ status <$> added = snd <$> calls
                ∧ has_critical_error s' = has_critical_error s || has_critical added.
Proof.
  intros Hrec. induction calls as [|[[t m] st] calls IH]; intros s; simpl.
  { exists []. by rewrite app_nil_r, orb_false_r. }
  unfold mbind, M_bind.
  destruct (Hrec t m st s) as (Hok & r & Hres & Hst & Hflag).
  destruct (record t m st s) as [[[]|e] s1]; simpl in *; [|done].
  destruct (IH s1) as (added & E & S & F). exists (r :: added).
  rewrite E, Hres, <- app_assoc. split; [done|]. split; [rewrite !fmap_cons; simpl; by rewrite Hst, S|].
  rewrite F, Hflag. simpl. unfold is_critical. rewrite Hst. by rewrite orb_assoc.
Qed.

(** C9: in both variants [record_result] appends one entry, built from its
    arguments, to the log and leaves the entries before it as they were; the
    flag after the call is the flag before it or-ed with "the status is
    critical", so it is never reset; and after any sequence of calls on a
    fresh verifier the statuses in the log are those passed in, in order, and
    the flag is set exactly when the log holds a critical entry. *)
Theorem record_result_log_and_flag (w : World) :
  (∀ t m st s,
     let s' := (Simplified.record_result t m st s).2 in
     verification_results s'
     = verification_results s
       ++ [{| task := t; message := m; status := st; timestamp := None |}]
     ∧ has_critical_error s' = has_critical_error s || str_eqb st s_critical)
  ∧ (∀ t m st s,
       let s' := (Full.record_result w t m st s).2 in
       verification_results s'
       = verification_results s
         ++ [{| task := t; message := m; status := st;
                timestamp := Some (now_isoformat w (length (verification_results s))) |}]
       ∧ has_critical_error s' = has_critical_error s || str_eqb st s_critical)
  ∧ (∀ calls : list (pystr * pystr * pystr),
       let s := (for_each (λ c, Simplified.record_result c.1.1 c.1.2 c.2) calls init).2 in
       status <$> verification_results s = snd <$> calls
       ∧ (has_critical_error s = true
          ↔ ∃ r, r ∈ verification_results s ∧ status r = s_critical))
  ∧ (∀ calls : list (pystr * pystr * pystr),
       let s := (for_each (λ c, Full.record_result w c.1.1 c.1.2 c.2) calls init).2 in
       status <$> verification_results s = snd <$> calls
       ∧ (has_critical_error s = true
          ↔ ∃ r, r ∈ verification_results s ∧ status r = s_critical)).
Proof.
  split; [intros t m st s; by destruct (simplified_record_result_eq t m st s) as (_ & ? & ? & _)|].
  split; [intros t m st s; by destruct (full_record_result_eq w t m st s) as (_ & ? & ? & _)|].
  split.
  - intros calls.
    destruct (for_each_record_grows Simplified.record_result calls) with (s := init)
      as (added & E & S & F).
    { intros t m st s. destruct (simplified_record_result_eq t m st s) as (? & ? & ? & _).
      split; [done|]. eexists. split; [done|]. by split. }
    cbv zeta. simpl in E, F. rewrite E, F, S. split; [done|]. apply has_critical_Exists.
  - intros calls.
    destruct (for_each_record_grows (Full.record_result w) calls) with (s := init)
      as (added & E & S & F).
    { intros t m st s. destruct (full_record_result_eq w t m st s) as (? & ? & ? & _).
      split; [done|]. eexists. split; [done|]. by split. }
    cbv zeta. simpl in E, F. rewrite E, F, S. split; [done|]. apply has_critical_Exists.
Qed.

(** ** The API client *)

Lemma simplified_api_eq (w : World) (endpoint : pystr) (s : State) :
  ∃ s1, Simplified.github_api_request w endpoint s
        = (Ok (api_answer (http_get w (sent s) (simplified_request s endpoint))), s1)
        ∧ verification_results s1 = verification_results s
        ∧ has_critical_error s1 = has_critical_error s
        ∧ sent s1 = sent s ++ [simplified_request s endpoint]
        ∧ headers s1 = headers s ∧ org s1 = org s ∧ repo s1 = repo s.
Proof.
  unfold Simplified.github_api_request, mbind, M_bind, read, requests_get,
    api_answer, fetched, simplified_request. simpl.
  destruct (http_get w _ _) as [code [j|msg]|msg]; simpl;
    try destruct (code =? 200)%Z; simpl; eexists; (split; [reflexivity|done]).
Qed.

Lemma full_api_eq (w : World) (endpoint : pystr) (s : State) :
  ∃ s1, Full.github_api_request w endpoint s
        = (Ok (api_answer (http_get w (sent s) (full_request s endpoint))), s1)
        ∧ verification_results s1 = verification_results s
        ∧ has_critical_error s1 = has_critical_error s
        ∧ sent s1 = sent s ++ [full_request s endpoint]
        ∧ headers s1 = headers s ∧ org s1 = org s ∧ repo s1 = repo s.
Proof.
  unfold Full.github_api_request, mbind, M_bind, read, requests_get,
    api_answer, fetched, full_request. simpl.
  destruct (http_get w _ _) as [code [j|msg]|msg]; simpl;
    try destruct (code =? 200)%Z; simpl; eexists; (split; [reflexivity|done]).
Qed.

(** C5 (amended): in both variants an API request sends exactly one GET (no
    retry), with a timeout of 30 seconds, and returns (true, the parsed
    body) when the response has status 200 and a body that is JSON, and
    (false, None) when the response has status 200 and a body that is not
    JSON, on any other status, and on a network exception. *)
Theorem github_api_request_contract (w : World) (endpoint : pystr) (s : State) :
  let contract (rq : Request) (out : res (bool * json) * State) :=
    sent out.2 = sent s ++ [rq]
    ∧ req_timeout rq = 30%Z
    ∧ (∀ j, http_get w (sent s) rq = HttpResponse 200 (JsonOk j) →
            out.1 = Ok (true, j))
    ∧ (∀ msg, http_get w (sent s) rq = HttpResponse 200 (JsonDecodeError msg) →
              out.1 = Ok (false, JNull))
    ∧ (∀ code body, code ≠ 200%Z → http_get w (sent s) rq = HttpResponse code body →
            out.1 = Ok (false, JNull))
    ∧ (∀ msg, http_get w (sent s) rq = HttpRequestException msg →
            out.1 = Ok (false, JNull)) in
  contract (request_for s (Simplified.api_url (org s) (repo s) endpoint))
           (Simplified.github_api_request w endpoint s)
  ∧ contract (request_for s (Full.api_url (org s) (repo s) endpoint))
             (Full.github_api_request w endpoint s).
Proof.
  cbv zeta. split.
  - destruct (simplified_api_eq w endpoint s) as (s1 & -> & _ & _ & Hsent & _).
    fold (simplified_request s endpoint). simpl. split; [done|]. split; [done|].
    unfold api_answer, fetched. repeat split.
    + by intros j ->.
    + by intros msg ->.
    + intros code body Hc ->. apply Z.eqb_neq in Hc. rewrite Hc. by destruct body.
    + by intros msg ->.
  - destruct (full_api_eq w endpoint s) as (s1 & -> & _ & _ & Hsent & _).
    fold (full_request s endpoint). simpl. split; [done|]. split; [done|].
    unfold api_answer, fetched. repeat split.
    + by intros j ->.
    + by intros msg ->.
    + intros code body Hc ->. apply Z.eqb_neq in Hc. rewrite Hc. by destruct body.
    + by intros msg ->.
Qed.

(** ** The document check of the simplified variant *)

Section SimplifiedDocument.
Context `{PyLib} (w : World).



Lemma simplified_document_parsed (s : State) (j : json) (content : pystr)
    (rows : list Simplified.LabelRow) :
  fetched (http_get w (sent s) (simplified_request s simplified_doc_endpoint)) = Some j →
  response_content j = Ok content →
  Simplified.parse_label_table content = Ok rows →
  ∃ r s', Simplified.verify_label_document w s = (Ok true, s')
          ∧ verification_results s' = verification_results s ++ [r]
          ∧ status r = (if bool_decide (length rows < 12)%nat
                        then s_warning else s_success).
Proof.
  intros Hf Hd Hp. unfold Simplified.verify_label_document. cbv zeta.
  unfold mbind, M_bind.
  destruct (simplified_api_eq w simplified_doc_endpoint s)
    as (s1 & Hreq & Hres & _).
  unfold simplified_doc_endpoint in Hreq. rewrite Hreq.
  unfold api_answer. fold simplified_doc_endpoint. rewrite Hf.
  unfold try_except, lift. cbn [fst snd negb]. rewrite Hd. cbn [mret M_ret].
  rewrite Hp.
  change (Simplified.label_document_min_label_count Simplified.config) with 12%nat.
  case_bool_decide; simpl;
    (do 2 eexists; split; [reflexivity|]; simpl; by rewrite Hres).
Qed.

Lemma simplified_run_from_document :
  Simplified.run_verification w
  = (print (py "开始GitHub标签颜色标准化验证...");;
     org ← read org;
     repo ← read repo;
     print (py "目标仓库: " ++ str_of_opt org ++ py "/" ++ str_of_opt repo);;
     print (mjoin (replicate 40 (py "-")));;
     ok ← Simplified.setup_environment w;
     if negb ok then mret false else
     ok ← Simplified.verify_branch_existence w;
     if negb ok then mret false else
     simplified_from_document w).
Proof. reflexivity. Qed.


(** C7: in the simplified variant, when the document is fetched and decoded
    and the number of parsed rows equals the configured minimum, which is
    12, the document check records a result of status success, not
    warning, and returns True. *)
Theorem simplified_document_at_minimum (s : State) (j : json) (content : pystr)
    (rows : list Simplified.LabelRow) :
  http_get w (sent s) (simplified_request s simplified_doc_endpoint)
  = HttpResponse 200 (JsonOk j) →
  response_content j = Ok content →
  Simplified.parse_label_table content = Ok rows →
  length rows = Simplified.label_document_min_label_count Simplified.config →
  Simplified.label_document_min_label_count Simplified.config = 12%nat
  ∧ ∃ r, (Simplified.verify_label_document w s).1 = Ok true
         ∧ verification_results (Simplified.verify_label_document w s).2
           = verification_results s ++ [r]
         ∧ status r = s_success ∧ status r ≠ s_warning.
Proof.
  intros Hget Hd Hp Hlen. split; [done|].
  destruct (simplified_document_parsed s j content rows) as (r & s' & -> & ? & Hst);
    [by rewrite Hget|done|done|].
  change (Simplified.label_document_min_label_count Simplified.config) with 12%nat in Hlen.
  rewrite Hlen in Hst. exists r. rewrite Hst. done.
Qed.
End SimplifiedDocument.

(** ** Reasoning about runs *)

Lemma wp_bind {A B} (m : M A) (k : A → M B) (Q : res B → State → Prop) s :
  wp m (λ r s', match r with
                | Ok a => wp (k a) Q s'
                | Raise e => Q (Raise e) s'
                end) s →
  wp (m ≫= k) Q s.
Proof.
  unfold wp, mbind, M_bind. by destruct (m s) as [[a|e] s'].
Qed.

Lemma wp_mono {A} (m : M A) (Q Q' : res A → State → Prop) s :
  wp m Q s → (∀ r s', Q r s' → Q' r s') → wp m Q' s.
Proof. unfold wp. auto. Qed.

Lemma wp_ret {A} (a : A) (Q : res A → State → Prop) s : Q (Ok a) s → wp (mret a) Q s.
Proof. done. Qed.

Lemma wp_lift {A} (r : res A) (Q : res A → State → Prop) s : Q r s → wp (lift r) Q s.
Proof. done. Qed.

Lemma wp_read {A} (f : State → A) (Q : res A → State → Prop) s :
  Q (Ok (f s)) s → wp (read f) Q s.
Proof. done. Qed.

Lemma quiet_grows s s' : quiet s s' → grows s s'.
Proof. intros [E F]. by apply grows_same. Qed.

Lemma quiet_refl s : quiet s s.
Proof. by split. Qed.

Lemma quiet_trans s1 s2 s3 : quiet s1 s2 → quiet s2 s3 → quiet s1 s3.
Proof. intros [E1 F1] [E2 F2]. split; congruence. Qed.

Lemma quiet_flag_false s s' :
  quiet s s' → has_critical_error s = false → has_critical_error s' = false.
Proof. intros [_ F] Hc. by rewrite F. Qed.

Lemma grows_flag s s' :
  grows s s' → has_critical_error s = true → has_critical_error s' = true.
Proof. intros (added & _ & F) Hc. by rewrite F, Hc. Qed.

Lemma grows_flag_matches s s' : grows s s' → flag_matches_log s → flag_matches_log s'.
Proof.
  unfold flag_matches_log, has_critical. intros (added & E & F) Hs.
  by rewrite F, E, existsb_app, Hs.
Qed.

Lemma wp_quiet {A} (m : M A) s :
  (∀ s, is_ok (m s).1 ∧ quiet s (m s).2) →
  wp m (λ r s', is_ok r ∧ quiet s s') s.
Proof. intros Hq. apply Hq. Qed.

Lemma print_quiet line s : wp (print line) (λ r s', is_ok r ∧ quiet s s') s.
Proof. by apply wp_quiet. Qed.

Lemma eprint_quiet line s : wp (eprint line) (λ r s', is_ok r ∧ quiet s s') s.
Proof. by apply wp_quiet. Qed.

Lemma set_org_quiet o s : wp (set_org o) (λ r s', is_ok r ∧ quiet s s') s.
Proof. by apply wp_quiet. Qed.

Lemma set_repo_quiet o s : wp (set_repo o) (λ r s', is_ok r ∧ quiet s s') s.
Proof. by apply wp_quiet. Qed.

Lemma set_headers_quiet h s : wp (set_headers h) (λ r s', is_ok r ∧ quiet s s') s.
Proof. by apply wp_quiet. Qed.

Lemma for_each_print_quiet (f : VerificationResult → pystr) rs s :
  wp (for_each (λ r, print (f r)) rs) (λ r s', is_ok r ∧ quiet s s') s.
Proof.
  revert s. induction rs as [|x rs IH]; intros s; [done|].
  simpl. apply wp_bind. unfold wp at 1. simpl.
  eapply wp_mono; [apply IH|]. intros r s' [Hok [E F]]. split; [done|]. by split.
Qed.

Lemma simplified_api_quiet w endpoint s :
  wp (Simplified.github_api_request w endpoint) (λ r s', is_ok r ∧ quiet s s') s.
Proof.
  unfold wp. destruct (simplified_api_eq w endpoint s) as (s1 & -> & ? & ? & _).
  by repeat split.
Qed.

Lemma full_api_quiet w endpoint s :
  wp (Full.github_api_request w endpoint) (λ r s', is_ok r ∧ quiet s s') s.
Proof.
  unfold wp. destruct (full_api_eq w endpoint s) as (s1 & -> & ? & ? & _).
  by repeat split.
Qed.

Lemma simplified_record_grows t m st s :
  wp (Simplified.record_result t m st)
     (λ r s', is_ok r ∧ grows s s'
              ∧ (str_eqb st s_critical = true → has_critical_error s' = true)) s.
Proof.
  unfold wp. destruct (simplified_record_result_eq t m st s) as (-> & E & F & _).
  split; [done|]. split.
  - eexists. split; [exact E|]. rewrite F. unfold has_critical, is_critical. simpl.
    by rewrite orb_false_r.
  - intros Hc. by rewrite F, Hc, orb_true_r.
Qed.

Lemma full_record_grows w t m st s :
  wp (Full.record_result w t m st)
     (λ r s', is_ok r ∧ grows s s'
              ∧ (str_eqb st s_critical = true → has_critical_error s' = true)) s.
Proof.
  unfold wp. destruct (full_record_result_eq w t m st s) as (-> & E & F & _).
  split; [done|]. split.
  - eexists. split; [exact E|]. rewrite F. unfold has_critical, is_critical. simpl.
    by rewrite orb_false_r.
  - intros Hc. by rewrite F, Hc, orb_true_r.
Qed.

(** One step of a run: the calls whose effect on the log is known. *)
Ltac wp_known :=
  lazymatch goal with
  | |- wp (print _) _ _ => apply print_quiet
  | |- wp (eprint _) _ _ => apply eprint_quiet
  | |- wp (set_org _) _ _ => apply set_org_quiet
  | |- wp (set_repo _) _ _ => apply set_repo_quiet
  | |- wp (set_headers _) _ _ => apply set_headers_quiet
  | |- wp (for_each _ _) _ _ => apply for_each_print_quiet
  | |- wp (Simplified.github_api_request _ _) _ _ => apply simplified_api_quiet
  | |- wp (Full.github_api_request _ _) _ _ => apply full_api_quiet
  | |- wp (Simplified.record_result _ _ _) _ _ => apply simplified_record_grows
  | |- wp (Full.record_result _ _ _ _) _ _ => apply full_record_grows
  end.

(** Fold what a finished call says into the facts about the current state. *)
Ltac wp_chain Hnew :=
  lazymatch type of Hnew with
  | grows ?s1 ?s2 =>
    repeat match goal with
           | Hc : has_critical_error s1 = true |- _ => apply (grows_flag _ _ Hnew) in Hc
           end;
    match goal with
    | Hg : grows ?s0 s1 |- _ =>
      let H := fresh "Hg" in
      pose proof (grows_trans _ _ _ Hg Hnew) as H; clear Hg Hnew
    end
  end.

Ltac wp_after :=
  let r := fresh "r" in
  let s' := fresh "s" in
  let HP := fresh "HP" in
  intros r s' HP; cbv beta in HP;
  destruct r; [|try (exfalso; apply HP)];
  repeat match type of HP with
         | _ ∧ _ => let H1 := fresh "HP" in destruct HP as [H1 HP]; try clear H1
         end.

Lemma wp_try {A} (body handler : M A) (caught : list exn)
    (Q : res A → State → Prop) s :
  wp body (λ r s', match r with
                   | Ok a => Q (Ok a) s'
                   | Raise e => if bool_decide (e ∈ caught)
                                then wp handler Q s' else Q (Raise e) s'
                   end) s →
  wp (try_except body caught handler) Q s.
Proof.
  unfold wp, try_except. destruct (body s) as [[a|e] s']; [done|].
  simpl. by destruct (bool_decide (e ∈ caught)).
Qed.

(** Turn the postcondition of a finished call into facts about the state
    it left: the log has grown from the start of the method, and the flag
    is set once a critical result was recorded. *)
Ltac wp_facts HP :=
  lazymatch type of HP with
  | is_ok _ ∧ quiet ?s1 _ =>
    let Hq := fresh "Hq" in
    destruct HP as [_ Hq];
    try match goal with
        | Hq0 : quiet _ s1 |- _ =>
          let H' := fresh "Hquiet" in
          pose proof (quiet_trans _ _ _ Hq0 Hq) as H'; clear Hq0
        end;
    repeat match goal with
           | Hc : has_critical_error s1 = false |- _ =>
             apply (quiet_flag_false _ _ Hq) in Hc
           end;
    apply quiet_grows in Hq; wp_chain Hq
  | is_ok _ ∧ grows ?s1 _ ∧ _ =>
    let Hn := fresh "Hn" in
    let Hc := fresh "Hc" in
    destruct HP as (_ & Hn & Hc);
    first [ specialize (Hc eq_refl) | clear Hc ];
    try match goal with
        | Hq0 : quiet _ s1 |- _ => clear Hq0
        end;
    wp_chain Hn
  end.

Ltac wp_call :=
  eapply wp_mono; [wp_known|];
  let r := fresh "r" in
  let s' := fresh "s" in
  let HP := fresh "HP" in
  intros r s' HP; cbv beta in HP;
  destruct r as [?|?]; [|exfalso; exact (proj1 HP)];
  wp_facts HP.

Ltac wp_auto :=
  cbv beta iota zeta;
  lazymatch goal with
  | |- wp (mret _) _ _ => apply wp_ret; wp_auto
  | |- wp (mbind _ _) _ _ => apply wp_bind; wp_auto
  | |- wp (try_except _ _ _) _ _ => apply wp_try; wp_auto
  | |- wp (lift ?r) _ _ => apply wp_lift; destruct r eqn:?; wp_auto
  | |- wp (read _) _ _ => apply wp_read; wp_auto
  | |- wp (if ?b then _ else _) _ _ => destruct b eqn:?; wp_auto
  | |- wp (match ?x with _ => _ end) _ _ => destruct x eqn:?; wp_auto
  | |- if ?b then _ else _ => destruct b eqn:?; wp_auto
  | |- wp _ _ _ => first [ wp_call; wp_auto | idtac ]
  | |- _ => idtac
  end.

Ltac wp_leaf :=
  cbv beta iota;
  repeat match goal with
         | |- _ ∧ _ => split
         | |- grows _ _ => assumption
         | |- critical_if _ _ _ =>
           let a := fresh in
           let E := fresh in
           let S := fresh in
           intros a E S; simplify_eq/=; first [ assumption | done | congruence ]
         | |- untouched_on _ _ _ _ =>
           let a := fresh in
           let E := fresh in
           let S := fresh in
           intros a E S; simplify_eq/=; first [ assumption | done | congruence ]
         end.

Ltac wp_start s :=
  intros s;
  let Hg := fresh "Hg" in
  let Hq := fresh "Hquiet" in
  pose proof (grows_refl s) as Hg; pose proof (quiet_refl s) as Hq.

(** Call a method through its own lemma; what it guarantees besides the
    growth of the log stays in the context under the name given. *)
Ltac wp_method L HX :=
  eapply wp_mono; [apply L|];
  let r := fresh "r" in
  let s' := fresh "s" in
  let Hn := fresh "Hn" in
  intros r s' [Hn HX]; wp_chain Hn; destruct r; cbv beta iota.

Section SimplifiedRun.
Context `{PyLib} (w : World).

Lemma simplified_branch_spec s :
  wp (Simplified.verify_branch_existence w)
     (λ r s', grows s s' ∧ critical_if negb r s') s.
Proof.
  revert s. wp_start s. unfold Simplified.verify_branch_existence.
  wp_auto; wp_leaf.
Qed.

Lemma simplified_document_spec s :
  wp (Simplified.verify_label_document w)
     (λ r s', grows s s' ∧ critical_if negb r s') s.
Proof.
  revert s. wp_start s. unfold Simplified.verify_label_document.
  wp_auto; wp_leaf.
Qed.

Lemma simplified_issue_spec s :
  wp (Simplified.verify_standardization_issue w) (λ r s', grows s s') s.
Proof.
  revert s. wp_start s. unfold Simplified.verify_standardization_issue.
  wp_auto; wp_leaf.
Qed.

Lemma simplified_setup_spec s :
  wp (Simplified.setup_environment w)
     (λ r s', grows s s' ∧ untouched_on negb s r s') s.
Proof.
  revert s. wp_start s. unfold Simplified.setup_environment.
  wp_auto; wp_leaf.
Qed.

Lemma simplified_report_spec s :
  wp Simplified.generate_report
     (λ r s', quiet s s' ∧ r = Ok (negb (has_critical_error s))) s.
Proof.
  revert s. wp_start s.
  unfold Simplified.generate_report, Simplified.print_result_line.
  wp_auto; (split; [assumption|]);
    match goal with
    | Hq : quiet _ ?s1, E : has_critical_error ?s1 = _ |- _ =>
      destruct Hq as [_ F]; rewrite F in E; by rewrite E
    end.
Qed.

Lemma simplified_run_spec s :
  wp (Simplified.run_verification w)
     (λ r s', grows s s'
              ∧ (r = Ok true → has_critical_error s' = false)
              ∧ (r = Ok false → has_critical_error s' = true ∨ quiet s s')) s.
Proof.
  revert s. wp_start s. unfold Simplified.run_verification.
  wp_auto. wp_method simplified_setup_spec Hsetup; [|done].
  destruct a2; simpl.
  2:{ apply wp_ret. split; [done|]. split; [done|]. intros _. right.
      eapply quiet_trans; [eassumption|]. by eapply Hsetup. }
  clear Hsetup. apply wp_bind. wp_method simplified_branch_spec Hbranch; [|done].
  destruct a2; simpl.
  2:{ apply wp_ret. split; [done|]. split; [done|]. intros _. left.
      by eapply Hbranch. }
  clear Hbranch. apply wp_bind. wp_method simplified_document_spec Hdoc; [|done].
  destruct a2; simpl.
  2:{ apply wp_ret. split; [done|]. split; [done|]. intros _. left.
      by eapply Hdoc. }
  clear Hdoc. apply wp_bind.
  eapply wp_mono; [apply simplified_issue_spec|]. intros r sI Hn. cbv beta in Hn. wp_chain Hn.
  destruct r; [|done].
  eapply wp_mono; [apply simplified_report_spec|]. intros r sR [[E F] ->].
  split.
  - eapply grows_trans; [eassumption|]. by apply quiet_grows.
  - rewrite F. split; intros [= Hr]; [|left]; by destruct (has_critical_error sI).
Qed.
End SimplifiedRun.

Section FullRun.
Context `{PyLib} (w : World).

Lemma full_setup_spec s :
  wp (Full.setup_environment w) (λ r s', grows s s' ∧ critical_if negb r s') s.
Proof.
  revert s. wp_start s. unfold Full.setup_environment.
  wp_auto; wp_leaf.
Qed.

Lemma full_branch_spec s :
  wp (Full.verify_branch_existence w) (λ r s', grows s s' ∧ critical_if negb r s') s.
Proof.
  revert s. wp_start s. unfold Full.verify_branch_existence.
  wp_auto; wp_leaf.
Qed.

Lemma full_document_spec s :
  wp (Full.verify_label_document w) (λ r s', grows s s' ∧ critical_if negb r s') s.
Proof.
  revert s. wp_start s. unfold Full.verify_label_document.
  wp_auto; wp_leaf.
Qed.

Lemma full_issue_spec s :
  wp (Full.verify_standardization_issue w)
     (λ r s', grows s s' ∧ critical_if (λ j, negb (truthy j)) r s') s.
Proof.
  revert s. wp_start s. unfold Full.verify_standardization_issue.
  wp_auto; wp_leaf.
Qed.

Lemma full_pr_spec issue s :
  wp (Full.verify_standardization_pr w issue)
     (λ r s', grows s s' ∧ critical_if (λ j, negb (truthy j)) r s') s.
Proof.
  revert s. wp_start s. unfold Full.verify_standardization_pr.
  wp_auto; wp_leaf.
Qed.

Lemma full_completeness_spec issue s :
  wp (Full.verify_issue_label_completeness w issue) (λ r s', grows s s') s.
Proof.
  revert s. wp_start s. unfold Full.verify_issue_label_completeness.
  wp_auto; wp_leaf.
Qed.

Lemma full_comments_spec issue pr s :
  wp (Full.verify_issue_comments w issue pr) (λ r s', grows s s') s.
Proof.
  revert s. wp_start s. unfold Full.verify_issue_comments.
  wp_auto; wp_leaf.
Qed.

Lemma full_consistency_spec s :
  wp (Full.verify_document_label_consistency w) (λ r s', grows s s') s.
Proof.
  revert s. wp_start s. unfold Full.verify_document_label_consistency.
  wp_auto; wp_leaf.
Qed.

Lemma full_core_labels_spec pr s :
  wp (Full.verify_pr_core_labels w pr) (λ r s', grows s s') s.
Proof.
  revert s. wp_start s. unfold Full.verify_pr_core_labels.
  wp_auto; wp_leaf.
Qed.

Lemma full_report_spec s :
  wp Full.generate_report
     (λ r s', quiet s s' ∧ r = Ok (negb (has_critical_error s))) s.
Proof.
  revert s. wp_start s.
  unfold Full.generate_report, Full.print_result_line.
  wp_auto; (split; [assumption|]);
    match goal with
    | Hq : quiet _ ?s1, E : has_critical_error ?s1 = _ |- _ =>
      destruct Hq as [_ F]; rewrite F in E; by rewrite E
    end.
Qed.
Lemma full_run_spec s :
  wp (Full.run_verification w)
     (λ r s', grows s s'
              ∧ (r = Ok true → has_critical_error s' = false)
              ∧ (r = Ok false → has_critical_error s' = true)) s.
Proof.
  revert s. wp_start s. unfold Full.run_verification.
  wp_auto. wp_method full_setup_spec Hstop; [|done].
  destruct a2; simpl.
  2:{ apply wp_ret. split; [done|]. split; [done|]. intros _. by eapply Hstop. }
  clear Hstop. apply wp_bind. wp_method full_branch_spec Hstop; [|done].
  destruct a2; simpl.
  2:{ apply wp_ret. split; [done|]. split; [done|]. intros _. by eapply Hstop. }
  clear Hstop. apply wp_bind. wp_method full_document_spec Hstop; [|done].
  destruct a2; simpl.
  2:{ apply wp_ret. split; [done|]. split; [done|]. intros _. by eapply Hstop. }
  clear Hstop. apply wp_bind. wp_method full_issue_spec Hstop; [|done].
  destruct (negb (truthy a2)) eqn:Hissue.
  { apply wp_ret. split; [done|]. split; [done|]. intros _. by eapply Hstop. }
  clear Hstop. apply wp_bind. wp_method full_pr_spec Hstop; [|done].
  destruct (negb (truthy a3)) eqn:Hpr.
  { apply wp_ret. split; [done|]. split; [done|]. intros _. by eapply Hstop. }
  clear Hstop. apply wp_bind.
  eapply wp_mono; [apply full_completeness_spec|]. intros r sA Hn. cbv beta in Hn.
  wp_chain Hn. destruct r; [|done]. apply wp_bind.
  eapply wp_mono; [apply full_comments_spec|]. intros r sB Hn. cbv beta in Hn.
  wp_chain Hn. destruct r; [|done]. apply wp_bind.
  eapply wp_mono; [apply full_consistency_spec|]. intros r sC Hn. cbv beta in Hn.
  wp_chain Hn. destruct r; [|done]. apply wp_bind.
  eapply wp_mono; [apply full_core_labels_spec|]. intros r sD Hn. cbv beta in Hn.
  wp_chain Hn. destruct r; [|done].
  eapply wp_mono; [apply full_report_spec|]. intros r sR [[E F] ->].
  split.
  - eapply grows_trans; [eassumption|]. by apply quiet_grows.
  - rewrite F. split; intros [= Hr]; by destruct (has_critical_error sD).
Qed.
End FullRun.

(** ** Exit codes *)

Lemma grows_from_init s :
  grows init s → flag_matches_log s.
Proof. intros Hg. by apply (grows_flag_matches init s). Qed.

(** C1 (amended): in both variants the exit code is 0 or 1; a run that
    recorded a critical result exits with 1, so a run that exits with 0
    recorded none, whatever warnings it recorded.  In the full variant a
    run that ends without an uncaught exception exits with 1 only if it
    recorded a critical result.  In the simplified variant such a run exits
    with 1 only if it recorded a critical result or recorded nothing at
    all. *)
Theorem exit_code_and_critical_results `{PyLib} (w : World) :
  let critical_recorded (s : State) :=
    ∃ r, r ∈ verification_results s ∧ status r = s_critical in
  (((Simplified.main w).1 = 0 ∨ (Simplified.main w).1 = 1)%Z
   ∧ (critical_recorded (Simplified.main w).2 → (Simplified.main w).1 = 1%Z)
   ∧ ((Simplified.main w).1 = 0%Z → ¬ critical_recorded (Simplified.main w).2)
   ∧ (is_ok (Simplified.run_verification w init).1 →
      (Simplified.main w).1 = 1%Z →
      critical_recorded (Simplified.main w).2
      ∨ verification_results (Simplified.main w).2 = []))
  ∧ (((Full.main w).1 = 0 ∨ (Full.main w).1 = 1)%Z
     ∧ (critical_recorded (Full.main w).2 → (Full.main w).1 = 1%Z)
     ∧ ((Full.main w).1 = 0%Z → ¬ critical_recorded (Full.main w).2)
     ∧ (is_ok (Full.run_verification w init).1 →
        (Full.main w).1 = 1%Z → critical_recorded (Full.main w).2)).
Proof.
  cbv zeta. split.
  - pose proof (simplified_run_spec w init) as (Hg & Ht & Hf). cbv beta in *.
    pose proof (grows_from_init _ Hg) as Hm. unfold flag_matches_log in Hm.
    unfold Simplified.main. cbv zeta.
    destruct (Simplified.run_verification w init) as [[[|]|e] s1]; simpl in *.
    + specialize (Ht eq_refl). rewrite Ht in Hm.
      assert (¬ ∃ r, r ∈ verification_results s1 ∧ status r = s_critical) as Hno.
      { intros Hc. apply has_critical_Exists in Hc. congruence. }
      repeat split; auto; done.
    + repeat split; auto; try done. intros _ _.
      destruct (Hf eq_refl) as [Hc | [E _]].
      * left. apply has_critical_Exists. congruence.
      * by right.
    + repeat split; auto; done.
  - pose proof (full_run_spec w init) as (Hg & Ht & Hf). cbv beta in *.
    pose proof (grows_from_init _ Hg) as Hm. unfold flag_matches_log in Hm.
    unfold Full.main. cbv zeta.
    destruct (Full.run_verification w init) as [[[|]|e] s1]; simpl in *.
    + specialize (Ht eq_refl). rewrite Ht in Hm.
      assert (¬ ∃ r, r ∈ verification_results s1 ∧ status r = s_critical) as Hno.
      { intros Hc. apply has_critical_Exists in Hc. congruence. }
      repeat split; auto; done.
    + repeat split; auto; try done. intros _ _.
      apply has_critical_Exists. rewrite <- Hm. by apply Hf.
    + repeat split; auto; done.
Qed.

(** ** The consistency step of the full variant *)

Lemma difference_empty_subseteq (a b : gset key) : a ∖ b = ∅ ↔ a ⊆ b.
Proof.
  split.
  - intros Hd x Hx. destruct (decide (x ∈ b)) as [|Hn]; [done|].
    exfalso. apply (not_elem_of_empty (C := gset key) x).
    rewrite <- Hd. by apply elem_of_difference.
  - intros Hs. apply set_eq. intros x. rewrite elem_of_difference. split.
    + intros [Hx Hn]. exfalso. by apply Hn, Hs.
    + by intros ?%not_elem_of_empty.
Qed.

Arguments Full.parse_label_table : simpl never.
Arguments Full.doc_label_names : simpl never.

Section FullConsistency.
Context `{PyLib} (w : World).

Lemma full_request_same s s1 endpoint :
  headers s1 = headers s → org s1 = org s → repo s1 = repo s →
  full_request s1 endpoint = full_request s endpoint.
Proof. unfold full_request, request_for. by intros -> -> ->. Qed.

Lemma full_consistency_doc_failed (s : State) :
  fetched (http_get w (sent s) (full_request s full_doc_endpoint)) = None →
  ∃ r s', Full.verify_document_label_consistency w s = (Ok false, s')
          ∧ verification_results s' = verification_results s ++ [r]
          ∧ status r = s_critical.
Proof.
  intros Hf. unfold Full.verify_document_label_consistency. cbv zeta.
  unfold mbind, M_bind.
  destruct (full_api_eq w full_doc_endpoint s) as (s1 & Hreq & Hres & _).
  unfold full_doc_endpoint in Hreq. rewrite Hreq.
  unfold api_answer. fold full_doc_endpoint. rewrite Hf. simpl.
  do 2 eexists. split; [reflexivity|]. simpl. by rewrite Hres.
Qed.

Lemma full_consistency_labels_failed (s : State) (j : json) (content : pystr) :
  fetched (http_get w (sent s) (full_request s full_doc_endpoint)) = Some j →
  response_content j = Ok content →
  fetched (http_get w (sent s ++ [full_request s full_doc_endpoint])
             (full_request s (py "labels?per_page=100"))) = None →
  ∃ r s', Full.verify_document_label_consistency w s = (Ok false, s')
          ∧ verification_results s' = verification_results s ++ [r]
          ∧ status r = s_critical.
Proof.
  intros Hf Hd Hl. unfold Full.verify_document_label_consistency. cbv zeta.
  unfold mbind, M_bind.
  destruct (full_api_eq w full_doc_endpoint s)
    as (s1 & Hreq & Hres & Hflag & Hsent & Hh & Ho & Hr).
  unfold full_doc_endpoint in Hreq. rewrite Hreq.
  unfold api_answer at 1 2. fold full_doc_endpoint. rewrite Hf.
  cbn [fst snd negb]. unfold lift. rewrite Hd.
  destruct (full_api_eq w (py "labels?per_page=100") s1) as (s2 & Hreq2 & Hres2 & _).
  rewrite Hreq2, Hsent, (full_request_same s s1) by done.
  unfold api_answer. rewrite Hl. simpl.
  do 2 eexists. split; [reflexivity|]. simpl. by rewrite Hres2, Hres.
Qed.

Lemma full_consistency_fetched (s : State) (j labels : json) (content : pystr)
    (repo_names : gset key) :
  fetched (http_get w (sent s) (full_request s full_doc_endpoint)) = Some j →
  response_content j = Ok content →
  fetched (http_get w (sent s ++ [full_request s full_doc_endpoint])
             (full_request s (py "labels?per_page=100"))) = Some labels →
  name_set labels = Ok repo_names →
  let doc_names := Full.doc_label_names
                     (Full.parse_label_table content configured_header) in
  ∃ added s',
    Full.verify_document_label_consistency w s
    = (Ok (bool_decide (repo_names ⊆ doc_names)), s')
    ∧ verification_results s' = verification_results s ++ added
    ∧ (doc_names = repo_names → ∃ r, added = [r] ∧ status r = s_success)
    ∧ (doc_names ≠ repo_names →
       added ≠ [] ∧ ∀ r, r ∈ added → status r = s_warning).
Proof.
  intros Hf Hd Hl Hn doc_names.
  unfold Full.verify_document_label_consistency. cbv zeta.
  unfold mbind, M_bind.
  destruct (full_api_eq w full_doc_endpoint s)
    as (s1 & Hreq & Hres & Hflag & Hsent & Hh & Ho & Hr).
  unfold full_doc_endpoint in Hreq. rewrite Hreq.
  unfold api_answer at 1 2. fold full_doc_endpoint. rewrite Hf.
  cbn [fst snd negb]. unfold lift at 1. rewrite Hd.
  destruct (full_api_eq w (py "labels?per_page=100") s1) as (s2 & Hreq2 & Hres2 & _).
  rewrite Hreq2, Hsent, (full_request_same s s1) by done.
  unfold api_answer. rewrite Hl. cbn [fst snd negb]. unfold lift. rewrite Hn.
  fold configured_header. fold doc_names.
  clearbody doc_names.
  pose proof (difference_empty_subseteq repo_names doc_names) as Hmissing.
  assert (repo_names ∖ doc_names = ∅ ∧ doc_names ∖ repo_names = ∅
          ↔ doc_names = repo_names) as Hboth.
  { rewrite !difference_empty_subseteq. split.
    - intros [? ?]. by apply (anti_symm (⊆)).
    - by intros ->. }
  assert (size (repo_names ∖ doc_names) = 0%nat ↔ repo_names ∖ doc_names = ∅)
    as Hsize by (rewrite size_empty_iff; by unfold_leibniz).
  rewrite (bool_decide_ext _ _ Hsize), <- (bool_decide_ext _ _ Hmissing).
  revert Hmissing Hboth Hsize.
  generalize (repo_names ∖ doc_names) (doc_names ∖ repo_names).
  intros missing extra Hmissing Hboth Hsize.
  destruct (decide (missing = ∅)) as [Hm|Hm]; destruct (decide (extra = ∅)) as [He|He];
    repeat first [ rewrite (bool_decide_eq_true_2 _ Hm)
                 | rewrite (bool_decide_eq_false_2 _ Hm)
                 | rewrite (bool_decide_eq_true_2 _ He)
                 | rewrite (bool_decide_eq_false_2 _ He)
                 | rewrite (bool_decide_eq_false_2 (missing ≠ ∅)) by tauto
                 | rewrite (bool_decide_eq_true_2 (missing ≠ ∅)) by tauto
                 | rewrite (bool_decide_eq_false_2 (extra ≠ ∅)) by tauto
                 | rewrite (bool_decide_eq_true_2 (extra ≠ ∅)) by tauto ];
    simpl; (do 2 eexists; split; [reflexivity|]); simpl; rewrite Hres2, Hres;
    rewrite <- ?app_assoc; (split; [reflexivity|]); split.
  - intros _. by eexists.
  - intros Hne. exfalso. apply Hne. by apply Hboth.
  - intros Heq. apply Hboth in Heq as [_ ?]. done.
  - intros _. split; [done|]. intros x Hx%list_elem_of_singleton. by subst.
  - intros Heq. apply Hboth in Heq as [? _]. done.
  - intros _. split; [done|]. intros x Hx%list_elem_of_singleton. by subst.
  - intros Heq. apply Hboth in Heq as [? _]. done.
  - intros _. split; [done|]. intros x Hx. simpl in Hx.
    apply elem_of_cons in Hx as [-> | Hx%list_elem_of_singleton]; [done|by subst].
Qed.

(** C3 (amended): in the full variant, when the document and the label
    list are both fetched, the consistency step records a success exactly
    when the set of label names of the document equals the set of label
    names of the repository, that success is then its only result, and
    when the sets differ every result it records is a warning; it returns
    whether every repository label is in the document.  When the document
    or the label list cannot be fetched it records one critical result and
    returns False. *)
Theorem full_consistency_results (s : State) (c : consistency_input) :
  full_consistency_input w s = Some c →
  let out := Full.verify_document_label_consistency w s in
  let added := added_by (Full.verify_document_label_consistency w) s in
  verification_results out.2 = verification_results s ++ added
  ∧ match c with
    | FetchFailed =>
      out.1 = Ok false ∧ ∃ r, added = [r] ∧ status r = s_critical
    | Fetched doc_names repo_names =>
      out.1 = Ok (bool_decide (repo_names ⊆ doc_names))
      ∧ ((∃ r, r ∈ added ∧ status r = s_success) ↔ doc_names = repo_names)
      ∧ (doc_names = repo_names → ∃ r, added = [r] ∧ status r = s_success)
      ∧ (doc_names ≠ repo_names →
         added ≠ [] ∧ ∀ r, r ∈ added → status r = s_warning)
    end.
Proof.
  unfold full_consistency_input, added_by. cbv zeta. intros Hc.
  destruct (fetched (http_get w (sent s) (full_request s full_doc_endpoint)))
    as [j|] eqn:Hf.
  2:{ destruct (full_consistency_doc_failed s Hf) as (r & s' & -> & E & Hst).
      simplify_eq. simpl. rewrite E, drop_app_length. split; [done|].
      split; [done|]. by exists r. }
  destruct (response_content j) as [content|e] eqn:Hd; [|done].
  destruct (fetched (http_get w (sent s ++ [full_request s full_doc_endpoint])
                       (full_request s (py "labels?per_page=100"))))
    as [labels|] eqn:Hl.
  2:{ destruct (full_consistency_labels_failed s j content Hf Hd Hl)
        as (r & s' & -> & E & Hst).
      simplify_eq. simpl. rewrite E, drop_app_length. split; [done|].
      split; [done|]. by exists r. }
  destruct (name_set labels) as [repo_names|e] eqn:Hn; [|done].
  destruct (full_consistency_fetched s j labels content repo_names Hf Hd Hl Hn)
    as (added & s' & -> & E & Heq & Hne).
  simplify_eq. simpl. rewrite E, drop_app_length. split; [done|].
  fold configured_header in Heq, Hne |- *.
  set (doc_names := Full.doc_label_names _) in *.
  split; [done|]. split; [|by split].
  split.
  - intros (r & Hr & Hst). destruct (decide (doc_names = repo_names)) as [|Hd']; [done|].
    destruct (Hne Hd') as [_ Hw]. specialize (Hw r Hr). rewrite Hst in Hw.
    by vm_compute in Hw.
  - intros Hd'. destruct (Heq Hd') as (r & -> & Hst). exists r.
    split; [apply list_elem_of_singleton|]; done.
Qed.
End FullConsistency.

(** ** The issue matchers *)

Lemma any_str_in_string (kws : list pystr) (s : pystr) :
  any_str_in kws (JStr s) = Ok (any_in kws s).
Proof.
  unfold any_in. induction kws as [|kw kws IH]; [done|].
  simpl. destruct (contains kw s); simpl; [done|]. apply IH.
Qed.

Lemma simplified_find_target_issue_find `{PyLib} (issues : list json) :
  forallb issue_typed issues = true →
  Simplified.find_target_issue issues = Ok (find matches_simplified issues).
Proof.
  induction issues as [|issue rest IH]; [done|].
  intros [Hty Hrest]%andb_prop. specialize (IH Hrest).
  destruct issue as [| | | |?|f]; try done.
  cbn [Simplified.find_target_issue find].
  unfold matches_simplified at 1. unfold has_field, text_field, issue_typed in *.
  cbn [str_in get_default get mbind res_bind].
  destruct (bool_decide (is_Some (assoc (py "pull_request") f))); [exact IH|].
  cbn [negb andb].
  destruct (assoc (py "title") f) as [[| | |title| |]|]; try done;
    destruct (assoc (py "body") f) as [[| | |[|c body]| |]|]; try done;
    simpl; rewrite IH; by destruct (_ || _).
Qed.

Lemma full_find_target_issue_find (issues : list json) :
  forallb issue_typed issues = true →
  Full.find_target_issue (Full.issue_validation_title_keywords Full.config) issues
  = Ok (find matches_full issues).
Proof.
  induction issues as [|issue rest IH]; [done|].
  intros [Hty Hrest]%andb_prop. specialize (IH Hrest).
  destruct issue as [| | | |?|f]; try done.
  cbn [Full.find_target_issue find].
  unfold matches_full at 1. unfold has_field, text_field, issue_typed in *.
  cbn [str_in get_default mbind res_bind].
  destruct (bool_decide (is_Some (assoc (py "pull_request") f))); [exact IH|].
  cbn [negb andb].
  destruct (assoc (py "title") f) as [[| | |title| |]|]; try done;
    cbn [default from_option id]; rewrite any_str_in_string; cbn [mbind res_bind];
    rewrite IH; by destruct (any_in _ _).
Qed.

(** C6 (amended): in both variants, on a list of issues of the expected
    shape, the matcher returns the first listed issue that has no
    pull_request field and whose title contains one of the title keywords
    or, in the simplified variant, whose body contains one of the body
    keywords; the simplified variant lowercases the title and the body
    before it looks, so its match on the title ignores the case of the
    title.  On the list of section 8 both variants select the second
    issue. *)
Theorem issue_matcher_first_match `{PyLib} (issues : list json) :
  forallb issue_typed issues = true →
  Simplified.find_target_issue issues = Ok (find matches_simplified issues)
  ∧ Full.find_target_issue (Full.issue_validation_title_keywords Full.config) issues
    = Ok (find matches_full issues)
  ∧ @Simplified.find_target_issue ref_pylib spec_issues = Ok (Some spec_issue_2)
  ∧ Full.find_target_issue (Full.issue_validation_title_keywords Full.config)
      spec_issues = Ok (Some spec_issue_2).
Proof.
  intros Hty. split; [by apply simplified_find_target_issue_find|].
  split; [by apply full_find_target_issue_find|].
  split; by vm_compute.
Qed.

(** ** The full parser *)

Lemma lstrip_by_nil (p : N → bool) (s : pystr) :
  lstrip_by p s = [] → forallb p s = true.
Proof.
  induction s as [|c s IH]; [done|]. simpl.
  destruct (p c) eqn:Hp; [by intros ?%IH|done].
Qed.

Lemma lstrip_by_all (p : N → bool) (s : pystr) :
  forallb p (lstrip_by p s) = true → lstrip_by p s = [].
Proof.
  induction s as [|c s IH]; [done|]. simpl.
  destruct (p c) eqn:Hp; [done|]. simpl. by rewrite Hp.
Qed.

Lemma forallb_reverse (p : N → bool) (s : pystr) :
  forallb p (reverse s) = forallb p s.
Proof.
  induction s as [|c s IH]; [done|].
  rewrite reverse_cons, forallb_app, IH. simpl. by rewrite andb_true_r, andb_comm.
Qed.

Lemma strip_nil_all_space (s : pystr) : strip s = [] → forallb isspace s = true.
Proof.
  unfold strip, strip_by, rstrip_by. intros Hs.
  apply (f_equal reverse) in Hs. rewrite reverse_involutive in Hs.
  change (reverse []) with (@nil N) in Hs.
  apply lstrip_by_nil in Hs. rewrite forallb_reverse in Hs.
  apply lstrip_by_all in Hs. by apply lstrip_by_nil.
Qed.

Lemma startswith_cons_head c pre s :
  startswith (c :: pre) s = true → ∃ s', s = c :: s'.
Proof.
  destruct s as [|b s]; [done|]. unfold startswith; fold startswith.
  intros [Hb _]%andb_prop. apply N.eqb_eq in Hb. subst. by eexists.
Qed.

Lemma contains_cons_elem c pre s : contains (c :: pre) s = true → c ∈ s.
Proof.
  induction s as [|b s IH]; unfold contains; fold contains.
  - by rewrite orb_false_r.
  - intros [Hs | Hc]%orb_prop.
    + apply startswith_cons_head in Hs as [s' [= -> ->]]. by left.
    + right. by apply IH.
Qed.

Lemma blank_has_no_pipe (line : pystr) : is_blank line = true → ch_pipe ∉ line.
Proof.
  unfold is_blank. intros Hb%bool_decide_eq_true Hin.
  apply strip_nil_all_space in Hb.
  rewrite forallb_forall in Hb. apply list_elem_of_In in Hin.
  specialize (Hb _ Hin). by vm_compute in Hb.
Qed.

Lemma configured_header_starts_with_pipe : ∃ t, configured_header = ch_pipe :: t.
Proof. eexists. vm_compute. reflexivity. Qed.

Lemma header_line_not_blank (line : pystr) :
  is_header_line line = true → is_blank line = false.
Proof.
  unfold is_header_line. destruct configured_header_starts_with_pipe as [t ->].
  intros Hc%contains_cons_elem. destruct (is_blank line) eqn:Hb; [|done].
  by apply blank_has_no_pipe in Hb.
Qed.

Lemma blank_not_table_row (line : pystr) :
  is_blank line = true → startswith s_pipe line = false.
Proof.
  intros Hb. destruct (startswith s_pipe line) eqn:Hs; [|done].
  apply startswith_cons_head in Hs as [s' ->].
  apply blank_has_no_pipe in Hb. exfalso. apply Hb. by left.
Qed.

Lemma full_parse_lines_before_header lines headers acc :
  forallb (λ l, negb (is_header_line l)) lines = true →
  Full.parse_lines configured_header lines false headers acc = acc.
Proof.
  induction lines as [|line rest IH]; [done|].
  intros [Hl Hrest]%andb_prop. apply negb_true_iff in Hl.
  cbn [Full.parse_lines]. unfold is_header_line in Hl. rewrite Hl.
  cbn [andb]. by apply IH.
Qed.

Lemma full_parse_lines_at_header before header_line following headers acc :
  forallb (λ l, negb (is_header_line l)) before = true →
  is_header_line header_line = true →
  Full.parse_lines configured_header (before ++ header_line :: following)
    false headers acc
  = Full.parse_lines configured_header following true (cells_of header_line) acc.
Proof.
  intros Hb Hh. induction before as [|line rest IH].
  - cbn [app Full.parse_lines]. unfold is_header_line in Hh. by rewrite Hh.
  - apply andb_prop in Hb as [Hl Hrest]. apply negb_true_iff in Hl.
    cbn [app Full.parse_lines]. unfold is_header_line in Hl. rewrite Hl.
    cbn [andb]. by apply IH.
Qed.

Lemma full_parse_lines_in_table lines columns acc :
  Full.parse_lines configured_header lines true columns acc
  = acc ++ ((λ cl, dict_zip cl.1 (cells_of cl.2))
              <$> filter (λ cl, is_table_row cl.2)
                    (with_columns columns (until_blank lines))).
Proof.
  revert columns acc. induction lines as [|line rest IH]; intros columns acc.
  { by rewrite app_nil_r. }
  cbn [Full.parse_lines until_blank].
  destruct (contains configured_header line) eqn:Hh.
  - rewrite (header_line_not_blank line Hh). cbn [with_columns].
    unfold is_header_line. rewrite Hh. apply IH.
  - cbn [andb]. fold (is_blank line). fold (cells_of line).
    destruct (is_blank line) eqn:Hb.
    + rewrite (blank_not_table_row line Hb). cbn [andb with_columns].
      by rewrite filter_nil, app_nil_r.
    + cbn [with_columns]. unfold is_header_line at 1. rewrite Hh.
      rewrite IH, filter_cons. cbn [snd fst].
      destruct (decide (is_table_row line)) as [Hr|Hr]; unfold is_table_row in Hr;
        destruct (startswith s_pipe line), (contains s_dashes line);
        cbn [andb negb] in *; try done;
        case_bool_decide; try done.
      by rewrite fmap_cons, <- app_assoc.
Qed.

(** C8 (amended): the full parser returns no rows unless some line contains
    the configured header; from the first such line on it reads up to the
    first blank line, and there it collects each line that does not itself
    contain the header, starts with a pipe, contains no separator marker
    and splits into at least three cells.  A later line that contains the
    header is not collected: its cells replace the column names. *)
Theorem full_parse_label_table_rows (content : pystr) :
  let lines := split_on ch_newline content in
  (forallb (λ l, negb (is_header_line l)) lines = true →
   Full.parse_label_table content configured_header = [])
  ∧ (∀ before header_line following,
       lines = before ++ header_line :: following →
       forallb (λ l, negb (is_header_line l)) before = true →
       is_header_line header_line = true →
       Full.parse_label_table content configured_header
       = rows_after_header header_line following).
Proof.
  cbv zeta. unfold Full.parse_label_table. split.
  - apply full_parse_lines_before_header.
  - intros before header_line following -> Hb Hh.
    rewrite full_parse_lines_at_header by done.
    by rewrite full_parse_lines_in_table.
Qed.

(** ** The claims at concrete inputs *)

(** The base64 payloads are those of the documents. *)
Lemma sample_documents_decode :
  @response_content ref_pylib (content_json doc12_b64) = Ok doc12
  ∧ @response_content ref_pylib (content_json doc11_b64) = Ok doc11
  ∧ @response_content ref_pylib (content_json doc_full_b64) = Ok doc_full.
Proof. by vm_compute. Qed.

(** A response with status 200 whose body is not JSON: both clients return
    (false, None), and the full variant reports the decoding error on the
    error stream. *)
Lemma api_200_without_json_is_failure :
  let rq := simplified_request init (py "labels") in
  let rq' := full_request init (py "labels") in
  http_get world_not_json [] rq
  = HttpResponse 200 (JsonDecodeError (py "Expecting value"))
  ∧ http_get world_not_json [] rq'
    = HttpResponse 200 (JsonDecodeError (py "Expecting value"))
  ∧ (Simplified.github_api_request world_not_json (py "labels") init).1
    = Ok (false, JNull)
  ∧ (Full.github_api_request world_not_json (py "labels") init).1
    = Ok (false, JNull)
  ∧ sent (Simplified.github_api_request world_not_json (py "labels") init).2 = [rq]
  ∧ sent (Full.github_api_request world_not_json (py "labels") init).2 = [rq']
  ∧ stderr (Full.github_api_request world_not_json (py "labels") init).2
    = [py "[API错误] labels: Expecting value"].
Proof. by vm_compute. Qed.

(** With no token in the environment the simplified variant exits with 1
    and has recorded nothing, so no critical result. *)
Lemma simplified_exit_1_without_critical :
  (@Simplified.main ref_pylib world_no_token).1 = 1%Z
  ∧ verification_results (@Simplified.main ref_pylib world_no_token).2 = [].
Proof. by vm_compute. Qed.



(** A document of exactly twelve rows passes the check of the simplified
    variant. *)
Lemma simplified_document_at_minimum_witness :
  length doc12_rows = 12%nat
  ∧ Simplified.parse_label_table doc12 = Ok doc12_rows
  ∧ Simplified.label_document_min_label_count Simplified.config = 12%nat
  ∧ ∃ r, (@Simplified.verify_label_document ref_pylib world_doc12 init).1 = Ok true
         ∧ verification_results
             (@Simplified.verify_label_document ref_pylib world_doc12 init).2
           = [] ++ [r]
         ∧ status r = s_success ∧ status r ≠ s_warning.
Proof.
  split; [vm_compute; reflexivity|]. split; [vm_compute; reflexivity|].
  apply (@simplified_document_at_minimum ref_pylib world_doc12 init
           (content_json doc12_b64) doc12 doc12_rows);
    vm_compute; reflexivity.
Defined.

(** When the label list cannot be fetched the consistency step of the full
    variant records a critical result. *)
Lemma full_consistency_records_critical :
  let out := @Full.verify_document_label_consistency ref_pylib world_labels_down init in
  @full_consistency_input ref_pylib world_labels_down init = Some FetchFailed
  ∧ out.1 = Ok false
  ∧ status <$> verification_results out.2 = [s_critical].
Proof. by vm_compute. Qed.

(** The two labels of the document are the two labels of the repository:
    the consistency step records one success. *)
Lemma full_consistency_results_witness :
  @full_consistency_input ref_pylib world_consistent init
  = Some (Fetched two_label_names two_label_names)
  ∧ ∃ r, added_by (@Full.verify_document_label_consistency ref_pylib world_consistent)
           init = [r]
         ∧ status r = s_success.
Proof.
  split; [vm_compute; reflexivity|].
  refine (proj1 (proj2 (proj2 (proj2
    (@full_consistency_results ref_pylib world_consistent init
       (Fetched two_label_names two_label_names) _)))) eq_refl).
  vm_compute; reflexivity.
Defined.

(** The simplified matcher returns an issue whose title contains none of
    the keywords, because it compares the lowercased title; the first
    listed issue whose title does contain one is the second. *)
Lemma simplified_matcher_ignores_case :
  @Simplified.find_target_issue ref_pylib [upper_issue; lower_issue]
  = Ok (Some upper_issue)
  ∧ has_field (py "pull_request") upper_issue = false
  ∧ any_in Simplified.title_keywords (text_field (py "title") upper_issue) = false
  ∧ has_field (py "body") upper_issue = false
  ∧ any_in Simplified.title_keywords (text_field (py "title") lower_issue) = true.
Proof. by vm_compute. Qed.

(** The issue list of section 8 of the specification, in both variants. *)
Lemma issue_matcher_first_match_witness :
  forallb issue_typed spec_issues = true
  ∧ @Simplified.find_target_issue ref_pylib spec_issues
    = Ok (find (@matches_simplified ref_pylib) spec_issues)
  ∧ Full.find_target_issue (Full.issue_validation_title_keywords Full.config)
      spec_issues
    = Ok (find matches_full spec_issues)
  ∧ @Simplified.find_target_issue ref_pylib spec_issues = Ok (Some spec_issue_2)
  ∧ Full.find_target_issue (Full.issue_validation_title_keywords Full.config)
      spec_issues = Ok (Some spec_issue_2).
Proof.
  split; [vm_compute; reflexivity|].
  apply (@issue_matcher_first_match ref_pylib spec_issues).
  vm_compute; reflexivity.
Defined.

(** A second header line follows the first with no blank line between; it
    starts with a pipe, contains no separator marker and has three cells,
    and the full parser does not collect it. *)
Lemma full_parser_skips_repeated_header :
  split_on ch_newline doc_two_headers = [configured_header; configured_header]
  ∧ is_blank configured_header = false
  ∧ startswith s_pipe configured_header = true
  ∧ contains s_dashes configured_header = false
  ∧ length (cells_of configured_header) = 3%nat
  ∧ Full.parse_label_table doc_two_headers configured_header = [].
Proof. by vm_compute. Qed.

(** * Further properties *)

(** ** The environment check *)

Section Environment.
Context `{PyLib} (w : World).

(** X1: without a token or an organisation in the environment (absent or
    empty), [setup_environment] of the simplified variant returns False
    and sends, records and prints nothing; the run then returns False with
    no request sent, an empty log and only its three banner lines
    printed. *)
Theorem simplified_run_without_credentials (s : State) :
  opt_falsy (environ w (py "GITHUB_TOKEN"))
  || opt_falsy (environ w (py "GITHUB_ORG")) = true →
  (∃ s', Simplified.setup_environment w s = (Ok false, s')
         ∧ sent s' = sent s ∧ stdout s' = stdout s ∧ stderr s' = stderr s
         ∧ verification_results s' = verification_results s
         ∧ has_critical_error s' = has_critical_error s
         ∧ headers s' = headers s)
  ∧ (Simplified.run_verification w init).1 = Ok false
  ∧ sent (Simplified.run_verification w init).2 = []
  ∧ verification_results (Simplified.run_verification w init).2 = []
  ∧ length (stdout (Simplified.run_verification w init).2) = 3%nat.
Proof.
  intros Hc.
  unfold Simplified.run_verification, Simplified.setup_environment.
  unfold mbind, M_bind, set_org, set_repo, read, print. simpl.
  rewrite Hc. simpl. split; [|done]. eexists. split; [reflexivity|]. done.
Qed.

(** X2: without a token or an organisation the full variant sends no
    request and records one critical result under the task of environment
    errors; it looks at the token first, so the message names the token
    when both are missing.  The run returns False with that one result in
    the log and the flag set. *)
Theorem full_run_without_credentials :
  opt_falsy (environ w (py "GITHUB_TOKEN"))
  || opt_falsy (environ w (py "GITHUB_ORG")) = true →
  let out := Full.run_verification w init in
  out.1 = Ok false
  ∧ sent out.2 = []
  ∧ has_critical_error out.2 = true
  ∧ verification_results out.2
    = [{| task := py "环境错误";
          message := if opt_falsy (environ w (py "GITHUB_TOKEN"))
                     then py "未配置 GITHUB_TOKEN" else py "未配置 GITHUB_ORG";
          status := s_critical;
          timestamp := Some (now_isoformat w 0) |}].
Proof.
  intros Hc. cbv zeta.
  unfold Full.run_verification, Full.setup_environment.
  unfold mbind, M_bind, set_org, set_repo, read, print. simpl.
  destruct (opt_falsy (environ w (py "GITHUB_TOKEN"))); simpl in *; [done|].
  rewrite Hc. done.
Qed.

(** X3: with a token and an organisation in the environment,
    [setup_environment] sends exactly one request: a GET of the repository
    URL (with a trailing slash in the full variant only) that carries the
    token in its Authorization header.  It stores the headers, the
    organisation and the repository name, and returns whether the answer
    was a 200 with a JSON body.  On success both variants record one
    success; on failure the simplified variant records nothing and the full
    variant records one critical result. *)
Theorem setup_environment_with_credentials (token owner : pystr) (s : State) :
  credentials w token owner →
  (let rq := simplified_root_request token owner in
   let ok := bool_decide (is_Some (fetched (http_get w (sent s) rq))) in
   ∃ s', Simplified.setup_environment w s = (Ok ok, s')
         ∧ sent s' = sent s ++ [rq]
         ∧ headers s' = Some (simplified_headers token)
         ∧ org s' = Some owner ∧ repo s' = Some (py "GIT-HUB")
         ∧ status <$> added_by (Simplified.setup_environment w) s
           = (if ok then [s_success] else []))
  ∧ (let rq := full_root_request token owner in
     let ok := bool_decide (is_Some (fetched (http_get w (sent s) rq))) in
     ∃ s', Full.setup_environment w s = (Ok ok, s')
           ∧ sent s' = sent s ++ [rq]
           ∧ headers s' = Some (full_headers token)
           ∧ org s' = Some owner ∧ repo s' = Some (py "GIT-HUB")
           ∧ status <$> added_by (Full.setup_environment w) s
             = (if ok then [s_success] else [s_critical])).
Proof.
  intros (Ht & Htne & Ho & Hone). cbv zeta. split.
  - unfold added_by, Simplified.setup_environment, Simplified.github_api_request.
    unfold mbind, M_bind, set_org, set_repo, set_headers, read, requests_get. simpl.
    rewrite Ht, Ho. destruct token as [|t token]; [done|].
    destruct owner as [|o owner]; [done|]. simpl.
    change (request_for _ _) with (simplified_root_request (t :: token) (o :: owner)).
    unfold fetched.
    destruct (http_get w (sent s) (simplified_root_request (t :: token) (o :: owner)))
      as [code [j|msg]|msg]; try destruct (code =? 200)%Z; simpl;
      (eexists; split; [reflexivity|]); simpl;
      rewrite ?drop_app_length, ?drop_all; done.
  - unfold added_by, Full.setup_environment, Full.github_api_request.
    unfold mbind, M_bind, set_org, set_repo, set_headers, read, requests_get, eprint.
    simpl.
    rewrite Ht, Ho. destruct token as [|t token]; [done|].
    destruct owner as [|o owner]; [done|]. simpl.
    change (request_for _ _) with (full_root_request (t :: token) (o :: owner)).
    unfold fetched.
    destruct (http_get w (sent s) (full_root_request (t :: token) (o :: owner)))
      as [code [j|msg]|msg]; try destruct (code =? 200)%Z; simpl;
      (eexists; split; [reflexivity|]); simpl;
      rewrite ?drop_app_length, ?drop_all; done.
Qed.
End Environment.

(** ** Substrings and lines *)

Lemma startswith_iff (pre s : pystr) :
  startswith pre s = true ↔ ∃ q, s = pre ++ q.
Proof.
  revert s. induction pre as [|a pre IH]; intros s.
  - split; [by exists s|done].
  - destruct s as [|b s]; unfold startswith; fold startswith.
    + split; [done|intros [q [=]]].
    + rewrite andb_true_iff, N.eqb_eq, IH. split.
      * intros [-> [q ->]]. by exists q.
      * intros [q [= -> ->]]. split; [done|]. by exists q.
Qed.

Lemma contains_iff (needle s : pystr) :
  contains needle s = true ↔ ∃ p q, s = p ++ needle ++ q.
Proof.
  induction s as [|b s IH]; unfold contains; fold contains.
  - rewrite orb_false_r, startswith_iff. split.
    + intros [q Hq]. by exists [], q.
    + intros (p & q & Hs). symmetry in Hs.
      apply app_eq_nil in Hs as [-> Hs]. apply app_eq_nil in Hs as [-> ->].
      by exists [].
  - rewrite orb_true_iff, startswith_iff, IH. split.
    + intros [[q Hq] | (p & q & ->)]; [by exists [], q|by exists (b :: p), q].
    + intros ([|x p] & q & Hs).
      * left. by exists q.
      * right. injection Hs as -> ->. by exists p, q.
Qed.

Lemma contains_app (needle a s b : pystr) :
  contains needle s = true → contains needle (a ++ s ++ b) = true.
Proof.
  rewrite !contains_iff. intros (p & q & ->). exists (a ++ p), (q ++ b).
  by rewrite <- !app_assoc.
Qed.

Lemma split_on_nonempty sep s : split_on sep s ≠ [].
Proof.
  destruct s as [|c s]; [done|]. unfold split_on; fold split_on.
  destruct (c =? sep); [done|]. by destruct (split_on sep s).
Qed.

Lemma join_cons (sep p : pystr) (rest : list pystr) :
  rest ≠ [] → join sep (p :: rest) = p ++ sep ++ join sep rest.
Proof. by destruct rest. Qed.

(** [sep.join(s.split(sep)) == s] *)
Lemma join_split_on (sep : N) (s : pystr) : join [sep] (split_on sep s) = s.
Proof.
  induction s as [|c s IH]; [done|]. unfold split_on; fold split_on.
  destruct (c =? sep) eqn:Hc.
  - apply N.eqb_eq in Hc as ->.
    rewrite join_cons by apply split_on_nonempty. by rewrite IH.
  - pose proof (split_on_nonempty sep s) as Hne.
    destruct (split_on sep s) as [|l ls] eqn:Hs; [done|].
    destruct ls as [|l' ls].
    + simpl in *. by rewrite IH.
    + rewrite join_cons by done. rewrite join_cons in IH by done.
      by rewrite <- IH.
Qed.

Lemma split_on_app_sep (sep : N) (a b : pystr) :
  split_on sep (a ++ sep :: b) = split_on sep a ++ split_on sep b.
Proof.
  induction a as [|c a IH]; cbn [app]; unfold split_on; fold split_on.
  - by rewrite N.eqb_refl.
  - destruct (c =? sep); [by rewrite IH|].
    rewrite IH. pose proof (split_on_nonempty sep a) as Hne.
    by destruct (split_on sep a).
Qed.

(** A line of [s] is a substring of [s]. *)
Lemma line_is_substring (sep : N) (s line : pystr) :
  line ∈ split_on sep s → ∃ p q, s = p ++ line ++ q.
Proof.
  revert line. induction s as [|c s IH]; intros line; unfold split_on; fold split_on.
  - intros ->%list_elem_of_singleton. by exists [], [].
  - destruct (c =? sep) eqn:Hc.
    + intros [->|Hin]%elem_of_cons.
      * by exists [], (c :: s).
      * destruct (IH _ Hin) as (p & q & ->). by exists (c :: p), q.
    + pose proof (split_on_nonempty sep s) as Hne.
      destruct (split_on sep s) as [|l ls] eqn:Hs; [done|].
      intros [->|Hin]%elem_of_cons.
      * pose proof (join_split_on sep s) as Hj. rewrite Hs in Hj.
        destruct ls as [|l' ls].
        -- simpl in Hj. subst s. exists [], []. by rewrite app_nil_r.
        -- rewrite join_cons in Hj by done. subst s.
           by exists [], ([sep] ++ join [sep] (l' :: ls)).
      * destruct (IH line) as (p & q & ->); [by right|]. by exists (c :: p), q.
Qed.

(** A substring without the separator lies within one line. *)
Lemma substring_in_line (sep : N) (needle p q : pystr) :
  sep ∉ needle →
  ∃ line, line ∈ split_on sep (p ++ needle ++ q) ∧ contains needle line = true.
Proof.
  intros Hsep. induction p as [|c p IH]; cbn [app].
  - assert (∃ l rest, split_on sep (needle ++ q) = (needle ++ l) :: rest)
      as (l & rest & ->).
    { induction needle as [|c needle IH]; cbn [app].
      - pose proof (split_on_nonempty sep q).
        destruct (split_on sep q) as [|l rest]; [done|]. by exists l, rest.
      - unfold split_on; fold split_on.
        destruct (c =? sep) eqn:Hc.
        { apply N.eqb_eq in Hc as ->. destruct Hsep. by left. }
        destruct IH as (l & rest & ->); [by intros ?; apply Hsep; right|].
        by exists l, rest. }
    exists (needle ++ l). split; [by left|].
    apply contains_iff. by exists [], l.
  - destruct IH as (line & Hin & Hc). unfold split_on; fold split_on.
    destruct (c =? sep).
    + exists line. split; [by right|done].
    + destruct (split_on sep (p ++ needle ++ q)) as [|l ls]; [by inversion Hin|].
      apply elem_of_cons in Hin as [->|Hin].
      * exists (c :: l). split; [by left|].
        by apply (contains_app needle [c] l []) in Hc; rewrite app_nil_r in Hc.
      * exists line. split; [by right|done].
Qed.

(** ** More on the two parsers *)

Lemma configured_header_one_line : ch_newline ∉ configured_header.
Proof. intros Hin. apply (bool_decide_pack _) in Hin. by vm_compute in Hin. Qed.

(** X4: the test [table_header not in content] of the full variant's
    document check passes exactly when some line of the document contains
    the header, which is when the parser enters its table mode; a document
    that fails the test has no rows, also for the consistency step, which
    parses without making the test. *)
Theorem header_test_agrees_with_parser (content : pystr) :
  (contains configured_header content = true
   ↔ ∃ line, line ∈ split_on ch_newline content ∧ is_header_line line = true)
  ∧ (contains configured_header content = false →
     Full.parse_label_table content configured_header = []
     ∧ Full.doc_label_names (Full.parse_label_table content configured_header) = ∅).
Proof.
  assert (contains configured_header content = true
          ↔ ∃ line, line ∈ split_on ch_newline content ∧ is_header_line line = true)
    as Hiff.
  { split.
    - intros (p & q & ->)%contains_iff.
      apply substring_in_line, configured_header_one_line.
    - intros (line & Hin & Hh).
      apply line_is_substring in Hin as (p & q & ->). by apply contains_app. }
  split; [exact Hiff|]. intros Hno.
  assert (Full.parse_label_table content configured_header = []) as ->.
  { apply full_parse_lines_before_header, forallb_forall.
    intros line Hin%list_elem_of_In. apply negb_true_iff.
    destruct (is_header_line line) eqn:Hh; [|done].
    assert (contains configured_header content = true) as Hc
      by (apply Hiff; by exists line).
    congruence. }
  done.
Qed.

(** X5: the simplified parser reads a document line by line: the rows of
    two documents joined by a newline are the rows of the first followed by
    the rows of the second, the empty document has no rows, and a document
    never has more rows than lines. *)
Theorem simplified_parse_label_table_concat :
  (∀ a b, ∃ ra rb,
     Simplified.parse_label_table a = Ok ra
     ∧ Simplified.parse_label_table b = Ok rb
     ∧ Simplified.parse_label_table (a ++ ch_newline :: b) = Ok (ra ++ rb))
  ∧ Simplified.parse_label_table [] = Ok []
  ∧ (∀ content, ∃ rows,
       Simplified.parse_label_table content = Ok rows
       ∧ (length rows ≤ length (split_on ch_newline content))%nat).
Proof.
  unfold Simplified.parse_label_table. split; [|split; [done|]].
  - intros a b. do 2 eexists.
    rewrite !simplified_parse_lines_spec, split_on_app_sep, omap_app. done.
  - intros content. eexists. rewrite simplified_parse_lines_spec.
    split; [done|]. cbn [app].
    generalize (split_on ch_newline content). intros lines.
    induction lines as [|l lines IH]; [done|]. cbn [omap list_omap].
    destruct (label_row_of l); simpl; lia.
Qed.

Lemma with_columns_no_header (columns : list pystr) (lines : list pystr) :
  forallb (λ l, negb (is_header_line l)) lines = true →
  with_columns columns lines = (λ l, (columns, l)) <$> lines.
Proof.
  induction lines as [|l lines IH]; [done|].
  intros [Hl Hrest]%andb_prop. apply negb_true_iff in Hl.
  cbn [with_columns]. rewrite Hl, IH by done. done.
Qed.

Lemma until_blank_no_header (lines : list pystr) :
  forallb (λ l, negb (is_header_line l)) lines = true →
  forallb (λ l, negb (is_header_line l)) (until_blank lines) = true.
Proof.
  induction lines as [|l lines IH]; [done|].
  intros [Hl Hrest]%andb_prop. cbn [until_blank].
  destruct (is_blank l); [done|]. cbn [forallb]. by rewrite Hl, IH.
Qed.

Lemma dict_zip_first_column (v : list pystr) :
  (3 ≤ length v)%nat →
  dict_zip (Full.label_document_required_columns Full.config) v !! py "标签名称"
  = head v.
Proof.
  destruct v as [|v1 [|v2 [|v3 rest]]]; simpl; try lia. intros _.
  unfold dict_zip. cbn [zip zip_with fmap list_fmap foldl fst snd
    Full.label_document_required_columns Full.config Full.load_configuration].
  do 2 (rewrite lookup_insert_ne by (intros Heq; by vm_compute in Heq)).
  by rewrite lookup_insert_eq.
Qed.

(** X6: when the header line of a document is the configured header alone
    and no later line repeats it, the label names the full variant reads
    from the document are the first cells of the table rows between the
    header line and the first blank line. *)
Theorem full_document_label_names (content : pystr)
    (before : list pystr) (header_line : pystr) (following : list pystr) :
  split_on ch_newline content = before ++ header_line :: following →
  forallb (λ l, negb (is_header_line l)) before = true →
  is_header_line header_line = true →
  cells_of header_line = Full.label_document_required_columns Full.config →
  forallb (λ l, negb (is_header_line l)) following = true →
  Full.doc_label_names (Full.parse_label_table content configured_header)
  = list_to_set ((λ line, KStr (default [] (head (cells_of line))))
                   <$> filter (λ line, is_table_row line) (until_blank following)).
Proof.
  intros Hsplit Hbefore Hheader Hcells Hfollowing.
  unfold Full.parse_label_table. rewrite Hsplit.
  rewrite full_parse_lines_at_header, full_parse_lines_in_table by done.
  rewrite app_nil_l, Hcells.
  rewrite with_columns_no_header by by apply until_blank_no_header.
  unfold Full.doc_label_names. f_equal.
  generalize (until_blank following). intros lines.
  induction lines as [|l lines IH]; [done|].
  rewrite fmap_cons, !filter_cons. cbn [snd].
  destruct (decide (is_table_row l)) as [Hrow|Hrow]; [|exact IH].
  rewrite !fmap_cons. cbn [omap list_omap fst snd].
  assert (3 ≤ length (cells_of l))%nat as Hlen.
  { unfold is_table_row in Hrow. apply Is_true_true in Hrow.
    apply andb_prop in Hrow as [_ Hlen]. by apply bool_decide_eq_true in Hlen. }
  rewrite dict_zip_first_column by done.
  destruct (cells_of l) as [|c0 cs] eqn:Hc; [simpl in Hlen; lia|].
  cbn [head default from_option id fmap list_fmap]. f_equal. exact IH.
Qed.

(** ** What each method records and requests *)

Lemma simplified_request_framed : framed simplified_request.
Proof. intros s s' e Hh Ho Hr. unfold simplified_request, request_for. congruence. Qed.

Lemma full_request_framed : framed full_request.
Proof. intros s s' e Hh Ho Hr. unfold full_request, request_for. congruence. Qed.

Lemma effect_refl rqf s : effect rqf s s [] [].
Proof.
  split; [exists []; by rewrite app_nil_r|]. by rewrite app_nil_r.
Qed.

Lemma effect_trans rqf s0 s1 s2 sts1 eps1 sts2 eps2 :
  framed rqf →
  effect rqf s0 s1 sts1 eps1 → effect rqf s1 s2 sts2 eps2 →
  effect rqf s0 s2 (sts1 ++ sts2) (eps1 ++ eps2).
Proof.
  intros Hf ((a1 & E1 & S1) & Q1 & Hh1 & Ho1 & Hr1)
            ((a2 & E2 & S2) & Q2 & Hh2 & Ho2 & Hr2).
  split; [|split; [|repeat split; congruence]].
  - exists (a1 ++ a2). rewrite E2, E1, <- app_assoc, fmap_app, S1, S2. done.
  - rewrite Q2, Q1, <- app_assoc, fmap_app. do 2 f_equal.
    apply list_fmap_ext. intros _ e _. by apply Hf.
Qed.

Lemma effect_of_fields rqf s s' :
  verification_results s' = verification_results s → sent s' = sent s →
  headers s' = headers s → org s' = org s → repo s' = repo s →
  effect rqf s s' [] [].
Proof.
  intros E Q Hh Ho Hr. split; [exists []; by rewrite E, app_nil_r|].
  rewrite Q, app_nil_r. done.
Qed.

Lemma print_effect rqf line s :
  wp (print line) (λ r s', is_ok r ∧ effect rqf s s' [] []) s.
Proof. split; [done|]. by apply effect_of_fields. Qed.

Lemma eprint_effect rqf line s :
  wp (eprint line) (λ r s', is_ok r ∧ effect rqf s s' [] []) s.
Proof. split; [done|]. by apply effect_of_fields. Qed.

Lemma for_each_print_effect rqf (f : VerificationResult → pystr) rs s :
  wp (for_each (λ r, print (f r)) rs) (λ r s', is_ok r ∧ effect rqf s s' [] []) s.
Proof.
  revert s. induction rs as [|x rs IH]; intros s.
  { split; [done|]. apply effect_refl. }
  simpl. apply wp_bind. unfold wp at 1. simpl.
  eapply wp_mono; [apply IH|]. intros r s' [Hok ((a & E & S) & Q & Hh & Ho & Hr)].
  split; [done|]. simpl in *.
  split; [by exists a|]. done.
Qed.

Lemma simplified_record_effect rqf t m st s :
  wp (Simplified.record_result t m st) (λ r s', is_ok r ∧ effect rqf s s' [st] []) s.
Proof.
  unfold wp.
  destruct (simplified_record_result_eq t m st s) as (-> & E & _ & Q & Hh & Ho & Hr).
  split; [done|]. split; [eexists; split; [exact E|done]|].
  by rewrite Q, app_nil_r.
Qed.

Lemma full_record_effect rqf w t m st s :
  wp (Full.record_result w t m st) (λ r s', is_ok r ∧ effect rqf s s' [st] []) s.
Proof.
  unfold wp.
  destruct (full_record_result_eq w t m st s) as (-> & E & _ & Q & Hh & Ho & Hr).
  split; [done|]. split; [eexists; split; [exact E|done]|].
  by rewrite Q, app_nil_r.
Qed.

Lemma simplified_api_effect w e s :
  wp (Simplified.github_api_request w e)
     (λ r s', is_ok r ∧ effect simplified_request s s' [] [e]) s.
Proof.
  unfold wp. destruct (simplified_api_eq w e s) as (s1 & -> & E & _ & Q & Hh & Ho & Hr).
  simpl. split; [done|]. split; [exists []; by rewrite E, app_nil_r|]. done.
Qed.

Lemma full_api_effect w e s :
  wp (Full.github_api_request w e)
     (λ r s', is_ok r ∧ effect full_request s s' [] [e]) s.
Proof.
  unfold wp. destruct (full_api_eq w e s) as (s1 & -> & E & _ & Q & Hh & Ho & Hr).
  simpl. split; [done|]. split; [exists []; by rewrite E, app_nil_r|]. done.
Qed.

Ltac ef_known :=
  match goal with
  | Hacc : effect ?f _ _ _ _ |- _ =>
    lazymatch goal with
    | |- wp (print _) _ _ => apply (print_effect f)
    | |- wp (eprint _) _ _ => apply (eprint_effect f)
    | |- wp (for_each _ _) _ _ => apply (for_each_print_effect f)
    | |- wp (Simplified.github_api_request _ _) _ _ => apply simplified_api_effect
    | |- wp (Full.github_api_request _ _) _ _ => apply full_api_effect
    | |- wp (Simplified.record_result _ _ _) _ _ => apply (simplified_record_effect f)
    | |- wp (Full.record_result _ _ _ _) _ _ => apply (full_record_effect f)
    end
  end.

(** Append what a finished call did to what the method did before it. *)
Ltac ef_chain Hnew :=
  lazymatch type of Hnew with
  | effect ?f ?s1 ?s2 _ _ =>
    match goal with
    | Hacc : effect f ?s0 s1 _ _ |- _ =>
      let H := fresh "Hacc" in
      first [ pose proof (effect_trans f _ _ _ _ _ _ _ simplified_request_framed
                            Hacc Hnew) as H
            | pose proof (effect_trans f _ _ _ _ _ _ _ full_request_framed
                            Hacc Hnew) as H ];
      cbn [app] in H; clear Hacc Hnew
    end
  end.

Ltac ef_call :=
  eapply wp_mono; [ef_known|];
  let r := fresh "r" in
  let s' := fresh "s" in
  let HP := fresh "HP" in
  intros r s' HP; cbv beta in HP;
  destruct r as [?|?]; [|exfalso; exact (proj1 HP)];
  apply proj2 in HP; ef_chain HP.

Ltac ef_auto :=
  cbv beta iota zeta;
  lazymatch goal with
  | |- wp (mret _) _ _ => apply wp_ret; ef_auto
  | |- wp (mbind _ _) _ _ => apply wp_bind; ef_auto
  | |- wp (try_except _ _ _) _ _ => apply wp_try; ef_auto
  | |- wp (lift ?r) _ _ => apply wp_lift; destruct r eqn:?; ef_auto
  | |- wp (read _) _ _ => apply wp_read; ef_auto
  | |- wp (if ?b then _ else _) _ _ => destruct b eqn:?; ef_auto
  | |- wp (match ?x with _ => _ end) _ _ => destruct x eqn:?; ef_auto
  | |- if ?b then _ else _ => destruct b eqn:?; ef_auto
  | |- wp _ _ _ => first [ ef_call; ef_auto | idtac ]
  | |- _ => idtac
  end.

Ltac ef_start rqf s :=
  intros s; let Hacc := fresh "Hacc" in pose proof (effect_refl rqf s) as Hacc.

Ltac ef_leaf := do 2 eexists; split; [eassumption|].

(** A closed, decidable fact about statuses. *)
Ltac decided :=
  unfold stop_outcome, ends_critical, no_critical; cbn beta iota;
  lazymatch goal with |- ?P => apply (bool_decide_unpack P) end;
  vm_compute; exact I.

(** The leaves of a step on whose result the run may stop. *)
Ltac ef_stop :=
  ef_leaf; (split; [|done]);
  unfold stop_outcome, is_falsy; cbn beta iota;
  repeat match goal with
         | Hb : negb (truthy ?x) = _ |- context [negb (truthy ?x)] => rewrite Hb
         end;
  decided.

Section FullEffects.
Context `{PyLib} (w : World).

Lemma full_branch_effect s :
  wp (Full.verify_branch_existence w)
     (λ r s', ∃ sts eps, effect full_request s s' sts eps
                         ∧ stop_outcome negb r sts
                         ∧ eps = [py "branches/" ++ Full.feature_branch_name Full.config]) s.
Proof.
  revert s. ef_start full_request s. unfold Full.verify_branch_existence.
  ef_auto; ef_stop.
Qed.

Lemma full_document_effect s :
  wp (Full.verify_label_document w)
     (λ r s', ∃ sts eps, effect full_request s s' sts eps
                         ∧ stop_outcome negb r sts
                         ∧ eps = [full_doc_endpoint]) s.
Proof.
  revert s. ef_start full_request s. unfold Full.verify_label_document.
  ef_auto; ef_stop.
Qed.

Lemma full_issue_effect s :
  wp (Full.verify_standardization_issue w)
     (λ r s', ∃ sts eps, effect full_request s s' sts eps
                         ∧ stop_outcome is_falsy r sts
                         ∧ eps = [py "issues?state=all&per_page=50"]) s.
Proof.
  revert s. ef_start full_request s. unfold Full.verify_standardization_issue.
  ef_auto; ef_stop.
Qed.

Lemma full_pr_effect issue s :
  wp (Full.verify_standardization_pr w issue)
     (λ r s', ∃ sts eps, effect full_request s s' sts eps
                         ∧ stop_outcome is_falsy r sts
                         ∧ eps = [py "pulls?state=all&per_page=50"]) s.
Proof.
  revert s. ef_start full_request s. unfold Full.verify_standardization_pr.
  ef_auto; ef_stop.
Qed.

Lemma full_completeness_effect issue s :
  wp (Full.verify_issue_label_completeness w issue)
     (λ r s', ∃ sts eps, effect full_request s s' sts eps
                         ∧ no_critical sts ∧ (length sts ≤ 1)%nat ∧ eps = []) s.
Proof.
  revert s. ef_start full_request s. unfold Full.verify_issue_label_completeness.
  ef_auto; ef_leaf; (split; [decided|split; [simpl; lia|done]]).
Qed.

Lemma full_core_effect pr s :
  wp (Full.verify_pr_core_labels w pr)
     (λ r s', ∃ sts eps, effect full_request s s' sts eps
                         ∧ no_critical sts ∧ (length sts ≤ 1)%nat ∧ eps = []) s.
Proof.
  revert s. ef_start full_request s. unfold Full.verify_pr_core_labels.
  ef_auto; ef_leaf; (split; [decided|split; [simpl; lia|done]]).
Qed.

Lemma full_comments_effect issue pr s :
  wp (Full.verify_issue_comments w issue pr)
     (λ r s', ∃ sts eps, effect full_request s s' sts eps
                         ∧ no_critical sts
                         ∧ ((eps = [] ∧ ¬ is_ok r)
                            ∨ ∃ n, getitem issue (py "number") = Ok n
                                   ∧ eps = [py "issues/" ++ str_of n ++ py "/comments"])) s.
Proof.
  revert s. ef_start full_request s. unfold Full.verify_issue_comments.
  ef_auto; ef_leaf; (split; [decided|]);
    first [left; split; [done|]; by intros [] | right; by eexists].
Qed.

Lemma full_consistency_effect s :
  wp (Full.verify_document_label_consistency w)
     (λ r s', ∃ sts eps, effect full_request s s' sts eps
                         ∧ (no_critical sts ∨ sts = [s_critical])
                         ∧ ((eps = [full_doc_endpoint]
                             ∧ (sts = [s_critical] ∨ ¬ is_ok r))
                            ∨ eps = [full_doc_endpoint; py "labels?per_page=100"])) s.
Proof.
  revert s. ef_start full_request s. unfold Full.verify_document_label_consistency.
  ef_auto; ef_leaf; (split; [first [by right | left; decided]|]);
    first [by right | left; split; [done|]; first [by left | right; by intros []]].
Qed.

Lemma full_report_effect s :
  wp (Full.generate_report)
     (λ r s', is_ok r ∧ effect full_request s s' [] []) s.
Proof.
  revert s. ef_start full_request s. unfold Full.generate_report.
  ef_auto; (split; [done|assumption]).
Qed.
End FullEffects.

Section SimplifiedEffects.
Context `{PyLib} (w : World).

Lemma simplified_branch_effect s :
  wp (Simplified.verify_branch_existence w)
     (λ r s', ∃ sts eps, effect simplified_request s s' sts eps
                         ∧ stop_outcome negb r sts
                         ∧ eps = [py "branches/"
                                  ++ Simplified.feature_branch_name Simplified.config]) s.
Proof.
  revert s. ef_start simplified_request s. unfold Simplified.verify_branch_existence.
  ef_auto; ef_stop.
Qed.

Lemma simplified_document_effect s :
  wp (Simplified.verify_label_document w)
     (λ r s', ∃ sts eps, effect simplified_request s s' sts eps
                         ∧ stop_outcome negb r sts
                         ∧ eps = [simplified_doc_endpoint]) s.
Proof.
  revert s. ef_start simplified_request s. unfold Simplified.verify_label_document.
  ef_auto; ef_stop.
Qed.

Lemma simplified_issue_effect s :
  wp (Simplified.verify_standardization_issue w)
     (λ r s', ∃ sts eps, effect simplified_request s s' sts eps
                         ∧ (no_critical sts ∨ sts = [s_critical])
                         ∧ eps = [py "issues?state=all&per_page=100"]) s.
Proof.
  revert s. ef_start simplified_request s. unfold Simplified.verify_standardization_issue.
  ef_auto; ef_leaf; (split; [first [by right | left; decided]|done]).
Qed.

Lemma simplified_report_effect s :
  wp (Simplified.generate_report)
     (λ r s', is_ok r ∧ effect simplified_request s s' [] []) s.
Proof.
  revert s. ef_start simplified_request s. unfold Simplified.generate_report.
  ef_auto; (split; [done|assumption]).
Qed.
End SimplifiedEffects.

(** ** Whole runs *)

Lemma no_critical_app a b : no_critical a → no_critical b → no_critical (a ++ b).
Proof. unfold no_critical. intros Ha Hb Hin. apply elem_of_app in Hin as [?|?]; tauto. Qed.

Lemma no_critical_nil : no_critical [].
Proof. unfold no_critical. apply not_elem_of_nil. Qed.

Lemma ends_critical_split sts :
  ends_critical sts → ∃ pre, sts = pre ++ [s_critical] ∧ no_critical pre.
Proof.
  intros [Hl Hn]. apply last_Some in Hl as [pre ->]. exists pre. split; [done|].
  rewrite length_app in Hn. simpl in Hn.
  replace (length pre + 1 - 1)%nat with (length pre) in Hn by lia.
  by rewrite take_app_length in Hn.
Qed.

Lemma one_critical_end k acc sts :
  no_critical acc → ends_critical sts → one_critical k (acc ++ sts).
Proof.
  intros Ha (pre & -> & Hp)%ends_critical_split.
  exists (acc ++ pre), []. rewrite <- app_assoc. split; [done|].
  split; [by apply no_critical_app|]. split; [apply no_critical_nil|simpl; lia].
Qed.

Lemma one_critical_then k acc post :
  no_critical acc → no_critical post → (length post ≤ k)%nat →
  one_critical k (acc ++ s_critical :: post).
Proof. intros Ha Hp Hk. by exists acc, post. Qed.

Lemma one_critical_prepend k a sts :
  no_critical a → one_critical k sts → one_critical k (a ++ sts).
Proof.
  intros Ha (pre & post & -> & Hp & Hq & Hk). exists (a ++ pre), post.
  rewrite <- app_assoc. split; [done|]. split; [by apply no_critical_app|done].
Qed.

Lemma simplified_endpoints_nonempty e : e ∈ simplified_endpoints → e ≠ [].
Proof.
  intros Hin ->. revert Hin.
  apply (bool_decide_unpack (([] : pystr) ∉ simplified_endpoints)).
  vm_compute. exact I.
Qed.

Lemma full_request_after_setup token owner s e :
  headers s = Some (full_headers token) → org s = Some owner →
  repo s = Some (py "GIT-HUB") →
  full_request s e = full_api_request token owner e.
Proof.
  intros Hh Ho Hr. unfold full_request, request_for, full_api_request, Full.api_url.
  rewrite Hh, Ho, Hr. simpl. by rewrite <- ?app_assoc.
Qed.

Lemma simplified_request_after_setup token owner s e :
  headers s = Some (simplified_headers token) → org s = Some owner →
  repo s = Some (py "GIT-HUB") → e ≠ [] →
  simplified_request s e = simplified_api_request token owner e.
Proof.
  intros Hh Ho Hr He.
  unfold simplified_request, request_for, simplified_api_request, Simplified.api_url.
  rewrite Hh, Ho, Hr. f_equal. unfold str_eqb. rewrite bool_decide_eq_false_2 by done.
  simpl. by rewrite <- ?app_assoc.
Qed.

Section Runs.
Context `{PyLib} (w : World).

Lemma credentials_not_falsy token owner :
  credentials w token owner →
  opt_falsy (environ w (py "GITHUB_TOKEN")) = false
  ∧ opt_falsy (environ w (py "GITHUB_ORG")) = false.
Proof.
  intros (Ht & Htne & Ho & Hone). rewrite Ht, Ho.
  destruct token; [done|]. destruct owner; done.
Qed.

Lemma full_setup_eq s :
  ∃ ok s1, Full.setup_environment w s = (Ok ok, s1)
    ∧ status <$> verification_results s1
      = (status <$> verification_results s) ++ [if ok then s_success else s_critical]
    ∧ (∀ token owner, credentials w token owner →
         sent s1 = sent s ++ [full_root_request token owner]
         ∧ headers s1 = Some (full_headers token)
         ∧ org s1 = Some owner ∧ repo s1 = Some (py "GIT-HUB")).
Proof.
  unfold Full.setup_environment, Full.github_api_request.
  unfold mbind, M_bind, set_org, set_repo, set_headers, read, requests_get, eprint.
  simpl.
  destruct (opt_falsy (environ w (py "GITHUB_TOKEN"))) eqn:Et; simpl.
  { do 2 eexists. split; [reflexivity|]. simpl. rewrite fmap_app. split; [done|].
    intros token owner [Ht _]%credentials_not_falsy. congruence. }
  destruct (opt_falsy (environ w (py "GITHUB_ORG"))) eqn:Eo; simpl.
  { do 2 eexists. split; [reflexivity|]. simpl. rewrite fmap_app. split; [done|].
    intros token owner [_ Ho]%credentials_not_falsy. congruence. }
  match goal with |- context [http_get w ?l ?rq] => destruct (http_get w l rq)
    as [code [j|msg]|msg] end; try destruct (code =? 200)%Z; simpl;
    (do 2 eexists; split; [reflexivity|]); simpl; rewrite fmap_app;
    (split; [done|]); intros token owner (Ht & _ & Ho & _); rewrite Ht, Ho; done.
Qed.

Lemma simplified_setup_eq s :
  ∃ ok s1, Simplified.setup_environment w s = (Ok ok, s1)
    ∧ status <$> verification_results s1
      = (status <$> verification_results s) ++ (if ok then [s_success] else [])
    ∧ (∀ token owner, credentials w token owner →
         sent s1 = sent s ++ [simplified_root_request token owner]
         ∧ headers s1 = Some (simplified_headers token)
         ∧ org s1 = Some owner ∧ repo s1 = Some (py "GIT-HUB")).
Proof.
  unfold Simplified.setup_environment, Simplified.github_api_request.
  unfold mbind, M_bind, set_org, set_repo, set_headers, read, requests_get.
  simpl.
  destruct (opt_falsy (environ w (py "GITHUB_TOKEN"))
            || opt_falsy (environ w (py "GITHUB_ORG"))) eqn:Et; simpl.
  { do 2 eexists. split; [reflexivity|]. simpl. rewrite app_nil_r. split; [done|].
    intros token owner [Ht Ho]%credentials_not_falsy. rewrite Ht, Ho in Et. done. }
  match goal with |- context [http_get w ?l ?rq] => destruct (http_get w l rq)
    as [code [j|msg]|msg] end; try destruct (code =? 200)%Z; simpl;
    (do 2 eexists; split; [reflexivity|]); simpl; rewrite ?fmap_app, ?app_nil_r;
    (split; [done|]); intros token owner (Ht & _ & Ho & _); rewrite Ht, Ho; done.
Qed.

Lemma full_run_leaf (ok : bool) (r : res bool) s1 s' sts eps n :
  status <$> verification_results s1 = [if ok then s_success else s_critical] →
  (∀ token owner, credentials w token owner →
     sent s1 = [full_root_request token owner]
     ∧ headers s1 = Some (full_headers token)
     ∧ org s1 = Some owner ∧ repo s1 = Some (py "GIT-HUB")) →
  effect full_request s1 s' sts eps →
  (ok = false → sts = []) →
  eps `prefix_of` full_endpoints n →
  (r = Ok true → eps = full_endpoints n ∨ ¬ no_critical sts) →
  no_critical sts ∨ one_critical 1 sts →
  ∃ (ok : bool) sts eps n,
    status <$> verification_results s'
    = (if ok then s_success else s_critical) :: sts
    ∧ (∀ token owner, credentials w token owner →
         sent s' = full_root_request token owner
                   :: (full_api_request token owner <$> eps))
    ∧ (ok = false → sts = [])
    ∧ eps `prefix_of` full_endpoints n
    ∧ (r = Ok true → eps = full_endpoints n ∨ ¬ no_critical sts)
    ∧ (no_critical sts ∨ one_critical 1 sts).
Proof.
  intros Hst Hcr ((added & E & S) & Q & _) Hok Hpre Htrue Hcl.
  exists ok, sts, eps, n. repeat split; try done.
  - by rewrite E, fmap_app, Hst, S.
  - intros token owner Hc. destruct (Hcr _ _ Hc) as (Hs & Hh & Ho & Hr).
    rewrite Q, Hs. simpl. f_equal. apply list_fmap_ext. intros _ e _.
    by apply full_request_after_setup.
Qed.

Ltac run_step L :=
  apply wp_bind; eapply wp_mono; [apply L|];
  let r := fresh "r" in
  let s' := fresh "s" in
  let sts := fresh "sts" in
  let eps := fresh "eps" in
  let Heff := fresh "Heff" in
  let Hout := fresh "Hout" in
  let Heps := fresh "Heps" in
  intros r s' (sts & eps & Heff & Hout & Heps); ef_chain Heff.

Ltac prefix_ok :=
  unfold full_endpoints, simplified_endpoints; eexists; cbn [app]; reflexivity.

Ltac none_critical :=
  repeat first [ assumption | apply no_critical_nil | apply no_critical_app ].

Ltac full_leaf n :=
  try apply wp_ret;
  match goal with
  | Hst : status <$> _ = _, Hcr : ∀ token owner, credentials _ token owner → _,
    Hacc : effect _ _ _ _ _ |- _ =>
    eapply (full_run_leaf true _ _ _ _ _ n Hst Hcr Hacc); [done|prefix_ok|done|]
  end.

Lemma full_run_effect :
  wp (Full.run_verification w)
     (λ r s', ∃ (ok : bool) sts eps n,
        status <$> verification_results s'
        = (if ok then s_success else s_critical) :: sts
        ∧ (∀ token owner, credentials w token owner →
             sent s' = full_root_request token owner
                       :: (full_api_request token owner <$> eps))
        ∧ (ok = false → sts = [])
        ∧ eps `prefix_of` full_endpoints n
        ∧ (r = Ok true → eps = full_endpoints n ∨ ¬ no_critical sts)
        ∧ (no_critical sts ∨ one_critical 1 sts)) init.
Proof.
  unfold Full.run_verification.
  do 5 (apply wp_bind; unfold wp at 1; simpl).
  apply wp_bind. unfold wp at 1.
  match goal with |- context [Full.setup_environment w ?s0] =>
    destruct (full_setup_eq s0) as (ok & s1 & -> & Hst & Hcr) end.
  simpl in *.
  pose proof (effect_refl full_request s1) as Hacc.
  destruct ok; simpl.
  2: { apply wp_ret. eapply (full_run_leaf false _ _ _ _ _ JNull Hst Hcr Hacc); try done.
       - by eexists.
       - left. apply no_critical_nil. }
  (* the branch *)
  run_step full_branch_effect. subst.
  destruct r as [[|]|e]; simpl in Hout |- *;
    [|full_leaf JNull; right; apply (one_critical_end _ []); none_critical
     |full_leaf JNull; by left].
  (* the document *)
  run_step full_document_effect. subst. cbn [app] in *.
  destruct r as [[|]|e]; simpl in Hout0 |- *;
    [|full_leaf JNull; right; apply one_critical_end; none_critical
     |full_leaf JNull; left; none_critical].
  (* the issue *)
  run_step full_issue_effect. subst. cbn [app] in *.
  destruct r as [issue|e]; [|full_leaf JNull; left; none_critical].
  unfold stop_outcome, is_falsy in Hout1.
  destruct (negb (truthy issue)); simpl;
    [full_leaf JNull; right; apply one_critical_end; none_critical|].
  (* the pull request *)
  run_step full_pr_effect. subst. cbn [app] in *.
  destruct r as [pr|e]; [|full_leaf JNull; left; none_critical].
  unfold stop_outcome, is_falsy in Hout2.
  destruct (negb (truthy pr)); simpl;
    [full_leaf JNull; right; apply one_critical_end; none_critical|].
  (* the labels of the issue *)
  run_step full_completeness_effect. destruct Heps as [_ ->]. cbn [app] in *.
  destruct r as [?|e]; [|full_leaf JNull; left; none_critical].
  (* the comments *)
  run_step full_comments_effect.
  destruct Heps as [[-> Hr]|(n & Hn & ->)]; cbn [app] in *.
  { destruct r as [?|e]; [by destruct Hr|]. full_leaf JNull; left; none_critical. }
  destruct r as [?|e]; [|full_leaf n; left; none_critical].
  (* the document against the repository *)
  run_step full_consistency_effect.
  match type of Hacc0 with
  | effect _ _ _ (?acc ++ _) _ =>
    assert (no_critical acc) as Hnc by none_critical;
    remember acc as done_before eqn:Hdone; clear Hdone
  end.
  clear Hout Hout0 Hout1 Hout2 Hout3 Hout4.
  assert (∀ (r' : res bool) s' post,
            effect full_request s1 s' ((done_before ++ sts5) ++ post)
              (full_endpoints n) ∨
            (effect full_request s1 s' ((done_before ++ sts5) ++ post)
               (take 6 (full_endpoints n))
             ∧ (sts5 = [s_critical] ∨ ¬ is_ok r')) →
            no_critical post → (length post ≤ 1)%nat →
          ∃ (ok : bool) sts eps n,
            status <$> verification_results s'
            = (if ok then s_success else s_critical) :: sts
            ∧ (∀ token owner, credentials w token owner →
                 sent s' = full_root_request token owner
                           :: (full_api_request token owner <$> eps))
            ∧ (ok = false → sts = [])
            ∧ eps `prefix_of` full_endpoints n
            ∧ (r' = Ok true → eps = full_endpoints n ∨ ¬ no_critical sts)
            ∧ (no_critical sts ∨ one_critical 1 sts)) as Hend.
  { intros r' s' post Heff Hpost Hlen.
    assert (no_critical ((done_before ++ sts5) ++ post)
            ∨ one_critical 1 ((done_before ++ sts5) ++ post)) as Hcl.
    { destruct Hout5 as [Hn5| ->]; [left; none_critical|right].
      rewrite <- app_assoc. simpl. by apply one_critical_then. }
    destruct Heff as [Heff|[Heff Hwhy]];
      (eapply (full_run_leaf true r' _ _ _ _ n Hst Hcr Heff); [done| | |done]).
    - done.
    - by left.
    - by exists [py "labels?per_page=100"].
    - intros ->. destruct Hwhy as [->|Hno]; [|by destruct Hno].
      right. intros Hnone. apply Hnone. rewrite !elem_of_app. left. right.
      apply list_elem_of_singleton. done. }
  assert (∀ r' : res bool, ¬ is_ok r' →
          effect full_request s1 s6 ((done_before ++ sts5) ++ []) (full_endpoints n)
          ∨ (effect full_request s1 s6 ((done_before ++ sts5) ++ [])
               (take 6 (full_endpoints n))
             ∧ (sts5 = [s_critical] ∨ ¬ is_ok r'))) as Hraised.
  { intros r' Hr'. rewrite app_nil_r.
    destruct Heps as [[-> Hwhy] | ->]; [right|by left]. split; [done|]. by right. }
  destruct r as [?|e];
    [|apply (Hend (Raise e) _ [] (Hraised (Raise e) (λ x, x)) no_critical_nil);
      simpl; lia].
  assert (eps = [full_doc_endpoint; py "labels?per_page=100"]
          ∨ (eps = [full_doc_endpoint] ∧ sts5 = [s_critical])) as Heps'.
  { destruct Heps as [[-> [->|Hno]] | ->]; [by right| |by left]. by destruct Hno. }
  clear Hraised Heps.
  run_step full_core_effect. destruct Heps as [Hlen ->].
  rewrite app_nil_r in Hacc.
  assert (∀ r' : res bool,
          effect full_request s1 s7 ((done_before ++ sts5) ++ sts6) (full_endpoints n)
          ∨ (effect full_request s1 s7 ((done_before ++ sts5) ++ sts6)
               (take 6 (full_endpoints n))
             ∧ (sts5 = [s_critical] ∨ ¬ is_ok r'))) as Hhere.
  { intros r'. destruct Heps' as [-> | [-> ->]]; [by left|right]. split; [done|by left]. }
  destruct r as [?|e]; [|by apply (Hend (Raise e) _ sts6 (Hhere _))].
  eapply wp_mono; [apply full_report_effect|].
  intros r s' [_ Heff]. cbv beta.
  apply (Hend r s' sts6); [|done..].
  destruct (Hhere r) as [Hh|[Hh Hwhy]]; [left|right; split; [|done]];
    pose proof (effect_trans _ _ _ _ _ _ _ _ full_request_framed Hh Heff) as Ht;
    by rewrite !app_nil_r in Ht.
Qed.

Lemma simplified_run_leaf (ok : bool) (r : res bool) s1 s' sts eps :
  status <$> verification_results s1 = (if ok then [s_success] else []) →
  (∀ token owner, credentials w token owner →
     sent s1 = [simplified_root_request token owner]
     ∧ headers s1 = Some (simplified_headers token)
     ∧ org s1 = Some owner ∧ repo s1 = Some (py "GIT-HUB")) →
  effect simplified_request s1 s' sts eps →
  eps `prefix_of` simplified_endpoints →
  (r = Ok true → eps = simplified_endpoints) →
  no_critical sts ∨ one_critical 0 sts →
  ∃ sts eps,
    status <$> verification_results s' = sts
    ∧ (∀ token owner, credentials w token owner →
         sent s' = simplified_root_request token owner
                   :: (simplified_api_request token owner <$> eps))
    ∧ eps `prefix_of` simplified_endpoints
    ∧ (r = Ok true → eps = simplified_endpoints)
    ∧ (no_critical sts ∨ one_critical 0 sts).
Proof.
  intros Hst Hcr ((added & E & S) & Q & _) Hpre Htrue Hcl.
  assert (no_critical (if ok then [s_success] else [])) as Hfirst.
  { destruct ok; decided. }
  exists ((if ok then [s_success] else []) ++ sts), eps. repeat split; try done.
  - by rewrite E, fmap_app, Hst, S.
  - intros token owner Hc. destruct (Hcr _ _ Hc) as (Hs & Hh & Ho & Hr).
    rewrite Q, Hs. simpl. f_equal. apply list_fmap_ext. intros i e Hi.
    apply simplified_request_after_setup; try done.
    apply simplified_endpoints_nonempty. destruct Hpre as [k ->].
    apply elem_of_app. left. by eapply list_elem_of_lookup_2.
  - destruct Hcl as [Hn|Ho]; [left; by apply no_critical_app|right].
    by apply one_critical_prepend.
Qed.

Ltac simplified_leaf_at ok :=
  try apply wp_ret;
  match goal with
  | Hst : status <$> _ = _, Hcr : ∀ token owner, credentials _ token owner → _,
    Hacc : effect _ _ _ _ _ |- _ =>
    eapply (simplified_run_leaf ok _ _ _ _ _ Hst Hcr Hacc); [prefix_ok|done|]
  end.

Ltac simplified_leaf := simplified_leaf_at true.

Lemma simplified_run_effect :
  wp (Simplified.run_verification w)
     (λ r s', ∃ sts eps,
        status <$> verification_results s' = sts
        ∧ (∀ token owner, credentials w token owner →
             sent s' = simplified_root_request token owner
                       :: (simplified_api_request token owner <$> eps))
        ∧ eps `prefix_of` simplified_endpoints
        ∧ (r = Ok true → eps = simplified_endpoints)
        ∧ (no_critical sts ∨ one_critical 0 sts)) init.
Proof.
  unfold Simplified.run_verification.
  do 5 (apply wp_bind; unfold wp at 1; simpl).
  apply wp_bind. unfold wp at 1.
  match goal with |- context [Simplified.setup_environment w ?s0] =>
    destruct (simplified_setup_eq s0) as (ok & s1 & -> & Hst & Hcr) end.
  simpl in *.
  pose proof (effect_refl simplified_request s1) as Hacc.
  destruct ok; simpl; [|simplified_leaf_at false; left; apply no_critical_nil].
  (* the branch *)
  run_step simplified_branch_effect. subst.
  destruct r as [[|]|e]; simpl in Hout |- *;
    [|simplified_leaf; right; apply (one_critical_end _ []); none_critical
     |simplified_leaf; by left].
  (* the document *)
  run_step simplified_document_effect. subst. cbn [app] in *.
  destruct r as [[|]|e]; simpl in Hout0 |- *;
    [|simplified_leaf; right; apply one_critical_end; none_critical
     |simplified_leaf; left; none_critical].
  (* the issue *)
  run_step simplified_issue_effect. subst. cbn [app] in *.
  assert (no_critical ((sts ++ sts0) ++ sts1) ∨ one_critical 0 ((sts ++ sts0) ++ sts1))
    as Hcl.
  { destruct Hout1 as [Hn| ->]; [left; none_critical|right].
    apply one_critical_end; [none_critical|decided]. }
  destruct r as [?|e]; [|by simplified_leaf].
  eapply wp_mono; [apply simplified_report_effect|].
  intros r s' [_ Heff]. cbv beta. ef_chain Heff. rewrite app_nil_r in Hacc.
  by simplified_leaf.
Qed.
End Runs.

Lemma no_critical_has_critical (added : list VerificationResult) :
  no_critical (status <$> added) → has_critical added = false.
Proof.
  unfold no_critical, has_critical. induction added as [|r added IH]; [done|].
  rewrite fmap_cons, not_elem_of_cons. intros [Hr Hrest]. cbn [existsb].
  rewrite IH by done. unfold is_critical, str_eqb.
  rewrite bool_decide_eq_false_2; [done|]. intros Heq. by apply Hr.
Qed.

Lemma effect_keeps_flag rqf s s' sts eps :
  effect rqf s s' sts eps → grows s s' → no_critical sts →
  has_critical_error s' = has_critical_error s.
Proof.
  intros ((added & E & S) & _) (added' & E' & F) Hn.
  rewrite E in E'. apply app_inv_head in E'. subst added'.
  rewrite F, no_critical_has_critical, orb_false_r; [done|]. by rewrite S.
Qed.

Lemma has_critical_false_no_critical (rs : list VerificationResult) :
  has_critical rs = false → no_critical (status <$> rs).
Proof.
  unfold no_critical, has_critical. induction rs as [|r rs IH]; [intros _; apply not_elem_of_nil|].
  cbn [existsb]. intros [Hr Hrest]%orb_false_elim.
  rewrite fmap_cons, not_elem_of_cons. split; [|by apply IH].
  unfold is_critical, str_eqb in Hr. apply bool_decide_eq_false in Hr. by intros Heq.
Qed.

Section Checks.
Context `{PyLib} (w : World).

(** X7: with a token and an organisation in the environment, the requests
    of a whole run are the connection test followed by a prefix of a fixed
    list of endpoints, in the order of the steps and all with the headers
    of [setup_environment]: branch, document and issue list in the
    simplified variant; branch, document, issue list, pull request list,
    comments of one issue, the document a second time and the label list
    in the full variant. *)
Theorem run_requests_in_order (token owner : pystr) :
  credentials w token owner →
  (∃ eps, sent (Simplified.run_verification w init).2
          = simplified_root_request token owner
            :: (simplified_api_request token owner <$> eps)
          ∧ eps `prefix_of` simplified_endpoints)
  ∧ (∃ n eps, sent (Full.run_verification w init).2
              = full_root_request token owner
                :: (full_api_request token owner <$> eps)
              ∧ eps `prefix_of` full_endpoints n).
Proof.
  intros Hc. split.
  - destruct (simplified_run_effect w) as (sts & eps & _ & Hs & Hp & _ & _).
    exists eps. split; [by apply Hs|done].
  - destruct (full_run_effect w) as (ok & sts & eps & n & _ & Hs & _ & Hp & _ & _).
    exists n, eps. split; [by apply Hs|done].
Qed.

(** X8: a run records at most one critical result.  In the simplified
    variant nothing is recorded after it; in the full variant at most one
    result follows it (the core-label result, after a critical result of
    the consistency step). *)
Theorem run_records_one_critical_at_most :
  (let sts := status <$> verification_results (Simplified.run_verification w init).2 in
   no_critical sts ∨ one_critical 0 sts)
  ∧ (let sts := status <$> verification_results (Full.run_verification w init).2 in
     no_critical sts ∨ one_critical 1 sts).
Proof.
  cbv zeta. split.
  - destruct (simplified_run_effect w) as (sts & eps & <- & _ & _ & _ & Hcl). exact Hcl.
  - destruct (full_run_effect w) as (ok & sts & eps & n & -> & _ & Hno & _ & _ & Hcl).
    destruct ok.
    + destruct Hcl as [Hn|Ho]; [left|right].
      * apply (no_critical_app [s_success]); [decided|done].
      * apply (one_critical_prepend _ [s_success]); [decided|done].
    + rewrite Hno by done. right. exists [], [].
      split; [done|]. repeat split; try apply no_critical_nil. simpl. lia.
Qed.

(** X9: a run that returns True has sent every request of its variant,
    four in the simplified variant and eight in the full one, and has
    recorded no critical result: a step that cannot fetch what it asks for
    either stops the run or leaves a critical result that makes the report
    return False. *)
Theorem run_returning_true (token owner : pystr) :
  credentials w token owner →
  ((Simplified.run_verification w init).1 = Ok true →
   sent (Simplified.run_verification w init).2
   = simplified_root_request token owner
     :: (simplified_api_request token owner <$> simplified_endpoints)
   ∧ no_critical (status <$> verification_results (Simplified.run_verification w init).2))
  ∧ ((Full.run_verification w init).1 = Ok true →
     ∃ n, sent (Full.run_verification w init).2
          = full_root_request token owner
            :: (full_api_request token owner <$> full_endpoints n)
          ∧ no_critical (status <$> verification_results (Full.run_verification w init).2)).
Proof.
  intros Hc. split; intros Htrue.
  - destruct (simplified_run_effect w) as (sts & eps & _ & Hs & _ & He & _).
    rewrite (Hs _ _ Hc), (He Htrue). split; [done|].
    destruct (simplified_run_spec w init) as (Hg & Hflag & _).
    apply has_critical_false_no_critical.
    rewrite <- (grows_from_init _ Hg). by apply Hflag.
  - destruct (full_run_effect w) as (ok & sts & eps & n & Hst & Hs & _ & _ & He & _).
    destruct (full_run_spec w init) as (Hg & Hflag & _).
    assert (no_critical (status <$> verification_results (Full.run_verification w init).2))
      as Hnone.
    { apply has_critical_false_no_critical.
      rewrite <- (grows_from_init _ Hg). by apply Hflag. }
    exists n. split; [|done]. rewrite (Hs _ _ Hc).
    destruct (He Htrue) as [->|Hsome]; [done|]. exfalso. apply Hsome.
    intros Hin. apply Hnone. rewrite Hst. by apply elem_of_cons; right.
Qed.

(** X10: each check on whose result the run may stop sends exactly one
    request, and records a critical result exactly when it returns a value
    that stops the run; that critical result is then the last it records
    and the only critical one.  When such a check raises, it has recorded
    no critical result. *)
Theorem stopping_checks_end_in_critical (issue : json) (s : State) :
  wp (Simplified.verify_branch_existence w)
     (λ r s', ∃ sts eps, effect simplified_request s s' sts eps
                         ∧ stop_outcome negb r sts
                         ∧ eps = [py "branches/"
                                  ++ Simplified.feature_branch_name Simplified.config]) s
  ∧ wp (Simplified.verify_label_document w)
       (λ r s', ∃ sts eps, effect simplified_request s s' sts eps
                           ∧ stop_outcome negb r sts
                           ∧ eps = [simplified_doc_endpoint]) s
  ∧ wp (Full.verify_branch_existence w)
       (λ r s', ∃ sts eps, effect full_request s s' sts eps
                           ∧ stop_outcome negb r sts
                           ∧ eps = [py "branches/" ++ Full.feature_branch_name Full.config]) s
  ∧ wp (Full.verify_label_document w)
       (λ r s', ∃ sts eps, effect full_request s s' sts eps
                           ∧ stop_outcome negb r sts
                           ∧ eps = [full_doc_endpoint]) s
  ∧ wp (Full.verify_standardization_issue w)
       (λ r s', ∃ sts eps, effect full_request s s' sts eps
                           ∧ stop_outcome is_falsy r sts
                           ∧ eps = [py "issues?state=all&per_page=50"]) s
  ∧ wp (Full.verify_standardization_pr w issue)
       (λ r s', ∃ sts eps, effect full_request s s' sts eps
                           ∧ stop_outcome is_falsy r sts
                           ∧ eps = [py "pulls?state=all&per_page=50"]) s.
Proof.
  repeat split.
  - apply simplified_branch_effect.
  - apply simplified_document_effect.
  - apply full_branch_effect.
  - apply full_document_effect.
  - apply full_issue_effect.
  - apply full_pr_effect.
Qed.

(** X11: the three checks of the full variant whose result the run
    ignores never record a critical result and leave the flag as it was,
    whatever the issue, the pull request and the server's answers, also
    when they raise.  The two label checks send no request and record at
    most one result; the comment check sends at most one request, for
    the comments of the issue. *)
Theorem ignored_checks_never_critical (issue pr : json) (s : State) :
  wp (Full.verify_issue_label_completeness w issue)
     (λ r s', ∃ sts, effect full_request s s' sts []
                     ∧ no_critical sts ∧ (length sts ≤ 1)%nat
                     ∧ has_critical_error s' = has_critical_error s) s
  ∧ wp (Full.verify_pr_core_labels w pr)
       (λ r s', ∃ sts, effect full_request s s' sts []
                       ∧ no_critical sts ∧ (length sts ≤ 1)%nat
                       ∧ has_critical_error s' = has_critical_error s) s
  ∧ wp (Full.verify_issue_comments w issue pr)
       (λ r s', ∃ sts eps, effect full_request s s' sts eps
                           ∧ no_critical sts
                           ∧ has_critical_error s' = has_critical_error s
                           ∧ ((eps = [] ∧ ¬ is_ok r)
                              ∨ ∃ n, getitem issue (py "number") = Ok n
                                     ∧ eps = [py "issues/" ++ str_of n
                                              ++ py "/comments"])) s.
Proof.
  repeat split.
  - pose proof (full_completeness_effect w issue s) as He.
    pose proof (full_completeness_spec w issue s) as Hg. unfold wp in *.
    destruct He as (sts & eps & Heff & Hn & Hlen & ->).
    exists sts. do 3 (split; [done|]). by eapply effect_keeps_flag.
  - pose proof (full_core_effect w pr s) as He.
    pose proof (full_core_labels_spec w pr s) as Hg. unfold wp in *.
    destruct He as (sts & eps & Heff & Hn & Hlen & ->).
    exists sts. do 3 (split; [done|]). by eapply effect_keeps_flag.
  - pose proof (full_comments_effect w issue pr s) as He.
    pose proof (full_comments_spec w issue pr s) as Hg. unfold wp in *.
    destruct He as (sts & eps & Heff & Hn & Heps).
    exists sts, eps. do 2 (split; [done|]). split; [by eapply effect_keeps_flag|done].
Qed.
End Checks.

(** ** The outcomes of single checks *)

Lemma simplified_api_answer_effect `{PyLib} w e s :
  wp (Simplified.github_api_request w e)
     (λ r s', r = Ok (api_answer (http_get w (sent s) (simplified_request s e)))
              ∧ effect simplified_request s s' [] [e]) s.
Proof.
  unfold wp. destruct (simplified_api_eq w e s) as (s1 & -> & E & _ & Q & Hh & Ho & Hr).
  simpl. split; [done|]. split; [exists []; by rewrite E, app_nil_r|]. done.
Qed.

Lemma full_api_answer_effect `{PyLib} w e s :
  wp (Full.github_api_request w e)
     (λ r s', r = Ok (api_answer (http_get w (sent s) (full_request s e)))
              ∧ effect full_request s s' [] [e]) s.
Proof.
  unfold wp. destruct (full_api_eq w e s) as (s1 & -> & E & _ & Q & Hh & Ho & Hr).
  simpl. split; [done|]. split; [exists []; by rewrite E, app_nil_r|]. done.
Qed.

(** The first call of a check, when it is its request: the answer is
    named, and what follows is read off it. *)
Ltac ef_request L :=
  apply wp_bind; eapply wp_mono; [apply L|];
  let r := fresh "r" in
  let s' := fresh "s" in
  let HP := fresh "HP" in
  intros r s' [-> HP]; ef_chain HP; cbv beta iota.

Lemma full_parse_without_header (content : pystr) :
  contains configured_header content = false →
  Full.parse_label_table content configured_header = [].
Proof.
  intros Hno. apply full_parse_lines_before_header, forallb_forall.
  intros line Hin%list_elem_of_In. apply negb_true_iff.
  destruct (is_header_line line) eqn:Hh; [|done].
  apply line_is_substring in Hin as (p & q & ->).
  unfold is_header_line in Hh.
  by rewrite (contains_app configured_header p line q Hh) in Hno.
Qed.

Lemma contains_longer (short long s : pystr) :
  contains short long = true → contains long s = true → contains short s = true.
Proof.
  rewrite !contains_iff. intros (a & b & ->) (p & q & ->).
  exists (p ++ a), (b ++ q). by rewrite <- !app_assoc.
Qed.

Lemma completion_keywords_two `{PyLib} (body : pystr) :
  Full.any_in_lower Full.completion_keywords (JStr body)
  = Ok (contains (py "完成") (str_lower body) || contains (py "已验证") (str_lower body)).
Proof.
  unfold Full.completion_keywords. cbn [fmap list_fmap Full.any_in_lower lower mbind res_bind].
  destruct (contains (py "完成") (str_lower body)) eqn:H1; [done|].
  destruct (contains (py "完成验证") (str_lower body)) eqn:H2.
  { rewrite (contains_longer (py "完成") (py "完成验证") _) in H1; [done| |done].
    by vm_compute. }
  destruct (contains (py "已验证") (str_lower body)) eqn:H3; [done|].
  destruct (contains (py "标准化完成") (str_lower body)) eqn:H4; [|done].
  rewrite (contains_longer (py "完成") (py "标准化完成") _) in H1; [done| |done].
  by vm_compute.
Qed.

Lemma scan_comments_flags `{PyLib} (k : json) (comments : list json) (p d : bool) :
  forallb comment_typed comments = true →
  Full.scan_comments k comments p d
  = Ok (p || existsb (mentions_pr k) comments, d || existsb says_done comments).
Proof.
  revert p d. induction comments as [|c comments IH]; intros p d Hty.
  { simpl. by rewrite !orb_false_r. }
  cbn [forallb] in Hty. apply andb_prop in Hty as [Hc Hty].
  cbn [Full.scan_comments existsb].
  assert (∃ t, get_default c (py "body") (JStr []) = Ok (JStr t)
               ∧ text_field (py "body") c = t) as (t & -> & Ht).
  { destruct c as [| | | | |f]; try done. unfold comment_typed in Hc. simpl.
    destruct (assoc (py "body") f) as [[]|]; try done; by eexists. }
  unfold mentions_pr, says_done. rewrite Ht.
  cbn [mbind res_bind str_in]. rewrite completion_keywords_two.
  destruct (contains (py "#" ++ str_of k) t); cbn [mbind res_bind orb];
    rewrite IH by done; f_equal; f_equal;
    repeat match goal with |- context [contains ?a ?b] => destruct (contains a b) end;
    destruct p, d; done.
Qed.

Section Outcomes.
Context `{PyLib} (w : World).

(** X12: the document check of the full variant sends one request, for the
    document on the feature branch, and records exactly one result unless
    it raises.  It returns True, with a success, exactly when the document
    was fetched, its content decodes and the table has at least fifteen
    rows; a document without the header line has no rows, so the separate
    test for the header changes the message only.  In every other case
    that returns the result is critical.  Content that does not decode
    makes the check raise with nothing recorded, where the simplified
    variant records a critical result. *)
Theorem full_label_document_outcomes (s : State) :
  let answer := api_answer (http_get w (sent s) (full_request s full_doc_endpoint)) in
  wp (Full.verify_label_document w)
     (λ r s', ∃ sts, effect full_request s s' sts [full_doc_endpoint]
        ∧ if answer.1 then
            match response_content answer.2 with
            | Ok content =>
              let enough :=
                bool_decide (15 ≤ length (Full.parse_label_table content
                                            configured_header))%nat in
              r = Ok enough ∧ sts = [if enough then s_success else s_critical]
            | Raise e => r = Raise e ∧ sts = []
            end
          else r = Ok false ∧ sts = [s_critical]) s.
Proof.
  cbv zeta. revert s. ef_start full_request s. unfold Full.verify_label_document.
  ef_request full_api_answer_effect.
  change (py "contents/" ++ _ ++ _) with full_doc_endpoint in *.
  set (answer := api_answer _) in *. clearbody answer.
  ef_auto; eexists; (split; [eassumption|]);
    destruct answer.1; cbn [negb] in *; try discriminate; cbv beta iota zeta;
    rewrite ?Heqr; try done; unfold configured_header;
    change (Full.label_document_min_label_count Full.config) with 15%nat in *.
  - apply negb_true_iff in Heqb0.
    pose proof (full_parse_without_header _ Heqb0) as Hrows.
    unfold configured_header in Hrows. by rewrite Hrows.
  - apply bool_decide_eq_true in Heqb1.
    rewrite bool_decide_eq_false_2; [done|]. lia.
  - apply bool_decide_eq_false in Heqb1.
    rewrite bool_decide_eq_true_2; [done|]. lia.
Qed.

Lemma core_labels_expected :
  set_of_strs (Full.core_labels Full.config)
  ⊆ set_of_strs (Full.expected_labels Full.config).
Proof.
  unfold set_of_strs. intros k Hk. apply elem_of_list_to_set in Hk.
  apply elem_of_list_to_set. revert k Hk. apply Forall_forall.
  apply (bool_decide_unpack
           (Forall (λ k, k ∈ KStr <$> Full.expected_labels Full.config)
                   (KStr <$> Full.core_labels Full.config))).
  vm_compute. exact I.
Qed.

(** X13: the two label checks of the full variant build the set of the
    label names of the issue, or of the pull request, and return True with
    a success exactly when every expected label, or every core label, is in
    that set; otherwise they return False with a warning.  Labels that
    cannot be read or hashed make them raise with nothing recorded.  The
    core labels are among the expected ones, so labels that pass the first
    check pass the second. *)
Theorem label_checks_outcomes (issue pr : json) (s : State) :
  wp (Full.verify_issue_label_completeness w issue)
     (λ r s', ∃ sts, effect full_request s s' sts []
        ∧ match labels_of issue with
          | Ok labels =>
            let all := bool_decide (set_of_strs (Full.expected_labels Full.config)
                                    ⊆ labels) in
            r = Ok all ∧ sts = [if all then s_success else s_warning]
          | Raise e => r = Raise e ∧ sts = []
          end) s
  ∧ wp (Full.verify_pr_core_labels w pr)
       (λ r s', ∃ sts, effect full_request s s' sts []
          ∧ match labels_of pr with
            | Ok labels =>
              let all := bool_decide (set_of_strs (Full.core_labels Full.config)
                                      ⊆ labels) in
              r = Ok all ∧ sts = [if all then s_success else s_warning]
            | Raise e => r = Raise e ∧ sts = []
            end) s
  ∧ (∀ labels : gset key,
       set_of_strs (Full.expected_labels Full.config) ⊆ labels →
       set_of_strs (Full.core_labels Full.config) ⊆ labels).
Proof.
  split; [|split].
  - revert s. ef_start full_request s. unfold Full.verify_issue_label_completeness.
    ef_auto; eexists; (split; [eassumption|]); unfold labels_of;
      rewrite Heqr; cbn [mbind res_bind]; rewrite ?Heqr0; try done; cbv zeta.
    + apply bool_decide_eq_true in Heqb.
      rewrite bool_decide_eq_false_2; [done|].
      by rewrite <- difference_empty_subseteq.
    + apply bool_decide_eq_false in Heqb.
      rewrite bool_decide_eq_true_2; [done|].
      apply difference_empty_subseteq.
      destruct (decide (set_of_strs (Full.expected_labels Full.config) ∖ a0 = ∅));
        [done|by destruct Heqb].
  - revert s. ef_start full_request s. unfold Full.verify_pr_core_labels.
    ef_auto; eexists; (split; [eassumption|]); unfold labels_of;
      rewrite Heqr; cbn [mbind res_bind]; rewrite ?Heqr0; try done; cbv zeta.
    + apply bool_decide_eq_true in Heqb.
      rewrite bool_decide_eq_false_2; [done|].
      by rewrite <- difference_empty_subseteq.
    + apply bool_decide_eq_false in Heqb.
      rewrite bool_decide_eq_true_2; [done|].
      apply difference_empty_subseteq.
      destruct (decide (set_of_strs (Full.core_labels Full.config) ∖ a0 = ∅));
        [done|by destruct Heqb].
  - intros labels Hexp. etrans; [apply core_labels_expected|done].
Qed.

(** X14: the comment check of the full variant asks for the comments of
    the issue once.  When the request fails it records one warning and
    returns False.  On comments of the expected shape it looks through all
    of them, and finds a reference when some comment holds the number of
    the pull request after a hash sign or after [pull/], and a completion
    when some comment, in lower case, holds one of two words: the other two
    configured keywords contain the first.  It records one warning for each
    of the two that is missing, a success when none is, and returns True
    exactly then. *)
Theorem issue_comments_outcomes (issue pr n k : json) (s : State) :
  getitem issue (py "number") = Ok n →
  getitem pr (py "number") = Ok k →
  let endpoint := py "issues/" ++ str_of n ++ py "/comments" in
  let answer := api_answer (http_get w (sent s) (full_request s endpoint)) in
  wp (Full.verify_issue_comments w issue pr)
     (λ r s', ∃ sts, effect full_request s s' sts [endpoint]
        ∧ if answer.1 then
            ∀ comments, answer.2 = JArr comments →
              forallb comment_typed comments = true →
              let linked := existsb (mentions_pr k) comments in
              let completed := existsb says_done comments in
              r = Ok (linked && completed)
              ∧ sts = (if linked then [] else [s_warning])
                      ++ (if completed then [] else [s_warning])
                      ++ (if linked && completed then [s_success] else [])
          else r = Ok false ∧ sts = [s_warning]) s.
Proof.
  intros Hn Hk. cbv zeta. revert s. ef_start full_request s.
  unfold Full.verify_issue_comments.
  apply wp_bind, wp_lift. rewrite Hn. cbv beta iota.
  apply wp_bind, wp_lift. rewrite Hk. cbv beta iota.
  ef_request full_api_answer_effect.
  set (answer := api_answer _) in *. clearbody answer.
  ef_auto; eexists; (split; [eassumption|]);
    destruct answer.1; cbn [negb] in *; try discriminate; try done;
    intros comments Hans Hty; rewrite Hans in Heqr; cbn [iterate mbind res_bind] in Heqr;
    rewrite scan_comments_flags in Heqr by done; simplify_eq; cbn [fst snd orb] in *;
    destruct (existsb (mentions_pr k) comments), (existsb says_done comments);
    simpl in *; done.
Qed.
End Outcomes.

(** ** The report *)

Lemma printed_printed s a b : printed (printed s a) b = printed s (a ++ b).
Proof. unfold printed. simpl. by rewrite <- app_assoc. Qed.

Lemma print_printed line s :
  wp (print line) (λ r s', r = Ok () ∧ s' = printed s [line]) s.
Proof. done. Qed.

Lemma for_each_print_printed (f : VerificationResult → pystr) rs s :
  wp (for_each (λ r, print (f r)) rs) (λ r s', r = Ok () ∧ s' = printed s (f <$> rs)) s.
Proof.
  revert s. induction rs as [|x rs IH]; intros s.
  { split; [done|]. destruct s. unfold printed. simpl. by rewrite app_nil_r. }
  cbn [for_each]. apply wp_bind. eapply wp_mono; [apply print_printed|].
  intros r s' [-> ->]. cbv beta iota. eapply wp_mono; [apply IH|].
  intros r s' [-> ->]. cbv beta. split; [done|]. by rewrite printed_printed.
Qed.

Lemma count_critical_zero (rs : list VerificationResult) :
  has_critical rs = false → count_status s_critical rs = 0%nat.
Proof.
  unfold has_critical, count_status. induction rs as [|r rs IH]; [done|].
  cbn [existsb]. intros [Hr Hrest]%orb_false_elim.
  unfold is_critical, str_eqb in Hr. apply bool_decide_eq_false in Hr.
  rewrite filter_cons, decide_False by done. by apply IH.
Qed.

Lemma count_critical_positive (rs : list VerificationResult) :
  has_critical rs = true → (0 < count_status s_critical rs)%nat.
Proof.
  unfold has_critical, count_status. induction rs as [|r rs IH]; [done|].
  cbn [existsb]. rewrite filter_cons.
  destruct (decide (status r = s_critical)) as [Hr|Hr]; [simpl; lia|].
  unfold is_critical, str_eqb. rewrite bool_decide_eq_false_2 by done. apply IH.
Qed.

Ltac pr_step :=
  apply wp_bind; eapply wp_mono;
    [first [apply print_printed | apply for_each_print_printed]|];
  let r := fresh "r" in
  let s' := fresh "s" in
  intros r s' [-> ->]; cbv beta iota.

Ltac pr_last :=
  pr_step; apply wp_ret; rewrite !printed_printed; eexists; split; [reflexivity|].

Lemma simplified_report_lines s :
  wp Simplified.generate_report
     (λ r s', ∃ lines, s' = printed s lines
        ∧ r = Ok (negb (has_critical_error s))
        ∧ length lines = (length (verification_results s) + 8)%nat
        ∧ last lines = Some (if has_critical_error s then py "❌ 验证失败: 存在关键错误"
                             else py "✅ 所有验证通过!")) s.
Proof.
  unfold Simplified.generate_report, Simplified.print_result_line.
  do 3 pr_step. apply wp_bind, wp_read. cbv beta iota zeta. do 5 pr_step.
  apply wp_bind, wp_read. cbv beta iota.
  change (has_critical_error (printed _ _)) with (has_critical_error s).
  change (verification_results (printed _ _)) with (verification_results s).
  destruct (has_critical_error s); pr_last; cbn [negb];
    (split; [done|]);
    (split; [rewrite !length_app, length_fmap; cbn [length]; lia|]);
    rewrite !last_app; reflexivity.
Qed.

Lemma full_report_lines s :
  wp Full.generate_report
     (λ r s', ∃ lines, s' = printed s lines
        ∧ r = Ok (negb (has_critical_error s))
        ∧ length lines = (length (verification_results s) + 8)%nat
        ∧ last lines
          = Some (if has_critical_error s then py "❌ 验证失败: 存在关键错误"
                  else if has_critical (verification_results s)
                       then py "⚠️ 验证完成但存在警告"
                       else py "✅ 所有验证通过!")) s.
Proof.
  unfold Full.generate_report, Full.print_result_line.
  do 3 pr_step. apply wp_bind, wp_read. cbv beta iota zeta. do 5 pr_step.
  apply wp_bind, wp_read. cbv beta iota.
  change (has_critical_error (printed _ _)) with (has_critical_error s).
  change (verification_results (printed _ _)) with (verification_results s).
  destruct (has_critical_error s).
  - pr_last; cbn [negb];
    (split; [done|]);
    (split; [rewrite !length_app, length_fmap; cbn [length]; lia|]);
    rewrite !last_app; reflexivity.
  - destruct (has_critical (verification_results s)) eqn:Hlog.
    + rewrite bool_decide_eq_true_2 by by apply count_critical_positive.
      pr_last; cbn [negb];
      (split; [done|]);
      (split; [rewrite !length_app, length_fmap; cbn [length]; lia|]);
      rewrite !last_app; reflexivity.
    + rewrite bool_decide_eq_false_2 by (rewrite count_critical_zero by done; lia).
      pr_last; cbn [negb];
      (split; [done|]);
      (split; [rewrite !length_app, length_fmap; cbn [length]; lia|]);
      rewrite !last_app; reflexivity.
Qed.

(** X15: [generate_report] returns False exactly when the flag is set and
    changes nothing but the output: it prints eight times and once for
    each result in the log.  What it prints last is the verdict: the
    failure line when the flag is set and the all-passed line otherwise,
    whatever warnings were recorded.  The full variant has a third verdict,
    for a log with a critical result under a flag that is not set: it
    counts the critical results, not the warnings, so when the flag says
    whether the log holds a critical result that verdict is never
    printed. *)
Theorem report_verdict (s : State) :
  (let out := Simplified.generate_report s in
   out.1 = Ok (negb (has_critical_error s))
   ∧ verification_results out.2 = verification_results s
   ∧ has_critical_error out.2 = has_critical_error s
   ∧ sent out.2 = sent s
   ∧ take (length (stdout s)) (stdout out.2) = stdout s
   ∧ length (stdout out.2)
     = (length (stdout s) + (length (verification_results s) + 8))%nat
   ∧ last (stdout out.2)
     = Some (if has_critical_error s then py "❌ 验证失败: 存在关键错误"
             else py "✅ 所有验证通过!"))
  ∧ (let out := Full.generate_report s in
     out.1 = Ok (negb (has_critical_error s))
     ∧ verification_results out.2 = verification_results s
     ∧ has_critical_error out.2 = has_critical_error s
     ∧ sent out.2 = sent s
     ∧ take (length (stdout s)) (stdout out.2) = stdout s
     ∧ length (stdout out.2)
       = (length (stdout s) + (length (verification_results s) + 8))%nat
     ∧ last (stdout out.2)
       = Some (if has_critical_error s then py "❌ 验证失败: 存在关键错误"
               else if has_critical (verification_results s)
                    then py "⚠️ 验证完成但存在警告"
                    else py "✅ 所有验证通过!")
     ∧ (flag_matches_log s →
        last (stdout out.2)
        = Some (if has_critical_error s then py "❌ 验证失败: 存在关键错误"
                else py "✅ 所有验证通过!"))).
Proof.
  cbv zeta. split.
  - destruct (simplified_report_lines s) as (lines & Hs & Hr & Hlen & Hlast).
    rewrite Hs, Hr. cbn [printed verification_results has_critical_error sent stdout].
    rewrite take_app_length, length_app, last_app, Hlast, Hlen. done.
  - destruct (full_report_lines s) as (lines & Hs & Hr & Hlen & Hlast).
    rewrite Hs, Hr. cbn [printed verification_results has_critical_error sent stdout].
    rewrite take_app_length, length_app, last_app, Hlast, Hlen.
    do 7 (split; [done|]). intros Hm. unfold flag_matches_log in Hm. rewrite <- Hm.
    by destruct (has_critical_error s).
Qed.

(** ** Issues and pull requests without a description *)

Lemma missing_from_null (kws : list pystr) :
  kws ≠ [] → missing_from kws JNull = Raise TypeError.
Proof. by destruct kws. Qed.

Lemma null_body_truthy (j : json) :
  get_default j (py "body") (JStr []) = Ok JNull → truthy j = true.
Proof. destruct j as [| | | | |f]; try done. by destruct f. Qed.

Section NullBody.
Context `{PyLib} (w : World).

(** X16: GitHub sends [null] for the body of an issue or a pull request
    without a description.  When the issue that the full variant selects
    has such a body, the issue check raises before it records anything, a
    TypeError unless reading the labels failed first, whatever the pull
    requests are.  Likewise, when the pull request that the full variant
    selects has such a body, the pull request check raises before it
    records anything, a TypeError unless reading its labels or the number
    of the issue handed over failed first.  Each has sent its one request
    by then. *)
Theorem null_body_raises (issue pr linked : json) (s : State) :
  let issues := api_answer (http_get w (sent s)
                  (full_request s (py "issues?state=all&per_page=50"))) in
  let pulls := api_answer (http_get w (sent s)
                 (full_request s (py "pulls?state=all&per_page=50"))) in
  (issues.1 = true →
   (l ← iterate issues.2;
    Full.find_target_issue (Full.issue_validation_title_keywords Full.config) l)
   = Ok (Some issue) →
   get_default issue (py "body") (JStr []) = Ok JNull →
   wp (Full.verify_standardization_issue w)
      (λ r s', ∃ e, r = Raise e
                    ∧ effect full_request s s' [] [py "issues?state=all&per_page=50"]
                    ∧ (is_ok (label_names issue) → e = TypeError)) s)
  ∧ (pulls.1 = true →
     (l ← iterate pulls.2;
      Full.find_target_pr (Full.pr_validation_title_keywords Full.config) l)
     = Ok (Some pr) →
     get_default pr (py "body") (JStr []) = Ok JNull →
     wp (Full.verify_standardization_pr w linked)
        (λ r s', ∃ e, r = Raise e
                      ∧ effect full_request s s' [] [py "pulls?state=all&per_page=50"]
                      ∧ (is_ok (label_names pr) →
                         is_ok (getitem linked (py "number")) → e = TypeError)) s).
Proof.
  cbv zeta. split.
  - intros Hfetched Hfound Hbody. revert s Hfetched Hfound.
    ef_start full_request s. intros Hfetched Hfound.
    unfold Full.verify_standardization_issue.
    ef_request full_api_answer_effect.
    set (answer := api_answer _) in *. clearbody answer.
    rewrite Hfetched. cbn [negb]. cbv beta iota zeta.
    apply wp_bind, wp_lift. rewrite Hfound. cbv beta iota. cbn [default from_option id].
    rewrite (null_body_truthy _ Hbody). cbn [negb]. cbv beta iota.
    apply wp_bind, wp_lift. rewrite Hbody. cbv beta iota.
    apply wp_bind, wp_lift. destruct (label_names issue) as [names|e] eqn:Hnames.
    2: { exists e. split; [done|]. split; [done|]. by intros []. }
    cbv beta iota. apply wp_bind, wp_lift.
    rewrite missing_from_null by done.
    exists TypeError. done.
  - intros Hfetched Hfound Hbody. revert s Hfetched Hfound.
    ef_start full_request s. intros Hfetched Hfound.
    unfold Full.verify_standardization_pr.
    ef_request full_api_answer_effect.
    set (answer := api_answer _) in *. clearbody answer.
    rewrite Hfetched. cbn [negb]. cbv beta iota zeta.
    apply wp_bind, wp_lift. rewrite Hfound. cbv beta iota. cbn [default from_option id].
    rewrite (null_body_truthy _ Hbody). cbn [negb]. cbv beta iota.
    apply wp_bind, wp_lift. rewrite Hbody. cbv beta iota.
    apply wp_bind, wp_lift. destruct (label_names pr) as [names|e] eqn:Hnames.
    2: { exists e. split; [done|]. split; [done|]. by intros []. }
    cbv beta iota. apply wp_bind, wp_lift.
    destruct (getitem linked (py "number")) as [n|e] eqn:Hnumber.
    2: { exists e. split; [done|]. split; [done|]. by intros _ []. }
    cbv beta iota. apply wp_bind, wp_lift. cbn [str_in].
    exists TypeError. done.
Qed.
End NullBody.

(** The issue has no description and the pull request has one: the issue
    check raises, and so does the run, after three successes.  Both have
    none: the pull request check raises too. *)

(** ** What the issue check of the full variant looks at *)

Lemma missing_from_text (kws : list pystr) (text : pystr) :
  missing_from kws (JStr text) = Ok (absent_from_text text kws).
Proof.
  unfold absent_from_text. induction kws as [|kw kws IH]; [done|].
  cbn [missing_from str_in mbind res_bind]. rewrite IH. cbn [mbind res_bind].
  rewrite filter_cons. destruct (contains kw text).
  - by rewrite decide_False.
  - by rewrite decide_True.
Qed.

Lemma missing_from_names (labels : list pystr) (names : list json) :
  missing_from labels (JArr names) = Ok (absent_from_names names labels).
Proof.
  unfold absent_from_names. induction labels as [|l labels IH]; [done|].
  cbn [missing_from str_in mbind res_bind]. rewrite IH. cbn [mbind res_bind].
  rewrite filter_cons. destruct (existsb (is_str l) names).
  - by rewrite decide_False.
  - by rewrite decide_True.
Qed.

Lemma numbered_truthy (j n : json) : getitem j (py "number") = Ok n → truthy j = true.
Proof. destruct j as [| | | | |f]; try done. by destruct f. Qed.

Section IssueText.
Context `{PyLib} (w : World).

(** X17: when the issue that the full variant selects has a text body,
    labels with names and a number, the issue check returns the issue
    itself and records up to three warnings and then one success: a
    warning when a body keyword is not in the body, one when a required
    section heading is not in the body, one when a required label is not
    among the names of the issue's labels.  A warning never changes what
    the check returns. *)
Theorem issue_check_on_text_body (issue n : json) (body : pystr) (names : list json)
    (s : State) :
  let issues := api_answer (http_get w (sent s)
                  (full_request s (py "issues?state=all&per_page=50"))) in
  issues.1 = true →
  (l ← iterate issues.2;
   Full.find_target_issue (Full.issue_validation_title_keywords Full.config) l)
  = Ok (Some issue) →
  get_default issue (py "body") (JStr []) = Ok (JStr body) →
  label_names issue = Ok names →
  getitem issue (py "number") = Ok n →
  wp (Full.verify_standardization_issue w)
     (λ r s',
        r = Ok issue
        ∧ effect full_request s s'
            (warning_for (absent_from_text body
                            (Full.issue_validation_body_keywords Full.config))
             ++ warning_for (absent_from_text body
                               (Full.issue_validation_required_sections Full.config))
             ++ warning_for (absent_from_names names
                               (Full.issue_validation_required_labels Full.config))
             ++ [s_success])
            [py "issues?state=all&per_page=50"]) s.
Proof.
  cbv zeta. intros Hfetched Hfound Hbody Hnames Hnumber. revert s Hfetched Hfound.
  ef_start full_request s. intros Hfetched Hfound.
  unfold Full.verify_standardization_issue.
  ef_request full_api_answer_effect.
  set (answer := api_answer _) in *. clearbody answer.
  rewrite Hfetched. cbn [negb]. cbv beta iota zeta.
  apply wp_bind, wp_lift. rewrite Hfound. cbv beta iota. cbn [default from_option id].
  rewrite (numbered_truthy _ _ Hnumber). cbn [negb]. cbv beta iota.
  apply wp_bind, wp_lift. rewrite Hbody. cbv beta iota.
  apply wp_bind, wp_lift. rewrite Hnames. cbv beta iota.
  rewrite !missing_from_text, missing_from_names, Hnumber.
  unfold warning_for.
  ef_auto; simplify_eq; (split; [done|]); cbn [app]; assumption.
Qed.

(** X18: when the pull request that the full variant selects has a text
    body, labels with names and a number, and the issue handed over has a
    number, the pull request check returns the pull request itself and
    records up to three warnings and then one success: a warning when the
    body does not contain the issue number after a hash sign, one when a
    required section heading is not in the body, one when the pull request
    has fewer than three labels.  The body keywords and the required
    labels of the configuration play no part. *)
Theorem pr_check_on_text_body (pr linked n k : json) (body : pystr)
    (names : list json) (s : State) :
  let pulls := api_answer (http_get w (sent s)
                 (full_request s (py "pulls?state=all&per_page=50"))) in
  pulls.1 = true →
  (l ← iterate pulls.2;
   Full.find_target_pr (Full.pr_validation_title_keywords Full.config) l)
  = Ok (Some pr) →
  get_default pr (py "body") (JStr []) = Ok (JStr body) →
  label_names pr = Ok names →
  getitem linked (py "number") = Ok n →
  getitem pr (py "number") = Ok k →
  wp (Full.verify_standardization_pr w linked)
     (λ r s',
        r = Ok pr
        ∧ effect full_request s s'
            ((if contains (py "#" ++ str_of n) body then [] else [s_warning])
             ++ warning_for (absent_from_text body
                               (Full.pr_validation_required_sections Full.config))
             ++ (if bool_decide (length names < 3)%nat then [s_warning] else [])
             ++ [s_success])
            [py "pulls?state=all&per_page=50"]) s.
Proof.
  cbv zeta. intros Hfetched Hfound Hbody Hnames Hlinked Hnumber.
  revert s Hfetched Hfound.
  ef_start full_request s. intros Hfetched Hfound.
  unfold Full.verify_standardization_pr.
  ef_request full_api_answer_effect.
  set (answer := api_answer _) in *. clearbody answer.
  rewrite Hfetched. cbn [negb]. cbv beta iota zeta.
  apply wp_bind, wp_lift. rewrite Hfound. cbv beta iota. cbn [default from_option id].
  rewrite (numbered_truthy _ _ Hnumber). cbn [negb]. cbv beta iota.
  apply wp_bind, wp_lift. rewrite Hbody. cbv beta iota.
  apply wp_bind, wp_lift. rewrite Hnames. cbv beta iota.
  rewrite Hlinked, !missing_from_text, Hnumber. cbn [str_in].
  unfold warning_for.
  change (Full.pr_validation_min_labels_count Full.config) with 3%nat.
  ef_auto; simplify_eq; (split; [done|]);
    repeat match goal with
           | Hb : negb _ = true |- _ => apply negb_true_iff in Hb
           | Hb : negb _ = false |- _ => apply negb_false_iff in Hb
           end;
    repeat match goal with
           | Hb : ?x = _ |- context [if ?x then _ else _] => rewrite Hb
           end;
    cbn [app]; assumption.
Qed.
End IssueText.

(** ** The issue check of the simplified variant *)

Section SimplifiedIssue.
Context `{PyLib} (w : World).

(** X19: the issue check of the simplified variant sends one request, for
    the first hundred issues.  When the request fails it records a critical
    result and returns None, and the run goes on to the report.  On issues
    of the expected shape it takes the first one that matches; when none
    matches it records a warning only and returns None; when the match
    carries a number and a title it records a success and returns the
    issue, and when one of the two is missing it raises a KeyError with
    nothing recorded. *)
Theorem simplified_issue_outcomes (s : State) :
  let endpoint := py "issues?state=all&per_page=100" in
  let answer := api_answer (http_get w (sent s) (simplified_request s endpoint)) in
  wp (Simplified.verify_standardization_issue w)
     (λ r s', ∃ sts, effect simplified_request s s' sts [endpoint]
        ∧ if answer.1 then
            ∀ issues, answer.2 = JArr issues →
              forallb issue_typed issues = true →
              match find matches_simplified issues with
              | Some issue =>
                if truthy issue then
                  if has_field (py "number") issue && has_field (py "title") issue
                  then r = Ok issue ∧ sts = [s_success]
                  else r = Raise KeyError ∧ sts = []
                else r = Ok JNull ∧ sts = [s_warning]
              | None => r = Ok JNull ∧ sts = [s_warning]
              end
          else r = Ok JNull ∧ sts = [s_critical]) s.
Proof.
  cbv zeta. revert s. ef_start simplified_request s.
  unfold Simplified.verify_standardization_issue.
  ef_request simplified_api_answer_effect.
  set (answer := api_answer _) in *. clearbody answer.
  ef_auto; eexists; (split; [eassumption|]);
    destruct answer.1; cbn [negb] in *; try discriminate; try done;
    intros issues Hans Hty; rewrite Hans in Heqr; cbn [iterate mbind res_bind] in Heqr;
    rewrite simplified_find_target_issue_find in Heqr by done; simplify_eq;
    destruct (find matches_simplified issues) as [issue|] eqn:Hfind;
    cbn [default from_option id] in *; try done;
    destruct (truthy issue) eqn:Htruthy; cbn [negb] in *; try discriminate; try done.
  all: apply find_some in Hfind as [Hin _].
  all: assert (∃ f, issue = JObj f) as [f ->]
         by (rewrite forallb_forall in Hty; specialize (Hty _ Hin);
             destruct issue; try done; by eexists).
  all: unfold has_field, getitem in *.
  all: repeat match goal with
         | Hg : match assoc ?k ?f with _ => _ end = _ |- _ =>
           destruct (assoc k f) eqn:?; simplify_eq
         end.
  all: rewrite ?bool_decide_eq_true_2 by by eexists.
  all: try done.
  all: try (rewrite (bool_decide_eq_false_2 (is_Some None)) by (by intros [? ?]);
            rewrite ?andb_false_r; done).
Qed.
End SimplifiedIssue.

(** ** The search for the pull request *)

Lemma find_target_pr_typed (kws : list pystr) (pr : json) (rest : list json) :
  pr_typed pr = true →
  Full.find_target_pr kws (pr :: rest)
  = if any_in kws (text_field (py "title") pr) then Ok (Some pr)
    else Full.find_target_pr kws rest.
Proof.
  destruct pr as [| | | | |f]; try done. unfold pr_typed, text_field.
  cbn [Full.find_target_pr get_default mbind res_bind].
  destruct (assoc (py "title") f) as [[| | |title| |]|]; try done; intros _;
    cbn [default from_option id]; rewrite any_str_in_string; by cbn [mbind res_bind].
Qed.

(** X20: the search for the pull request goes through the list in order.
    Past pull requests of the expected shape whose titles hold no title
    keyword, it returns the first one whose title holds one, whatever
    follows it in the list; it raises an AttributeError at an element that
    is not an object; and it returns None at the end of the list.  Unlike
    the search for the issue it skips nothing. *)
Theorem pr_search_first_match (before : list json) :
  forallb pr_typed before = true →
  forallb (λ j, negb (matches_pr j)) before = true →
  Full.find_target_pr (Full.pr_validation_title_keywords Full.config) before = Ok None
  ∧ (∀ hit after, pr_typed hit = true → matches_pr hit = true →
       Full.find_target_pr (Full.pr_validation_title_keywords Full.config)
         (before ++ hit :: after) = Ok (Some hit))
  ∧ (∀ x after, is_object x = false →
       Full.find_target_pr (Full.pr_validation_title_keywords Full.config)
         (before ++ x :: after) = Raise AttributeError).
Proof.
  induction before as [|pr before IH]; intros Hty Hno.
  - split; [done|]. split.
    + intros hit after Hhit Hm. rewrite app_nil_l, find_target_pr_typed by done.
      unfold matches_pr in Hm. by rewrite Hm.
    + intros x after Hx. by destruct x.
  - cbn [forallb] in Hty, Hno. apply andb_prop in Hty as [Hpr Hty].
    apply andb_prop in Hno as [Hn Hno]. apply negb_true_iff in Hn.
    unfold matches_pr in Hn. destruct (IH Hty Hno) as (IH1 & IH2 & IH3).
    split; [|split].
    + by rewrite find_target_pr_typed, Hn.
    + intros hit after Hhit Hm. rewrite <- app_comm_cons.
      rewrite find_target_pr_typed, Hn by done. by apply IH2.
    + intros x after Hx. rewrite <- app_comm_cons.
      rewrite find_target_pr_typed, Hn by done. by apply IH3.
Qed.


(** ** Examples for the further properties *)

Lemma simplified_run_without_credentials_witness :
  (@Simplified.run_verification ref_pylib world_no_token init).1 = Ok false
  ∧ sent (@Simplified.run_verification ref_pylib world_no_token init).2 = []
  ∧ verification_results (@Simplified.run_verification ref_pylib world_no_token init).2
    = [].
Proof.
  destruct (@simplified_run_without_credentials ref_pylib world_no_token init)
    as (_ & Hr & Hs & Hv & _); [vm_compute; reflexivity|].
  split; [exact Hr|]. split; [exact Hs|exact Hv].
Defined.

Lemma full_run_without_credentials_witness :
  (@Full.run_verification ref_pylib world_no_token init).1 = Ok false
  ∧ sent (@Full.run_verification ref_pylib world_no_token init).2 = []
  ∧ has_critical_error (@Full.run_verification ref_pylib world_no_token init).2 = true.
Proof.
  destruct (@full_run_without_credentials ref_pylib world_no_token)
    as (Hr & Hs & Hf & _); [vm_compute; reflexivity|].
  split; [exact Hr|]. split; [exact Hs|exact Hf].
Defined.

Lemma setup_environment_with_credentials_witness :
  credentials world_doc12 (py "ghp_example") (py "octo")
  ∧ (Simplified.setup_environment world_doc12 init).1 = Ok true
  ∧ sent (Simplified.setup_environment world_doc12 init).2
    = [simplified_root_request (py "ghp_example") (py "octo")]
  ∧ (Full.setup_environment world_doc12 init).1 = Ok true
  ∧ sent (Full.setup_environment world_doc12 init).2
    = [full_root_request (py "ghp_example") (py "octo")].
Proof.
  assert (credentials world_doc12 (py "ghp_example") (py "octo")) as Hc.
  { repeat split; by vm_compute. }
  split; [exact Hc|].
  destruct (setup_environment_with_credentials world_doc12 _ _ init Hc)
    as [(s1 & E1 & Q1 & _) (s2 & E2 & Q2 & _)].
  rewrite E1, E2. cbn [fst snd]. rewrite Q1, Q2.
  split; [vm_compute; reflexivity|]. split; [reflexivity|].
  split; [vm_compute; reflexivity|reflexivity].
Defined.

Lemma full_document_label_names_witness :
  Full.doc_label_names (Full.parse_label_table doc_full configured_header)
  = list_to_set
      ((λ line, KStr (default [] (head (cells_of line))))
         <$> filter (λ line, is_table_row line)
               (until_blank (drop 3 (split_on ch_newline doc_full)))).
Proof.
  apply (full_document_label_names doc_full
           (take 2 (split_on ch_newline doc_full)) configured_header
           (drop 3 (split_on ch_newline doc_full)));
    vm_compute; reflexivity.
Defined.

Lemma run_requests_in_order_witness :
  credentials world_passing (py "ghp_example") (py "octo")
  ∧ (∃ eps, sent (@Simplified.run_verification ref_pylib world_passing init).2
            = simplified_root_request (py "ghp_example") (py "octo")
              :: (simplified_api_request (py "ghp_example") (py "octo") <$> eps)
            ∧ eps `prefix_of` simplified_endpoints)
  ∧ (∃ n eps, sent (@Full.run_verification ref_pylib world_passing init).2
              = full_root_request (py "ghp_example") (py "octo")
                :: (full_api_request (py "ghp_example") (py "octo") <$> eps)
              ∧ eps `prefix_of` @full_endpoints ref_pylib n).
Proof.
  assert (credentials world_passing (py "ghp_example") (py "octo")) as Hc.
  { repeat split; by vm_compute. }
  split; [exact Hc|].
  exact (@run_requests_in_order ref_pylib world_passing _ _ Hc).
Defined.

Lemma run_returning_true_witness :
  credentials world_passing (py "ghp_example") (py "octo")
  ∧ (@Simplified.run_verification ref_pylib world_passing init).1 = Ok true
  ∧ (@Full.run_verification ref_pylib world_passing init).1 = Ok true
  ∧ length (sent (@Simplified.run_verification ref_pylib world_passing init).2) = 4%nat
  ∧ length (sent (@Full.run_verification ref_pylib world_passing init).2) = 8%nat.
Proof.
  assert (credentials world_passing (py "ghp_example") (py "octo")) as Hc.
  { repeat split; by vm_compute. }
  assert ((@Simplified.run_verification ref_pylib world_passing init).1 = Ok true) as Hs.
  { vm_compute. reflexivity. }
  assert ((@Full.run_verification ref_pylib world_passing init).1 = Ok true) as Hf.
  { vm_compute. reflexivity. }
  split; [exact Hc|]. split; [exact Hs|]. split; [exact Hf|].
  destruct (@run_returning_true ref_pylib world_passing _ _ Hc) as [Hsr Hfr].
  destruct (Hsr Hs) as [Es _]. destruct (Hfr Hf) as (n & Ef & _).
  rewrite Es, Ef. split; reflexivity.
Defined.

Lemma issue_comments_outcomes_witness :
  getitem (JObj [(py "number", JNum 7)]) (py "number") = Ok (JNum 7)
  ∧ getitem (JObj [(py "number", JNum 9)]) (py "number") = Ok (JNum 9)
  ∧ wp (@Full.verify_issue_comments ref_pylib world_comments
          (JObj [(py "number", JNum 7)]) (JObj [(py "number", JNum 9)]))
       (λ r s', r = Ok true ∧ (status <$> verification_results s') = [s_success]) init.
Proof.
  split; [by vm_compute|]. split; [by vm_compute|].
  pose proof (@issue_comments_outcomes ref_pylib world_comments
                (JObj [(py "number", JNum 7)]) (JObj [(py "number", JNum 9)])
                (JNum 7) (JNum 9) init eq_refl eq_refl) as Hw.
  unfold wp in *. destruct Hw as (sts & ((added & E & S) & _) & Hw).
  destruct (Hw two_comments) as [-> ->]; [by vm_compute..|].
  split; [by vm_compute|]. rewrite E. simpl. rewrite S. by vm_compute.
Defined.

Lemma null_body_raises_witness :
  (@Full.verify_standardization_issue ref_pylib world_bare_issue init).1
  = Raise TypeError
  ∧ (@Full.verify_standardization_pr ref_pylib world_bare bare_issue init).1
    = Raise TypeError
  ∧ (@Full.run_verification ref_pylib world_bare_issue init).1 = Raise TypeError
  ∧ (@Full.main ref_pylib world_bare_issue).1 = 1%Z
  ∧ status <$> verification_results (@Full.main ref_pylib world_bare_issue).2
    = [s_success; s_success; s_success].
Proof.
  destruct (@null_body_raises ref_pylib world_bare_issue bare_issue passing_pr
              bare_issue init) as [Hi _].
  destruct (@null_body_raises ref_pylib world_bare bare_issue bare_pr
              bare_issue init) as [_ Hp].
  specialize (Hi ltac:(vm_compute; reflexivity) ltac:(vm_compute; reflexivity)
                 ltac:(vm_compute; reflexivity)).
  specialize (Hp ltac:(vm_compute; reflexivity) ltac:(vm_compute; reflexivity)
                 ltac:(vm_compute; reflexivity)).
  unfold wp in Hi, Hp.
  destruct Hi as (e & Hr & _ & He). rewrite (He I) in Hr.
  destruct Hp as (e' & Hr' & _ & He'). rewrite (He' I I) in Hr'.
  split; [exact Hr|]. split; [exact Hr'|].
  split; [|split]; vm_compute; reflexivity.
Defined.

Lemma issue_check_on_text_body_witness :
  wp (@Full.verify_standardization_issue ref_pylib world_doc12)
     (λ r s', r = Ok (JObj [(py "number", JNum 2);
                            (py "title", JStr (py "标签标准化需求"));
                            (py "body", JStr (py "统一标签体系"))])
              ∧ status <$> verification_results s'
                = [s_warning; s_warning; s_warning; s_success]) init.
Proof.
  pose proof (@issue_check_on_text_body ref_pylib world_doc12
                (JObj [(py "number", JNum 2); (py "title", JStr (py "标签标准化需求"));
                       (py "body", JStr (py "统一标签体系"))])
                (JNum 2) (py "统一标签体系") [] init) as Hw.
  cbv zeta in Hw.
  specialize (Hw ltac:(vm_compute; reflexivity) ltac:(vm_compute; reflexivity)
                 ltac:(vm_compute; reflexivity) ltac:(vm_compute; reflexivity)
                 ltac:(vm_compute; reflexivity)).
  unfold wp in *. destruct Hw as [Hr ((added & E & S) & _)].
  split; [exact Hr|]. rewrite E. cbn [init verification_results app]. rewrite S.
  vm_compute. reflexivity.
Defined.

Lemma pr_check_on_text_body_witness :
  wp (@Full.verify_standardization_pr ref_pylib world_passing
        (JObj [(py "number", JNum 1)]))
     (λ r s', r = Ok passing_pr
              ∧ status <$> verification_results s' = [s_success]) init.
Proof.
  pose proof (@pr_check_on_text_body ref_pylib world_passing passing_pr
                (JObj [(py "number", JNum 1)]) (JNum 1) (JNum 13)
                (py "## 修改摘要
Closes #12
## 标签变更
## 测试结果")
                ((λ n, JStr n) <$> Full.core_labels Full.config) init) as Hw.
  cbv zeta in Hw.
  specialize (Hw ltac:(vm_compute; reflexivity) ltac:(vm_compute; reflexivity)
                 ltac:(vm_compute; reflexivity) ltac:(vm_compute; reflexivity)
                 ltac:(vm_compute; reflexivity) ltac:(vm_compute; reflexivity)).
  unfold wp in *. destruct Hw as [Hr ((added & E & S) & _)].
  split; [exact Hr|]. rewrite E. cbn [init verification_results app]. rewrite S.
  vm_compute. reflexivity.
Defined.

Lemma pr_search_first_match_witness :
  Full.find_target_pr (Full.pr_validation_title_keywords Full.config)
    [JObj [(py "title", JStr (py "Fix typo"))]; JObj []; passing_pr; JNull]
  = Ok (Some passing_pr)
  ∧ Full.find_target_pr (Full.pr_validation_title_keywords Full.config)
      [JObj [(py "title", JStr (py "Fix typo"))]; JObj []; JNull; passing_pr]
    = Raise AttributeError.
Proof.
  destruct (pr_search_first_match [JObj [(py "title", JStr (py "Fix typo"))]; JObj []])
    as (_ & Hhit & Hraise); [vm_compute; reflexivity..|].
  split.
  - apply (Hhit passing_pr [JNull]); vm_compute; reflexivity.
  - apply (Hraise JNull [passing_pr]). reflexivity.
Defined.
